(** * ratesreader: a shallow embedding of [ratesreader/ratesreader.py]

    The development follows the layout of the Python module:
    - [Py]: the Python values the module handles (decoded JSON, page text,
      exception objects) and the builtins it applies to them;
    - [UrlReader]: the base fetcher [_get_raw_data], with its
      [try / except / finally] control flow written out;
    - [Loop]: [asyncio.gather(..., return_exceptions=True)] over tasks that
      share one reader object, for an arbitrary interleaving;
    - [TronWalletReader], [BscScanWalletReader], [MOEXReader], [HTMLReader],
      [XeReader]: the provider adapters.

    Conventions.  Numbers are Python [int]s ([Z]); a Python [float] takes
    part only in library conversions ([datetime], [decimal]), which are
    Section variables.  Text is a Rocq [string], one character per byte;
    [upper] and whitespace are the ASCII ones. *)

From Stdlib Require Import ZArith List String Ascii Bool Lia DecimalString.
Import ListNotations.

Set Warnings "-register-all".

Local Open Scope string_scope.
Local Open Scope Z_scope.

(* ===================================================================== *)
(** * Python values and builtins                                          *)
(* ===================================================================== *)

Module Py.

(** The exception classes that can be in flight in the modelled code.
    [ClientError] stands for [aiohttp.ClientError] and its subclasses;
    [CancelledError] and [KeyboardInterrupt] derive from [BaseException]
    only. *)
Inductive exn : Type :=
| ValueError
| KeyError
| TypeError
| AttributeError
| IndexError
| UnboundLocalError
| OverflowError
| InvalidOperation
| ParserError
| ClientError
| CancelledError
| KeyboardInterrupt.

(** [isinstance(e, Exception)] *)
Definition is_Exception (e : exn) : bool :=
  match e with
  | CancelledError | KeyboardInterrupt => false
  | _ => true
  end.

(** [isinstance(e, aiohttp.ClientError)] *)
Definition is_ClientError (e : exn) : bool :=
  match e with
  | ClientError => true
  | _ => false
  end.

(** A computation either yields a value or raises. *)
Inductive result (A : Type) : Type :=
| Ok (a : A)
| Raise (e : exn).
Arguments Ok {A} a.
Arguments Raise {A} e.

Definition bind {A B} (c : result A) (k : A -> result B) : result B :=
  match c with
  | Ok a => k a
  | Raise e => Raise e
  end.

Definition is_ok {A} (c : result A) : bool :=
  match c with Ok _ => true | Raise _ => false end.

(** Values: [None], [bool], [int], [str], [list], and [dict] with [str]
    keys (the shape of decoded JSON). A dict keeps insertion order. *)
Inductive pyval : Type :=
| PNone
| PBool (b : bool)
| PInt (z : Z)
| PStr (s : string)
| PList (l : list pyval)
| PDict (d : list (string * pyval)).

(** [bool(v)] *)
Definition truthy (v : pyval) : bool :=
  match v with
  | PNone => false
  | PBool b => b
  | PInt z => negb (z =? 0)
  | PStr s => negb (s =? "")%string
  | PList l => match l with [] => false | _ => true end
  | PDict d => match d with [] => false | _ => true end
  end.

(** [isinstance(v, str)] and [isinstance(v, list)] *)
Definition is_str (v : pyval) : bool :=
  match v with PStr _ => true | _ => false end.

Definition is_list (v : pyval) : bool :=
  match v with PList _ => true | _ => false end.

(** [a or b] *)
Definition py_or (a b : pyval) : pyval := if truthy a then a else b.

(** ** Strings *)

Definition is_space (c : ascii) : bool :=
  let n := nat_of_ascii c in
  ((9 <=? n) && (n <=? 13) || (28 <=? n) && (n <=? 32))%nat.

Definition upper_ascii (c : ascii) : ascii :=
  let n := nat_of_ascii c in
  if ((97 <=? n) && (n <=? 122))%nat then ascii_of_nat (n - 32) else c.

(** [s.upper()] *)
Fixpoint upper (s : string) : string :=
  match s with
  | EmptyString => EmptyString
  | String c s' => String (upper_ascii c) (upper s')
  end.

(** [s.replace(c, '')] for a one-character [c] *)
Fixpoint remove_char (c : ascii) (s : string) : string :=
  match s with
  | EmptyString => EmptyString
  | String a s' =>
      if Ascii.eqb a c then remove_char c s' else String a (remove_char c s')
  end.

(** [''.join(s.split())]: every whitespace character removed *)
Fixpoint remove_spaces (s : string) : string :=
  match s with
  | EmptyString => EmptyString
  | String a s' =>
      if is_space a then remove_spaces s' else String a (remove_spaces s')
  end.

(** [s.split(sep)] for a one-character separator: always at least one
    field; [acc] holds the field being read. *)
Fixpoint split_on_acc (sep : ascii) (s : string) (acc : string) : list string :=
  match s with
  | EmptyString => [acc]
  | String a s' =>
      if Ascii.eqb a sep then acc :: split_on_acc sep s' EmptyString
      else split_on_acc sep s' (acc ++ String a EmptyString)
  end.

Definition split_on (sep : ascii) (s : string) : list string :=
  split_on_acc sep s EmptyString.

(** [s.split()]: fields separated by runs of whitespace, none empty *)
Fixpoint split_ws_acc (s : string) (acc : string) : list string :=
  match s with
  | EmptyString => match acc with EmptyString => [] | _ => [acc] end
  | String a s' =>
      if is_space a then
        match acc with
        | EmptyString => split_ws_acc s' EmptyString
        | _ => acc :: split_ws_acc s' EmptyString
        end
      else split_ws_acc s' (acc ++ String a EmptyString)
  end.

Definition split_ws (s : string) : list string := split_ws_acc s EmptyString.

(** [sep.join(l)] *)
Fixpoint join (sep : string) (l : list string) : string :=
  match l with
  | [] => EmptyString
  | [x] => x
  | x :: rest => x ++ sep ++ join sep rest
  end.

(** [sub in s] for two strings *)
Fixpoint contains_str (sub s : string) : bool :=
  prefix sub s ||
  match s with
  | EmptyString => false
  | String _ s' => contains_str sub s'
  end.

(** The target-set idiom [''.join(value.split()).split(',')] *)
Definition split_targets (value : string) : list string :=
  split_on "," (remove_spaces value).

(** ** [int(...)] *)

Definition digit_of (c : ascii) : option Z :=
  let n := nat_of_ascii c in
  if ((48 <=? n) && (n <=? 57))%nat then Some (Z.of_nat (n - 48)) else None.

(** Decimal digits, single underscores allowed between digits. *)
Fixpoint digits_acc (s : string) (acc : Z) (after_digit : bool) : option Z :=
  match s with
  | EmptyString => if after_digit then Some acc else None
  | String c s' =>
      match digit_of c with
      | Some d => digits_acc s' (10 * acc + d) true
      | None =>
          if Ascii.eqb c "_" then
            if after_digit then digits_acc s' acc false else None
          else None
      end
  end.

Fixpoint lstrip (s : string) : string :=
  match s with
  | EmptyString => EmptyString
  | String a s' => if is_space a then lstrip s' else s
  end.

Fixpoint rstrip (s : string) : string :=
  match s with
  | EmptyString => EmptyString
  | String a s' =>
      match rstrip s' with
      | EmptyString => if is_space a then EmptyString else String a EmptyString
      | r => String a r
      end
  end.

Definition int_of_str (s : string) : result Z :=
  let body := rstrip (lstrip s) in
  let parsed :=
    match body with
    | String "-" s' => option_map Z.opp (digits_acc s' 0 false)
    | String "+" s' => digits_acc s' 0 false
    | _ => digits_acc body 0 false
    end in
  match parsed with
  | Some z => Ok z
  | None => Raise ValueError
  end.

(** [int(v)] *)
Definition py_int (v : pyval) : result Z :=
  match v with
  | PInt z => Ok z
  | PBool b => Ok (if b then 1 else 0)
  | PStr s => int_of_str s
  | _ => Raise TypeError
  end.

(** ** Equality, subscripts, membership, iteration *)

Fixpoint lookup {V} (k : string) (d : list (string * V)) : option V :=
  match d with
  | [] => None
  | (k', v) :: d' => if (k' =? k)%string then Some v else lookup k d'
  end.

(** [a == b] *)
Fixpoint py_eqb (a b : pyval) {struct a} : bool :=
  match a, b with
  | PNone, PNone => true
  | PBool x, PBool y => Bool.eqb x y
  | PBool x, PInt y => (if x then 1 else 0) =? y
  | PInt x, PBool y => x =? (if y then 1 else 0)
  | PInt x, PInt y => x =? y
  | PStr x, PStr y => (x =? y)%string
  | PList l, PList m =>
      (fix go (l m : list pyval) {struct l} : bool :=
         match l, m with
         | [], [] => true
         | x :: l', y :: m' => py_eqb x y && go l' m'
         | _, _ => false
         end) l m
  | PDict d, PDict e =>
      (List.length d =? List.length e)%nat &&
      (fix go (d : list (string * pyval)) : bool :=
         match d with
         | [] => true
         | (k, v) :: d' =>
             match lookup k e with
             | Some w => py_eqb v w
             | None => false
             end && go d'
         end) d
  | _, _ => false
  end.

(** [v[key]] for a [str] key *)
Definition getitem (v : pyval) (key : string) : result pyval :=
  match v with
  | PDict d =>
      match lookup key d with
      | Some x => Ok x
      | None => Raise KeyError
      end
  | _ => Raise TypeError
  end.

(** [v[i]] for a non-negative [int] index *)
Definition index (v : pyval) (i : nat) : result pyval :=
  match v with
  | PList l =>
      match nth_error l i with
      | Some x => Ok x
      | None => Raise IndexError
      end
  | PStr s =>
      match String.get i s with
      | Some c => Ok (PStr (String c EmptyString))
      | None => Raise IndexError
      end
  | PDict _ => Raise KeyError
  | _ => Raise TypeError
  end.

(** [v.get(key, default)] *)
Definition get (v : pyval) (key : string) (default : pyval) : result pyval :=
  match v with
  | PDict d =>
      match lookup key d with
      | Some x => Ok x
      | None => Ok default
      end
  | _ => Raise AttributeError
  end.

(** [v.upper()] *)
Definition py_upper (v : pyval) : result string :=
  match v with
  | PStr s => Ok (upper s)
  | _ => Raise AttributeError
  end.

(** [key in v] for a [str] key *)
Definition contains (key : string) (v : pyval) : result bool :=
  match v with
  | PDict d => Ok (match lookup key d with Some _ => true | None => false end)
  | PList l => Ok (existsb (fun x => py_eqb (PStr key) x) l)
  | PStr s => Ok (contains_str key s)
  | _ => Raise TypeError
  end.

(** [x in s] for a [str] [s] *)
Definition in_str (x : pyval) (s : string) : result bool :=
  match x with
  | PStr sub => Ok (contains_str sub s)
  | _ => Raise TypeError
  end.

Fixpoint chars (s : string) : list pyval :=
  match s with
  | EmptyString => []
  | String c s' => PStr (String c EmptyString) :: chars s'
  end.

(** [for item in v] *)
Definition iter (v : pyval) : result (list pyval) :=
  match v with
  | PList l => Ok l
  | PDict d => Ok (map (fun kv => PStr (fst kv)) d)
  | PStr s => Ok (chars s)
  | _ => Raise TypeError
  end.

(** [d[key] = x] on a dict with [str] keys: an existing entry keeps its
    place, a new one goes last. *)
Fixpoint dict_set {V} (key : string) (x : V) (d : list (string * V))
  : list (string * V) :=
  match d with
  | [] => [(key, x)]
  | (k, v) :: d' =>
      if (k =? key)%string then (k, x) :: d' else (k, v) :: dict_set key x d'
  end.

(** [v[key] = x] *)
Definition setitem (v : pyval) (key : string) (x : pyval) : result pyval :=
  match v with
  | PDict d => Ok (PDict (dict_set key x d))
  | _ => Raise TypeError
  end.

(** ** Dicts keyed by arbitrary hashable values *)

Definition hashable (v : pyval) : bool :=
  match v with
  | PList _ | PDict _ => false
  | _ => true
  end.

Definition pydict (V : Type) : Type := list (pyval * V).

Fixpoint pd_lookup {V} (k : pyval) (d : pydict V) : option V :=
  match d with
  | [] => None
  | (k', v) :: d' => if py_eqb k' k then Some v else pd_lookup k d'
  end.

Fixpoint pd_insert {V} (k : pyval) (x : V) (d : pydict V) : pydict V :=
  match d with
  | [] => [(k, x)]
  | (k', v) :: d' =>
      if py_eqb k' k then (k', x) :: d' else (k', v) :: pd_insert k x d'
  end.

(** [d[k] = x] *)
Definition pd_set {V} (k : pyval) (x : V) (d : pydict V) : result (pydict V) :=
  if hashable k then Ok (pd_insert k x d) else Raise TypeError.

(** [d[k]] *)
Definition pd_get {V} (k : pyval) (d : pydict V) : result V :=
  if hashable k then
    match pd_lookup k d with
    | Some v => Ok v
    | None => Raise KeyError
    end
  else Raise TypeError.

(** [{k: f(k) for k in keys}] *)
Fixpoint pd_comprehension {V} (f : pyval -> V) (keys : list pyval)
  (d : pydict V) : result (pydict V) :=
  match keys with
  | [] => Ok d
  | k :: rest => bind (pd_set k (f k) d) (pd_comprehension f rest)
  end.

Definition pd_keys {V} (d : pydict V) : list pyval := map fst d.

(** [str(v)] as an f-string renders it, for the values that can be a
    dict key; a container never gets that far in this module (its key is
    rejected as unhashable), so it is given no text here. *)
Definition str_of_Z (z : Z) : string :=
  NilZero.string_of_int (Z.to_int z).

Definition py_str (v : pyval) : string :=
  match v with
  | PNone => "None"
  | PBool true => "True"
  | PBool false => "False"
  | PInt z => str_of_Z z
  | PStr s => s
  | PList _ | PDict _ => EmptyString
  end.

End Py.

Export Py.

Notation "x <- c ;; k" := (bind c (fun x => k))
  (at level 61, c at next level, right associativity).
Notation "' pat <- c ;; k" :=
  (bind c (fun x => match x with pat => k end))
  (at level 61, pat pattern, c at next level, right associativity).

(* ===================================================================== *)
(** * Endpoint constants ([class DEFAULTS])                               *)
(* ===================================================================== *)

Module DEFAULTS.

Definition MOEX_API_URL : string :=
  "https://iss.moex.com/iss/engines/currency/markets/selt/boards/CETS/securities.json".

Definition MOEX_API_PARAMS : pyval :=
  PDict [("iss.meta", PStr "off");
         ("iss.only", PStr "securities,marketdata");
         ("securities.columns", PStr "SECID,SHORTNAME,SECNAME");
         ("marketdata.columns", PStr "WAPRICE,UPDATETIME,SECID,SYSTIME")].

Definition TRON_API_URL : string := "https://api.trongrid.io/v1/accounts/".
Definition TRON_API_KEY : string := "6531dea6-b4e9-4596-8dc7-fb574c3b9d64".
Definition TRON_USDT_CONTRACT : string := "TR7NHqjeKQxGTCi8q8ZY4pL8otSzgjLj6t".

Definition BSCSCAN_API_URL : string := "https://api.bscscan.com/api/".
Definition BSCSCAN_API_KEY : string := "CZQE9HM9A3ENDY4JTINKB3IXCVDQQ9C7EZ".
Definition BSCSCAN_USDT_CONTRACT : string :=
  "0x55d398326f99059ff775485246999027b3197955".

Definition XE_URL : string := "https://www.xe.com/currencyconverter/convert/".
Definition XE_SYMBOLS : string := "RUB, USD, CNY, XBT".

Definition USER_AGENT : string :=
  "Mozilla/5.0 (Windows NT 10.0; Win64; x64) AppleWebKit/537.36 (KHTML, like Gecko) Chrome/86.0.4240.198 Safari/537.36 OPR/72.0.3815.465 (Edition Yx GX)".

Definition YAHOO_API_URL : string :=
  "https://query2.finance.yahoo.com/v7/finance/quote".
Definition YAHOO_SYMBOLS : string :=
  "USDRUB=X,CNYRUB=X,USDCNY=X,EURRUB=X,BTC-USD".

Definition MOEX_SYMBOLS : string := "USD000UTSTOM,CNYRUB_TOM,EUR_RUB__TOM".

Definition GARANTEX_API_URL : string := "https://garantex.io/api/v2/depth".

End DEFAULTS.

(* ===================================================================== *)
(** * [class UrlReader]                                                   *)
(* ===================================================================== *)

Module UrlReader.

Inductive UrlReaderMode : Type := HTML | JSON.

Definition is_JSON (m : UrlReaderMode) : bool :=
  match m with JSON => true | HTML => false end.

(** What the reader does that an observer can see: its log lines and the
    requests it hands to the session. *)
Inductive event : Type :=
| Log_url_none                               (* "Url can not be None." *)
| Log_task_name_none (task_key : string)     (* "Task name is None ..." *)
| Log_fetch_error (err : exn) (body : string)(* "Error while fetching url" *)
| Session_get (url params headers : pyval).

(** An [aiohttp] response, as far as the reader looks at it: what
    [await response.json(encoding='utf-8')] and [await response.text()]
    give, and whether leaving the [async with] block raises. *)
Record response : Type := {
  resp_url : pyval;
  resp_status : Z;
  resp_json : result pyval;
  resp_text : result string;
  resp_exit : option exn
}.

(** What the awaited operations of one call do. *)
Inductive outcome : Type :=
| SleepRaises (e : exn)       (* [await asyncio.sleep(delay)] raises *)
| GetRaises (e : exn)         (* entering [session.get(...)] raises *)
| Responded (r : response).   (* [response] is bound *)

(** The instance attributes, and the trace of events so far. *)
Record t : Type := {
  __url : pyval;
  __params : pyval;
  __headers : pyval;
  __mode : UrlReaderMode;
  __response_status : Z;
  __response_url : pyval;
  __result : pyval;
  events : list event
}.

Definition init (url params headers : pyval) (mode : UrlReaderMode) : t :=
  {| __url := url;
     __params := py_or params PNone;
     __headers := py_or headers PNone;
     __mode := mode;
     __response_status := 0;
     __response_url := PStr "";
     __result := PNone;
     events := [] |}.

Definition set_url (self : t) (v : pyval) : t :=
  {| __url := v; __params := __params self; __headers := __headers self;
     __mode := __mode self; __response_status := __response_status self;
     __response_url := __response_url self; __result := __result self;
     events := events self |}.

Definition set_params (self : t) (v : pyval) : t :=
  {| __url := __url self; __params := v; __headers := __headers self;
     __mode := __mode self; __response_status := __response_status self;
     __response_url := __response_url self; __result := __result self;
     events := events self |}.

Definition set_headers (self : t) (v : pyval) : t :=
  {| __url := __url self; __params := __params self; __headers := v;
     __mode := __mode self; __response_status := __response_status self;
     __response_url := __response_url self; __result := __result self;
     events := events self |}.

Definition set_result (self : t) (v : pyval) : t :=
  {| __url := __url self; __params := __params self;
     __headers := __headers self; __mode := __mode self;
     __response_status := __response_status self;
     __response_url := __response_url self; __result := v;
     events := events self |}.

Definition set_response (self : t) (r : response) : t :=
  {| __url := __url self; __params := __params self;
     __headers := __headers self; __mode := __mode self;
     __response_status := resp_status r;
     __response_url := resp_url r; __result := __result self;
     events := events self |}.

Definition emit (self : t) (ev : event) : t :=
  {| __url := __url self; __params := __params self;
     __headers := __headers self; __mode := __mode self;
     __response_status := __response_status self;
     __response_url := __response_url self; __result := __result self;
     events := events self ++ [ev] |}.

(** The arguments [session.get] is called with. *)
Record request : Type := {
  rq_url : pyval;
  rq_params : pyval;
  rq_headers : pyval
}.

(** [bool(task_key)] for a key that is [None] or a [str] *)
Definition key_truthy (task_key : option string) : bool :=
  match task_key with
  | Some k => negb (k =? "")%string
  | None => false
  end.

(** ** [_get_raw_data], suite by suite *)

(** Lines 182-188: the statements before [try]. *)
Definition prologue (self : t) (url params headers : pyval)
  : t * result request :=
  let url := py_or url (__url self) in
  if negb (truthy url) && negb (truthy (__url self)) then
    (emit self Log_url_none, Raise ValueError)
  else
    let params := py_or params (__params self) in
    let headers := py_or headers (__headers self) in
    (set_result self PNone,
     Ok {| rq_url := url; rq_params := params; rq_headers := headers |}).

(** Line 196: [self.__result and task_key and task_key in self.__result
    and self.__mode == UrlReaderMode.JSON]. *)
Definition key_collides (self : t) (task_key : option string) : result bool :=
  if negb (truthy (__result self)) then Ok false
  else
    match task_key with
    | None => Ok false
    | Some k =>
        if (k =? "")%string then Ok false
        else
          present <- contains k (__result self);;
          Ok (present && is_JSON (__mode self))
    end.

(** Lines 194-195: [await response.json(encoding='utf-8')] in JSON mode,
    [await response.text()] otherwise. *)
Definition decode (mode : UrlReaderMode) (r : response) : result pyval :=
  if is_JSON mode then resp_json r
  else (body <- resp_text r;; Ok (PStr body)).

(** Lines 192-201: the body of [async with ... as response]. The second
    component is the exception in flight when the body is left. *)
Definition with_suite (self : t) (task_key : option string)
  (task_name : pyval) (r : response) : t * option exn :=
  let self := set_response self r in
  match decode (__mode self) r with
  | Raise e => (self, Some e)
  | Ok v =>
      let self := set_result self v in
      match key_collides self task_key with
      | Raise e => (self, Some e)
      | Ok true => (self, Some KeyError)
      | Ok false =>
          let self :=
            match task_key with
            | Some k =>
                if key_truthy task_key && negb (truthy task_name)
                then emit self (Log_task_name_none k) else self
            | None => self
            end in
          match task_key with
          | Some k =>
              if key_truthy task_key && is_JSON (__mode self) then
                match setitem (__result self) k task_name with
                | Ok v' => (set_result self v', None)
                | Raise e => (self, Some e)
                end
              else (self, None)
          | None => (self, None)
          end
      end
  end.

(** Lines 190-201: the [try] suite. Returns the exception in flight, and
    [response] when that name is bound. *)
Definition try_suite (self : t) (rq : request) (task_key : option string)
  (task_name : pyval) (o : outcome) : t * option exn * option response :=
  match o with
  | SleepRaises e => (self, Some e, None)
  | GetRaises e =>
      (emit self (Session_get (rq_url rq) (rq_params rq) (rq_headers rq)),
       Some e, None)
  | Responded r =>
      let self :=
        emit self (Session_get (rq_url rq) (rq_params rq) (rq_headers rq)) in
      let '(self, inflight) := with_suite self task_key task_name r in
      let inflight :=
        match resp_exit r with
        | Some e => Some e
        | None => inflight
        end in
      (self, inflight, Some r)
  end.

(** Lines 202-205: the two handlers, which have the same body. Its log
    call first evaluates [unescape(await response.text())]. *)
Definition except_suite (self : t) (inflight : option exn)
  (resp : option response) : t * option exn :=
  match inflight with
  | None => (self, None)
  | Some err =>
      if is_ClientError err || is_Exception err then
        match resp with
        | None => (self, Some UnboundLocalError)
        | Some r =>
            match resp_text r with
            | Ok body => (emit self (Log_fetch_error err body), None)
            | Raise e => (self, Some e)
            end
        end
      else (self, Some err)
  end.

(** Lines 206-207: [finally: return self.__result]. A [return] in a
    [finally] suite discards whatever exception is in flight. *)
Definition finally_suite (self : t) (inflight : option exn) : result pyval :=
  Ok (__result self).

(** One call of [_get_raw_data] run without interruption. [delay] is not
    a parameter here: its only use is the sleep, whose effect is in [o]. *)
Definition _get_raw_data (self : t) (url params headers : pyval)
  (task_key : option string) (task_name : pyval) (o : outcome)
  : t * result pyval :=
  match prologue self url params headers with
  | (self, Raise e) => (self, Raise e)
  | (self, Ok rq) =>
      let '(self, inflight, resp) := try_suite self rq task_key task_name o in
      let '(self, inflight) := except_suite self inflight resp in
      (self, finally_suite self inflight)
  end.

End UrlReader.

(* ===================================================================== *)
(** * [asyncio.gather] over tasks that share one reader                   *)
(* ===================================================================== *)

(** The batch methods wrap several [_get_raw_data] calls on the SAME
    reader in tasks and gather them. The calls share [self.__result], and
    the event loop may switch between them wherever a call awaits, so a
    call is cut where that attribute is concerned:

    - [Created -> Awaiting]: the statements before [try], up to the first
      suspension at [asyncio.sleep] (line 190); [self.__result] is reset;
    - [Awaiting -> Leaving]: sleep, request and decoding, then the
      statements up to the last assignment of [self.__result] (line 201)
      and the handlers, which do not touch it;
    - [Leaving -> Done]: [return self.__result] (line 207), reached after
      the awaits of the [async with] exit and of the handlers.

    A schedule names, step after step, the task that runs next. *)

Module Loop.

Import UrlReader.

(** The arguments of one [_get_raw_data] call and what its awaits do. *)
Record task : Type := {
  t_url : pyval;
  t_params : pyval;
  t_headers : pyval;
  t_key : option string;
  t_name : pyval;
  t_outcome : outcome
}.

(** One element of what [gather(..., return_exceptions=True)] returns:
    the value a task returned, or the exception object it raised. *)
Inductive slot : Type :=
| SVal (v : pyval)
| SExc (e : exn).

Inductive status : Type :=
| Created
| Awaiting (rq : request)
| Leaving (inflight : option exn)
| Done (s : slot).

Definition step (self : t) (tk : task) (st : status) : t * status :=
  match st with
  | Created =>
      match prologue self (t_url tk) (t_params tk) (t_headers tk) with
      | (self, Raise e) => (self, Done (SExc e))
      | (self, Ok rq) => (self, Awaiting rq)
      end
  | Awaiting rq =>
      let '(self, inflight, resp) :=
        try_suite self rq (t_key tk) (t_name tk) (t_outcome tk) in
      let '(self, inflight) := except_suite self inflight resp in
      (self, Leaving inflight)
  | Leaving inflight =>
      match finally_suite self inflight with
      | Ok v => (self, Done (SVal v))
      | Raise e => (self, Done (SExc e))
      end
  | Done s => (self, Done s)
  end.

(** Let task number [i] run to its next suspension. *)
Fixpoint step_nth (tasks : list task) (i : nat) (self : t)
  (sts : list status) : t * list status :=
  match tasks, sts with
  | tk :: tasks', st :: sts' =>
      match i with
      | O => let '(self, st) := step self tk st in (self, st :: sts')
      | S i' =>
          let '(self, sts') := step_nth tasks' i' self sts' in
          (self, st :: sts')
      end
  | _, _ => (self, sts)
  end.

Fixpoint run (tasks : list task) (schedule : list nat) (self : t)
  (sts : list status) : t * list status :=
  match schedule with
  | [] => (self, sts)
  | i :: rest =>
      let '(self, sts) := step_nth tasks i self sts in
      run tasks rest self sts
  end.

Definition slot_of (st : status) : slot :=
  match st with
  | Done s => s
  | _ => SVal PNone
  end.

(** The steps that take every task to its end, one task after the
    other. *)
Definition finish_all (n : nat) : list nat :=
  flat_map (fun i => [i; i]) (seq 0 n).

(** The event loop at work on the tasks of one [gather]. It first runs
    every task, in creation order, up to its sleep; then tasks resume as
    [schedule] says; a task the schedule leaves unfinished is run to its
    end afterwards, so that every list of numbers is a complete
    interleaving. *)
Definition settle (tasks : list task) (schedule : list nat) (self : t)
  : t * list status :=
  let n := List.length tasks in
  let '(self, sts) := run tasks (seq 0 n) self (repeat Created n) in
  let '(self, sts) := run tasks schedule self sts in
  run tasks (finish_all n) self sts.

(** [await asyncio.gather] of the tasks, with [return_exceptions=True]:
    the results, in task order. Every status is [Done] by then (see
    [settle_done] below). *)
Definition gather (tasks : list task) (schedule : list nat) (self : t)
  : t * list slot :=
  let '(self, sts) := settle tasks schedule self in
  (self, map slot_of sts).

(** What the adapters do with a gathered slot. An exception object is
    truthy, has no subscript and no [get]. *)
Definition slot_truthy (s : slot) : bool :=
  match s with
  | SVal v => truthy v
  | SExc _ => true
  end.

Definition slot_getitem (s : slot) (key : string) : result pyval :=
  match s with
  | SVal v => getitem v key
  | SExc _ => Raise TypeError
  end.

Definition slot_get (s : slot) (key : string) (default : pyval)
  : result pyval :=
  match s with
  | SVal v => get v key default
  | SExc _ => Raise AttributeError
  end.

End Loop.

(* ===================================================================== *)
(** * [class TronWalletReader(UrlReader)]                                 *)
(* ===================================================================== *)

Module TronWalletReader.

Import Loop.

Record t : Type := {
  base : UrlReader.t;
  usdt_contract : string;
  __wallets : list pyval;
  urls : pydict string;
  trnx_urls : pydict string
}.

Definition set_base (self : t) (b : UrlReader.t) : t :=
  {| base := b; usdt_contract := usdt_contract self;
     __wallets := __wallets self; urls := urls self;
     trnx_urls := trnx_urls self |}.

(** Lines 328-337, the [wallets] setter. The attributes are assigned one
    after the other, so a raise leaves the earlier assignments in place. *)
Definition wallets_setter (self : t) (value : pyval) : t * option exn :=
  let assigned :=
    match value with
    | PStr s => Ok (map PStr (split_targets s))
    | PList l => Ok l
    | _ => Raise ValueError
    end in
  match assigned with
  | Raise e => (self, Some e)
  | Ok ws =>
      let url := py_str (UrlReader.__url (base self)) in
      let self :=
        {| base := base self; usdt_contract := usdt_contract self;
           __wallets := ws; urls := urls self;
           trnx_urls := trnx_urls self |} in
      match pd_comprehension (fun wallet => url ++ py_str wallet) ws [] with
      | Raise e => (self, Some e)
      | Ok us =>
          let self :=
            {| base := base self; usdt_contract := usdt_contract self;
               __wallets := ws; urls := us;
               trnx_urls := trnx_urls self |} in
          match pd_comprehension
                  (fun wallet => url ++ py_str wallet ++ "/transactions/trc20")
                  ws [] with
          | Raise e => (self, Some e)
          | Ok ts =>
              ({| base := base self; usdt_contract := usdt_contract self;
                  __wallets := ws; urls := us; trnx_urls := ts |}, None)
          end
      end
  end.

(** Lines 305-322, [__init__], called without a logger. *)
Definition init (wallets : pyval) (usdt_contract : string) (api_key : pyval)
  : result t :=
  let b := UrlReader.init (PStr DEFAULTS.TRON_API_URL) PNone PNone
             UrlReader.JSON in
  let hdrs := [("User-Agent", PStr DEFAULTS.USER_AGENT);
               ("Content-Type", PStr "application/json");
               ("Accept", PStr "application/json")] in
  let hdrs :=
    if truthy api_key then dict_set "TRON-PRO-API-KEY" api_key hdrs
    else hdrs in
  let self :=
    {| base := UrlReader.set_headers b (PDict hdrs);
       usdt_contract := usdt_contract;
       __wallets := []; urls := []; trnx_urls := [] |} in
  match wallets_setter self wallets with
  | (_, Some e) => Raise e
  | (self, None) => Ok self
  end.

(** The task list of lines 344-350: one per item of [urls], in the
    dict's order; [net i] is what the awaits of task number [i] do. *)
Fixpoint tasks_of (self : t) (items : list (pyval * string)) (i : nat)
  (net : nat -> UrlReader.outcome) : list task :=
  match items with
  | [] => []
  | (address, url) :: rest =>
      {| t_url := PStr url;
         t_params := UrlReader.__params (base self);
         t_headers := UrlReader.__headers (base self);
         t_key := Some "wallet_address";
         t_name := address;
         t_outcome := net i |} :: tasks_of self rest (S i) net
  end.

(** Lines 339-352, [__fetch_urls]. *)
Definition fetch_urls (self : t) (urls : pydict string)
  (net : nat -> UrlReader.outcome) (schedule : list nat) : t * list slot :=
  let '(b, responses) :=
    gather (tasks_of self urls 0 net) schedule (base self) in
  (set_base self b, responses).

(** Line 365: [next((item for item in data if item["trc20"]), None)] *)
Fixpoint first_trc20 (items : list pyval) : result pyval :=
  match items with
  | [] => Ok PNone
  | item :: rest =>
      held <- getitem item "trc20";;
      if truthy held then Ok item else first_trc20 rest
  end.

(** Lines 366-367: [next((item.get(c, 0) for item in ... if
    item.get(c, None)), 0)] *)
Fixpoint first_amount (contract : string) (items : list pyval)
  : result pyval :=
  match items with
  | [] => Ok (PInt 0)
  | item :: rest =>
      held <- get item contract PNone;;
      if truthy held then get item contract (PInt 0)
      else first_amount contract rest
  end.

(** Lines 360-367, the loop over the gathered responses. *)
Fixpoint balances_loop (contract : string) (raw_data : list slot)
  (wallets : pydict Z) : result (pydict Z) :=
  match raw_data with
  | [] => Ok wallets
  | balance :: rest =>
      success <- slot_getitem balance "success";;
      if negb (truthy success) then
        address <- slot_getitem balance "wallet_address";;
        wallets <- pd_set address (-1) wallets;;
        _ <- slot_getitem balance "error";;
        _ <- slot_getitem balance "wallet_address";;
        balances_loop contract rest wallets
      else
        data <- slot_getitem balance "data";;
        items <- iter data;;
        trc20 <- first_trc20 items;;
        amount <-
          (if truthy trc20 then
             held <- getitem trc20 "trc20";;
             entries <- iter held;;
             found <- first_amount contract entries;;
             py_int found
           else Ok 0);;
        address <- slot_getitem balance "wallet_address";;
        wallets <- pd_set address amount wallets;;
        balances_loop contract rest wallets
  end.

(** Lines 354-368, [get_balances]. *)
Definition get_balances (self : t) (net : nat -> UrlReader.outcome)
  (schedule : list nat) : t * result (pydict Z) :=
  match pd_comprehension (fun _ => 0) (__wallets self) [] with
  | Raise e => (self, Raise e)
  | Ok wallets =>
      let '(self, raw_data) := fetch_urls self (urls self) net schedule in
      (self, balances_loop (usdt_contract self) raw_data wallets)
  end.

Section Transactions.

(** [datetime.datetime] and, for a millisecond stamp [x],
    [datetime.datetime.fromtimestamp(x / 1000.0, datetime.timezone.utc)]. *)
Variable datetime : Type.
Variable fromtimestamp_ms : pyval -> result datetime.

(** The dict appended at lines 391-395. *)
Record transaction : Type := {
  wallet : pyval;
  timestamp : datetime;
  value : Z
}.

(** Lines 382-383 negated: the transfer is not skipped. *)
Definition tracked (trn : pyval) : result bool :=
  info <- getitem trn "token_info";;
  address <- getitem info "address";;
  if negb (py_eqb address (PStr DEFAULTS.TRON_USDT_CONTRACT)) then Ok false
  else
    info <- getitem trn "token_info";;
    symbol <- getitem info "symbol";;
    symbol <- py_upper symbol;;
    Ok (symbol =? "USDT")%string.

(** Lines 385-389: counterparty and signed amount. *)
Definition normalize (transactions : slot) (trn : pyval)
  : result (pyval * Z) :=
  amount <- getitem trn "value";;
  value <- py_int amount;;
  trn_from <- getitem trn "from";;
  queried <- slot_getitem transactions "wallet_address";;
  if py_eqb trn_from queried then
    trn_to <- getitem trn "to";;
    Ok (trn_to, value * -1)
  else Ok (trn_from, value).

(** Lines 381-395, the loop over one response's transfers. *)
Fixpoint transfers_loop (transactions : slot) (trns : list pyval)
  (wallets : pydict (list transaction))
  : result (pydict (list transaction)) :=
  match trns with
  | [] => Ok wallets
  | trn :: rest =>
      keep <- tracked trn;;
      if negb keep then transfers_loop transactions rest wallets
      else
        '(trn_from, value) <- normalize transactions trn;;
        address <- slot_getitem transactions "wallet_address";;
        records <- pd_get address wallets;;
        stamp <- getitem trn "block_timestamp";;
        stamp <- fromtimestamp_ms stamp;;
        let record :=
          {| wallet := trn_from; timestamp := stamp; value := value |} in
        transfers_loop transactions rest
          (pd_insert address (records ++ [record])%list wallets)
  end.

(** Lines 376-395, the loop over the gathered responses. *)
Fixpoint transactions_loop (raw_data : list slot)
  (wallets : pydict (list transaction))
  : result (pydict (list transaction)) :=
  match raw_data with
  | [] => Ok wallets
  | transactions :: rest =>
      success <- slot_get transactions "success" (PBool false);;
      if negb (truthy success) then
        _ <- slot_get transactions "error" (PStr "Unknown error");;
        _ <- slot_getitem transactions "wallet_address";;
        transactions_loop rest wallets
      else
        data <- slot_getitem transactions "data";;
        trns <- iter data;;
        wallets <- transfers_loop transactions trns wallets;;
        transactions_loop rest wallets
  end.

(** Lines 370-396, [get_transactions]. *)
Definition get_transactions (self : t) (net : nat -> UrlReader.outcome)
  (schedule : list nat) : t * result (pydict (list transaction)) :=
  match pd_comprehension (fun _ => []) (__wallets self) [] with
  | Raise e => (self, Raise e)
  | Ok wallets =>
      let '(self, raw_data) :=
        fetch_urls self (trnx_urls self) net schedule in
      (self, transactions_loop raw_data wallets)
  end.

End Transactions.

Arguments wallet {datetime} _.
Arguments timestamp {datetime} _.
Arguments value {datetime} _.

End TronWalletReader.

(* ===================================================================== *)
(** * [class BscScanWalletReader(UrlReader)]                              *)
(* ===================================================================== *)

Module BscScanWalletReader.

Import Loop.

Record t : Type := {
  base : UrlReader.t;
  usdt_contract : string;
  api_key : pyval;
  __wallets : list pyval;
  balance_params_list : list pyval;
  trnx_params_list : list pyval
}.

Definition set_base (self : t) (b : UrlReader.t) : t :=
  {| base := b; usdt_contract := usdt_contract self;
     api_key := api_key self; __wallets := __wallets self;
     balance_params_list := balance_params_list self;
     trnx_params_list := trnx_params_list self |}.

Definition balance_params (self : t) (wallet : pyval) : pyval :=
  PDict [("module", PStr "account");
         ("action", PStr "tokenbalance");
         ("contractaddress", PStr (usdt_contract self));
         ("address", wallet);
         ("tag", PStr "latest");
         ("apikey", api_key self)].

Definition trnx_params (self : t) (wallet : pyval) : pyval :=
  PDict [("module", PStr "account");
         ("action", PStr "tokentx");
         ("contractaddress", PStr DEFAULTS.BSCSCAN_USDT_CONTRACT);
         ("address", wallet);
         ("page", PStr "1");
         ("offset", PStr "10");
         ("startblock", PStr "0");
         ("endblock", PStr "999999999");
         ("sort", PStr "desc");
         ("apikey", api_key self)].

(** Lines 423-446, the [wallets] setter. *)
Definition wallets_setter (self : t) (value : pyval) : t * option exn :=
  let assigned :=
    match value with
    | PStr s => Ok (map PStr (split_targets s))
    | PList l => Ok l
    | _ => Raise ValueError
    end in
  match assigned with
  | Raise e => (self, Some e)
  | Ok ws =>
      ({| base := base self; usdt_contract := usdt_contract self;
          api_key := api_key self; __wallets := ws;
          balance_params_list := map (balance_params self) ws;
          trnx_params_list := map (trnx_params self) ws |}, None)
  end.

(** Lines 400-417, [__init__], called without a logger. *)
Definition init (wallets : pyval) (usdt_contract : string) (api_key : pyval)
  : result t :=
  let b := UrlReader.init (PStr DEFAULTS.BSCSCAN_API_URL) PNone PNone
             UrlReader.JSON in
  let hdrs := [("User-Agent", PStr DEFAULTS.USER_AGENT);
               ("Content-Type", PStr "application/json");
               ("Accept", PStr "application/json")] in
  let self :=
    {| base := UrlReader.set_headers b (PDict hdrs);
       usdt_contract := usdt_contract;
       api_key := api_key;
       __wallets := []; balance_params_list := [];
       trnx_params_list := [] |} in
  match wallets_setter self wallets with
  | (_, Some e) => Raise e
  | (self, None) =>
      Ok (set_base self
            (UrlReader.set_url (base self) (PStr DEFAULTS.BSCSCAN_API_URL)))
  end.

(** The task list of lines 453-459: one per element of [params]; building
    a task reads [wallet_params['address']]. *)
Fixpoint tasks_of (self : t) (params : list pyval) (i : nat)
  (net : nat -> UrlReader.outcome) : result (list task) :=
  match params with
  | [] => Ok []
  | wallet_params :: rest =>
      address <- getitem wallet_params "address";;
      tasks <- tasks_of self rest (S i) net;;
      Ok ({| t_url := UrlReader.__url (base self);
             t_params := wallet_params;
             t_headers := UrlReader.__headers (base self);
             t_key := Some "wallet_address";
             t_name := address;
             t_outcome := net i |} :: tasks)
  end.

(** Lines 448-461, [__fetch_urls]. *)
Definition fetch_urls (self : t) (params : list pyval)
  (net : nat -> UrlReader.outcome) (schedule : list nat)
  : t * result (list slot) :=
  match tasks_of self params 0 net with
  | Raise e => (self, Raise e)
  | Ok tasks =>
      let '(b, responses) := gather tasks schedule (base self) in
      (set_base self b, Ok responses)
  end.

(** Lines 469-475, the loop over the gathered responses. *)
Fixpoint balances_loop (raw_data : list slot) (wallets : pydict Z)
  : result (pydict Z) :=
  match raw_data with
  | [] => Ok wallets
  | balance :: rest =>
      message <- slot_getitem balance "message";;
      message <- py_upper message;;
      if (message =? "OK")%string then
        held <- slot_getitem balance "result";;
        amount <- py_int held;;
        address <- slot_getitem balance "wallet_address";;
        wallets <- pd_set address amount wallets;;
        balances_loop rest wallets
      else
        _ <- slot_get balance "message" (PStr "Unknown error");;
        _ <- slot_getitem balance "wallet_address";;
        address <- slot_getitem balance "wallet_address";;
        wallets <- pd_set address (-1) wallets;;
        balances_loop rest wallets
  end.

(** Lines 463-476, [get_balances]. *)
Definition get_balances (self : t) (net : nat -> UrlReader.outcome)
  (schedule : list nat) : t * result (pydict Z) :=
  match pd_comprehension (fun _ => 0) (__wallets self) [] with
  | Raise e => (self, Raise e)
  | Ok wallets =>
      match fetch_urls self (balance_params_list self) net schedule with
      | (self, Raise e) => (self, Raise e)
      | (self, Ok raw_data) => (self, balances_loop raw_data wallets)
      end
  end.

Section Transactions.

(** [datetime.datetime] and, for a stamp in seconds,
    [datetime.datetime.fromtimestamp(n, datetime.timezone.utc)]. *)
Variable datetime : Type.
Variable fromtimestamp : Z -> result datetime.

(** The dict appended at lines 498-502. *)
Record transaction : Type := {
  wallet : pyval;
  timestamp : datetime;
  value : Z
}.

(** Line 490 negated: the transfer is not skipped. *)
Definition tracked (trn : pyval) : result bool :=
  symbol <- getitem trn "tokenSymbol";;
  Ok (py_eqb symbol (PStr "BSC-USD")).

(** Lines 492-496: counterparty and signed amount. *)
Definition normalize (transactions : slot) (trn : pyval)
  : result (pyval * Z) :=
  amount <- getitem trn "value";;
  value <- py_int amount;;
  trn_from <- getitem trn "from";;
  sender <- py_upper trn_from;;
  queried <- slot_getitem transactions "wallet_address";;
  queried <- py_upper queried;;
  if (sender =? queried)%string then
    trn_to <- getitem trn "to";;
    Ok (trn_to, value * -1)
  else Ok (trn_from, value).

(** Lines 489-502, the loop over one response's transfers. *)
Fixpoint transfers_loop (transactions : slot) (trns : list pyval)
  (wallets : pydict (list transaction))
  : result (pydict (list transaction)) :=
  match trns with
  | [] => Ok wallets
  | trn :: rest =>
      keep <- tracked trn;;
      if negb keep then transfers_loop transactions rest wallets
      else
        '(trn_from, value) <- normalize transactions trn;;
        address <- slot_getitem transactions "wallet_address";;
        records <- pd_get address wallets;;
        stamp <- getitem trn "timeStamp";;
        stamp <- py_int stamp;;
        stamp <- fromtimestamp stamp;;
        let record :=
          {| wallet := trn_from; timestamp := stamp; value := value |} in
        transfers_loop transactions rest
          (pd_insert address (records ++ [record])%list wallets)
  end.

(** Line 485: [not transactions or
    transactions['message'].upper() != 'OK'] *)
Definition failed (transactions : slot) : result bool :=
  if negb (slot_truthy transactions) then Ok true
  else
    message <- slot_getitem transactions "message";;
    message <- py_upper message;;
    Ok (negb (message =? "OK")%string).

(** Lines 484-502, the loop over the gathered responses. *)
Fixpoint transactions_loop (raw_data : list slot)
  (wallets : pydict (list transaction))
  : result (pydict (list transaction)) :=
  match raw_data with
  | [] => Ok wallets
  | transactions :: rest =>
      bad <- failed transactions;;
      if bad then
        _ <- slot_get transactions "message" (PStr "Unknown error");;
        _ <- slot_getitem transactions "wallet_address";;
        transactions_loop rest wallets
      else
        held <- slot_getitem transactions "result";;
        trns <- iter held;;
        wallets <- transfers_loop transactions trns wallets;;
        transactions_loop rest wallets
  end.

(** Lines 478-503, [get_transactions]. *)
Definition get_transactions (self : t) (net : nat -> UrlReader.outcome)
  (schedule : list nat) : t * result (pydict (list transaction)) :=
  match pd_comprehension (fun _ => []) (__wallets self) [] with
  | Raise e => (self, Raise e)
  | Ok wallets =>
      match fetch_urls self (trnx_params_list self) net schedule with
      | (self, Raise e) => (self, Raise e)
      | (self, Ok raw_data) => (self, transactions_loop raw_data wallets)
      end
  end.

End Transactions.

Arguments wallet {datetime} _.
Arguments timestamp {datetime} _.
Arguments value {datetime} _.

End BscScanWalletReader.

(* ===================================================================== *)
(** * [class MOEXReader(UrlReader)]                                       *)
(* ===================================================================== *)

Module MOEXReader.

Section Rates.

(** [decimal.Decimal], [datetime.datetime], and the two library
    conversions of lines 271-272: [decimal.Decimal(str(x) or '0')] and
    [datetime.datetime.fromisoformat(x)]. *)
Variable decimal : Type.
Variable datetime : Type.
Variable Decimal_of : pyval -> result decimal.
Variable fromisoformat : pyval -> result datetime.

(** [class MOEXMetadata] *)
Record MOEXMetadata : Type := {
  shortname : pyval;
  secname : pyval
}.

(** [class CurrencyRate] *)
Record CurrencyRate : Type := {
  symbol : pyval;
  name : pyval;
  rate : decimal;
  updated_at : datetime
}.

Record t : Type := {
  base : UrlReader.t;
  symbols : string;
  __moex_metadata : pydict MOEXMetadata
}.

(** [", ".join(symbols)]: every element has to be a [str]. *)
Fixpoint all_str (l : list pyval) : result (list string) :=
  match l with
  | [] => Ok []
  | PStr s :: rest => strs <- all_str rest;; Ok (s :: strs)
  | _ :: _ => Raise TypeError
  end.

(** Lines 241-258, [__init__], called without a logger. *)
Definition init (symbols : pyval) : result t :=
  let b := UrlReader.init (PStr DEFAULTS.MOEX_API_URL) PNone PNone
             UrlReader.JSON in
  symbols <-
    match symbols with
    | PList l => strs <- all_str l;; Ok (join ", " strs)
    | PStr s => Ok s
    | _ => Raise ValueError
    end;;
  let hdrs := [("User-Agent", PStr DEFAULTS.USER_AGENT);
               ("Content-Type", PStr "application/json")] in
  Ok {| base :=
          UrlReader.set_headers
            (UrlReader.set_params b DEFAULTS.MOEX_API_PARAMS) (PDict hdrs);
        symbols := symbols;
        __moex_metadata := [] |}.

(** Lines 267-268, the first comprehension. *)
Fixpoint metadata_loop (json_data : pyval) (rows : list pyval)
  (acc : pydict MOEXMetadata) : result (pydict MOEXMetadata) :=
  match rows with
  | [] => Ok acc
  | data :: rest =>
      if truthy json_data then
        secid <- index data 0;;
        short <- index data 1;;
        full <- index data 2;;
        acc <- pd_set secid {| shortname := short; secname := full |} acc;;
        metadata_loop json_data rest acc
      else metadata_loop json_data rest acc
  end.

(** Line 273: [json_data and (data[0] and data[2] in self.symbols)] *)
Definition wanted (self : t) (json_data data : pyval) : result bool :=
  if truthy json_data then
    price <- index data 0;;
    if truthy price then
      secid <- index data 2;;
      in_str secid (symbols self)
    else Ok false
  else Ok false.

(** Lines 269-273, the second comprehension. *)
Fixpoint rates_loop (self : t) (metadata : pydict MOEXMetadata)
  (json_data : pyval) (rows : list pyval) (acc : pydict CurrencyRate)
  : result (pydict CurrencyRate) :=
  match rows with
  | [] => Ok acc
  | data :: rest =>
      keep <- wanted self json_data data;;
      if keep then
        secid <- index data 2;;
        k1 <- index data 2;;
        m1 <- pd_get k1 metadata;;
        k2 <- index data 2;;
        m2 <- pd_get k2 metadata;;
        price <- index data 0;;
        price <- Decimal_of price;;
        stamp <- index data 3;;
        stamp <- fromisoformat stamp;;
        acc <- pd_set secid
                 {| symbol := shortname m1; name := secname m2;
                    rate := price; updated_at := stamp |} acc;;
        rates_loop self metadata json_data rest acc
      else rates_loop self metadata json_data rest acc
  end.

(** Lines 267-273, on the payload [_get_raw_data] returned. *)
Definition rates_of (self : t) (json_data : pyval)
  : t * result (pydict CurrencyRate) :=
  let metadata :=
    securities <- getitem json_data "securities";;
    held <- getitem securities "data";;
    rows <- iter held;;
    metadata_loop json_data rows [] in
  match metadata with
  | Raise e => (self, Raise e)
  | Ok metadata =>
      let self :=
        {| base := base self; symbols := symbols self;
           __moex_metadata := metadata |} in
      (self,
       marketdata <- getitem json_data "marketdata";;
       held <- getitem marketdata "data";;
       rows <- iter held;;
       rates_loop self metadata json_data rows [])
  end.

(** Lines 260-273, [get_rates]; [o] is what the awaits of the one
    request do. *)
Definition get_rates (self : t) (o : UrlReader.outcome)
  : t * result (pydict CurrencyRate) :=
  let b := base self in
  match UrlReader._get_raw_data b (UrlReader.__url b) (UrlReader.__params b)
          (UrlReader.__headers b) None PNone o with
  | (b, Raise e) =>
      ({| base := b; symbols := symbols self;
          __moex_metadata := __moex_metadata self |}, Raise e)
  | (b, Ok json_data) =>
      rates_of {| base := b; symbols := symbols self;
                  __moex_metadata := __moex_metadata self |} json_data
  end.

End Rates.

Arguments shortname {_}.
Arguments secname {_}.

End MOEXReader.

(* ===================================================================== *)
(** * [class HTMLReader(UrlReader)] and [class XeReader(HTMLReader)]      *)
(* ===================================================================== *)

Module HTMLReader.

Import Loop.

Record t : Type := {
  base : UrlReader.t;
  __urls : list pyval
}.

(** Lines 512-526, [__init__]. *)
Definition init (urls params headers : pyval) : result t :=
  let b := UrlReader.init PNone params headers UrlReader.HTML in
  urls <-
    match urls with
    | PStr s => Ok (map PStr (split_targets s))
    | PList l => Ok l
    | _ => Raise ValueError
    end;;
  Ok {| base :=
          UrlReader.set_headers b
            (PDict [("User-Agent", PStr DEFAULTS.USER_AGENT)]);
        __urls := urls |}.

(** Lines 532-537, the [urls] setter: no [else] branch. *)
Definition urls_setter (self : t) (value : pyval) : t * option exn :=
  match value with
  | PStr s =>
      ({| base := base self; __urls := map PStr (split_targets s) |}, None)
  | PList l => ({| base := base self; __urls := l |}, None)
  | _ => (self, None)
  end.

Fixpoint tasks_of (self : t) (urls : list pyval) (i : nat)
  (net : nat -> UrlReader.outcome) : list task :=
  match urls with
  | [] => []
  | url :: rest =>
      {| t_url := url;
         t_params := UrlReader.__params (base self);
         t_headers := UrlReader.__headers (base self);
         t_key := None;
         t_name := PNone;
         t_outcome := net i |} :: tasks_of self rest (S i) net
  end.

(** Lines 539-547, [get_pages]. *)
Definition get_pages (self : t) (net : nat -> UrlReader.outcome)
  (schedule : list nat) : t * list slot :=
  let '(b, responses) :=
    gather (tasks_of self (__urls self) 0 net) schedule (base self) in
  ({| base := b; __urls := __urls self |}, responses).

End HTMLReader.

Module XeReader.

Import Loop.

(** [itertools.permutations(l, 2)], each pair rendered [a/b] (line 562) *)
Definition pairs_with (a : string) (before after : list string) : list string :=
  map (fun b => a ++ "/" ++ b) (before ++ after)%list.

Fixpoint pairs_from (before l : list string) : list string :=
  match l with
  | [] => []
  | a :: rest =>
      (pairs_with a before rest ++ pairs_from (before ++ [a]) rest)%list
  end.

Definition supported_pairs : list string :=
  pairs_from [] (split_targets DEFAULTS.XE_SYMBOLS).

(** [set(symbols).issubset(pairs)]: building the set hashes every
    element. *)
Fixpoint issubset (symbols : list pyval) (pairs : list string)
  : result bool :=
  match symbols with
  | [] => Ok true
  | x :: rest =>
      if hashable x then
        others <- issubset rest pairs;;
        Ok (existsb (fun p => py_eqb x (PStr p)) pairs && others)
      else Raise TypeError
  end.

(** Line 571: the page address of one pair, [pair[4:]] and [pair[:3]]
    being slices of a [str]. *)
Definition page_url (pair : pyval) : pyval :=
  match pair with
  | PStr p =>
      PStr (DEFAULTS.XE_URL ++ "?Amount=1&From="
            ++ substring 4 (String.length p - 4) p
            ++ "&To=" ++ substring 0 3 p)
  | _ => PNone
  end.

(** Lines 556-571, [__init__]. Past the subset test every symbol is one
    of the supported pairs, hence a [str]. *)
Definition init (symbols : pyval) : result HTMLReader.t :=
  self <- HTMLReader.init (PList []) PNone PNone;;
  symbols <-
    match symbols with
    | PStr s => Ok (map PStr (split_targets s))
    | PList l => Ok l
    | _ => Raise ValueError
    end;;
  covered <- issubset symbols supported_pairs;;
  if negb covered then Raise ValueError
  else
    let self :=
      {| HTMLReader.base :=
           UrlReader.set_headers (HTMLReader.base self)
             (PDict [("User-Agent", PStr DEFAULTS.USER_AGENT)]);
         HTMLReader.__urls := HTMLReader.__urls self |} in
    Ok (fst (HTMLReader.urls_setter self (PList (map page_url symbols)))).

Section Rates.

(** From the libraries: [decimal.Decimal] with its constructor on a
    [str], [datetime.datetime] with [now()], and lines 577-579 as one
    function of the page, [html.fromstring(page).xpath('...//text()')],
    which gives the matched text nodes. *)
Variable decimal : Type.
Variable datetime : Type.
Variable Decimal : string -> result decimal.
Variable now : datetime.
Variable xpath_text : slot -> result (list string).

(** [class CurrencyRate] *)
Record CurrencyRate : Type := {
  symbol : string;
  name : string;
  rate : decimal;
  updated_at : datetime
}.

(** [l[i]] for a list of strings and a non-negative [i] *)
Definition item (l : list string) (i : nat) : result string :=
  match nth_error l i with
  | Some x => Ok x
  | None => Raise IndexError
  end.

(** [l[-i]] for [i >= 1] *)
Definition item_from_end (l : list string) (i : nat) : result string :=
  if (i <=? List.length l)%nat then item l (List.length l - i)
  else Raise IndexError.

(** Lines 576-588, the loop over the pages. *)
Fixpoint rates_loop (pages : list slot) (rates : list (string * CurrencyRate))
  : result (list (string * CurrencyRate)) :=
  match pages with
  | [] => Ok rates
  | page :: rest =>
      rate <- xpath_text page;;
      first <- item rate 0;;
      let meta_rate := split_ws first in
      if (List.length meta_rate =? 0)%nat then rates_loop rest rates
      else
        src <- item meta_rate 1;;
        dst <- item_from_end meta_rate 1;;
        let symbol := src ++ "/" ++ dst in
        amount <- item_from_end meta_rate 2;;
        amount <- Decimal (remove_char "," amount);;
        rates_loop rest
          (dict_set symbol
             {| symbol := symbol; name := symbol; rate := amount;
                updated_at := now |} rates)
  end.

(** Lines 573-589, [get_rates]. *)
Definition get_rates (self : HTMLReader.t) (net : nat -> UrlReader.outcome)
  (schedule : list nat)
  : HTMLReader.t * result (list (string * CurrencyRate)) :=
  let '(self, pages) := HTMLReader.get_pages self net schedule in
  (self, rates_loop pages []).

End Rates.

End XeReader.

(* ===================================================================== *)
(** * [class YahooReader(UrlReader)]                                      *)
(* ===================================================================== *)

Module YahooReader.

(** Lines 211-224, [__init__], called without a logger. A [str] is
    wrapped in a list as it is: it is not split. *)
Definition init (symbols : pyval) : result UrlReader.t :=
  let b := UrlReader.init (PStr DEFAULTS.YAHOO_API_URL) PNone PNone
             UrlReader.JSON in
  let symbols :=
    match symbols with
    | PStr _ => PList [symbols]
    | _ => symbols
    end in
  match symbols with
  | PList l =>
      strs <- MOEXReader.all_str l;;
      let b :=
        UrlReader.set_params b (PDict [("symbols", PStr (join "," strs))]) in
      Ok (UrlReader.set_headers b
            (PDict [("User-Agent", PStr DEFAULTS.USER_AGENT);
                    ("Content-Type", PStr "application/json")]))
  | _ => Raise ValueError
  end.

Section Rates.

(** [decimal.Decimal], [datetime.datetime], the conversion of line 235,
    [decimal.Decimal(str(x))], and the successive readings of
    [datetime.datetime.now()]. *)
Variable decimal : Type.
Variable datetime : Type.
Variable Decimal_of_str : pyval -> result decimal.
Variable now : nat -> datetime.

(** [class CurrencyRate] *)
Record CurrencyRate : Type := {
  symbol : pyval;
  name : pyval;
  rate : decimal;
  updated_at : datetime
}.

(** Lines 233-237, the comprehension; [clock] counts the readings of the
    clock so far. The key is evaluated before the value, and hashed when
    the entry is stored. *)
Fixpoint rates_loop (json_data : pyval) (rows : list pyval) (clock : nat)
  (acc : pydict CurrencyRate) : result (pydict CurrencyRate) :=
  match rows with
  | [] => Ok acc
  | data :: rest =>
      if truthy json_data then
        key <- getitem data "symbol";;
        sym <- getitem data "symbol";;
        short <- getitem data "shortName";;
        price <- getitem data "regularMarketPrice";;
        price <- Decimal_of_str price;;
        acc <- pd_set key
                 {| symbol := sym; name := short; rate := price;
                    updated_at := now clock |} acc;;
        rates_loop json_data rest (S clock) acc
      else rates_loop json_data rest clock acc
  end.

(** Lines 233-237, on the payload [_get_raw_data] returned. *)
Definition rates_of (json_data : pyval) : result (pydict CurrencyRate) :=
  quote <- getitem json_data "quoteResponse";;
  held <- getitem quote "result";;
  rows <- iter held;;
  rates_loop json_data rows 0 [].

(** Lines 226-237, [get_rates]; [o] is what the awaits of the one
    request do. *)
Definition get_rates (self : UrlReader.t) (o : UrlReader.outcome)
  : UrlReader.t * result (pydict CurrencyRate) :=
  match UrlReader._get_raw_data self (UrlReader.__url self)
          (UrlReader.__params self) (UrlReader.__headers self)
          None PNone o with
  | (self, Raise e) => (self, Raise e)
  | (self, Ok json_data) => (self, rates_of json_data)
  end.

End Rates.

Arguments symbol {decimal datetime} _.
Arguments name {decimal datetime} _.
Arguments rate {decimal datetime} _.
Arguments updated_at {decimal datetime} _.

End YahooReader.

(* ===================================================================== *)
(** * [class GarantexReader(UrlReader)]                                   *)
(* ===================================================================== *)

Module GarantexReader.

(** Lines 277-288, [__init__], called without a logger. *)
Definition init (market : pyval) : result UrlReader.t :=
  let b := UrlReader.init (PStr DEFAULTS.GARANTEX_API_URL) PNone PNone
             UrlReader.JSON in
  if negb (is_str market) then Raise ValueError
  else
    let b := UrlReader.set_params b (PDict [("market", market)]) in
    Ok (UrlReader.set_headers b
          (PDict [("User-Agent", PStr DEFAULTS.USER_AGENT);
                  ("Content-Type", PStr "application/json")])).

Section Dom.

(** [decimal.Decimal] with its constructor, [datetime.datetime] with
    [fromtimestamp]. *)
Variable decimal : Type.
Variable datetime : Type.
Variable Decimal : pyval -> result decimal.
Variable fromtimestamp : pyval -> result datetime.

(** [class DepthOfMarket] *)
Record DepthOfMarket : Type := {
  market : string;
  ask_price : decimal;
  ask_factor : decimal;
  bid_price : decimal;
  bid_factor : decimal;
  updated_at : datetime
}.

(** [decimal.Decimal(json_data[side][0][field])] *)
Definition first_row (json_data : pyval) (side field : string)
  : result decimal :=
  rows <- getitem json_data side;;
  row <- index rows 0;;
  held <- getitem row field;;
  Decimal held.

(** Lines 295-301, on the payload [_get_raw_data] returned. *)
Definition dom_of (json_data : pyval) : result (option DepthOfMarket) :=
  if truthy json_data then
    ask_price <- first_row json_data "asks" "price";;
    ask_factor <- first_row json_data "asks" "factor";;
    bid_price <- first_row json_data "bids" "price";;
    bid_factor <- first_row json_data "bids" "factor";;
    stamp <- getitem json_data "timestamp";;
    stamp <- fromtimestamp stamp;;
    Ok (Some {| market := "USDT/РУБ";
                ask_price := ask_price; ask_factor := ask_factor;
                bid_price := bid_price; bid_factor := bid_factor;
                updated_at := stamp |})
  else Ok None.

(** Lines 290-301, [get_dom]: [_get_raw_data] is called with its
    defaults. *)
Definition get_dom (self : UrlReader.t) (o : UrlReader.outcome)
  : UrlReader.t * result (option DepthOfMarket) :=
  match UrlReader._get_raw_data self PNone PNone PNone None PNone o with
  | (self, Raise e) => (self, Raise e)
  | (self, Ok json_data) => (self, dom_of json_data)
  end.

End Dom.

Arguments market {decimal datetime} _.
Arguments ask_price {decimal datetime} _.
Arguments ask_factor {decimal datetime} _.
Arguments bid_price {decimal datetime} _.
Arguments bid_factor {decimal datetime} _.
Arguments updated_at {decimal datetime} _.

End GarantexReader.

(* ===================================================================== *)
(** * Specification predicates                                            *)
(* ===================================================================== *)

Module Spec.

Import UrlReader Loop.

(** What a call that got a response leaves in [self.__result]: the
    decoded payload [v0], as it is or with the task key set. When the
    payload is a dict without the key, the key is set. *)
Definition left_by (mode : UrlReaderMode) (task_key : option string)
  (task_name : pyval) (o : outcome) (v : pyval) : Prop :=
  exists r v0,
    o = Responded r /\
    decode mode r = Ok v0 /\
    (v = v0 \/
     exists k, task_key = Some k /\ setitem v0 k task_name = Ok v) /\
    (forall k d,
        task_key = Some k -> k <> EmptyString -> mode = JSON ->
        v0 = PDict d -> lookup k d = None ->
        v = PDict (dict_set k task_name d)).

(** [v] is [None] or what one of the tasks left in [self.__result]. *)
Definition clean (tasks : list task) (mode : UrlReaderMode) (v : pyval)
  : Prop :=
  v = PNone \/
  exists i tk,
    nth_error tasks i = Some tk /\
    left_by mode (t_key tk) (t_name tk) (t_outcome tk) v.

(** A task past its prologue sees a clean attribute; a returned value
    is clean; only the prologue's [ValueError] is ever raised. *)
Definition sound (tasks : list task) (mode : UrlReaderMode) (self : t)
  (st : status) : Prop :=
  match st with
  | Created => True
  | Awaiting _ | Leaving _ => clean tasks mode (__result self)
  | Done (SVal v) => clean tasks mode v
  | Done (SExc e) => e = ValueError
  end.

(** How far a task has got. *)
Definition rank (st : status) : nat :=
  match st with
  | Created => 0
  | Awaiting _ => 1
  | Leaving _ => 2
  | Done _ => 3
  end.

(** How far task [j] has got; a task that does not exist has nothing
    left to do. *)
Definition progress (sts : list status) (j : nat) : nat :=
  match nth_error sts j with
  | Some st => rank st
  | None => 3
  end.

(** A gathered value [v] is attributable: it is [None], or it is the
    payload [v0] that answered the request for wallet number [i], as it
    came or with [wallet_address] set to that wallet; and when the payload
    is a dict that did not have the key, [v['wallet_address']] is that
    wallet. *)
Definition attributed (wallets : list pyval) (net : nat -> outcome)
  (v : pyval) : Prop :=
  v = PNone \/
  exists i address r v0,
    nth_error wallets i = Some address /\
    net i = Responded r /\
    resp_json r = Ok v0 /\
    (v = v0 \/ setitem v0 "wallet_address" address = Ok v) /\
    (forall d, v0 = PDict d -> lookup "wallet_address" d = None ->
               getitem v "wallet_address" = Ok address).

(** One slot per wallet, every gathered value attributable. *)
Definition batch_ok (wallets : list pyval) (net : nat -> outcome)
  (slots : list slot) : Prop :=
  List.length slots = List.length wallets /\
  forall v, In (SVal v) slots -> attributed wallets net v.

(** Every list of the dict satisfies [P]. *)
Definition all_records {R : Type} (P : R -> Prop) (wallets : pydict (list R))
  : Prop :=
  forall address records, In (address, records) wallets -> Forall P records.

(** [record] is what lines 385-395 make of the tracked transfer [trn],
    one of the transfers of the TronGrid response [transactions]. *)
Definition tron_record_of {datetime : Type} (transactions : slot)
  (trn : pyval) (record : TronWalletReader.transaction datetime) : Prop :=
  (exists data trns,
      slot_getitem transactions "data" = Ok data /\
      iter data = Ok trns /\ In trn trns) /\
  TronWalletReader.tracked trn = Ok true /\
  TronWalletReader.normalize transactions trn
  = Ok (TronWalletReader.wallet record, TronWalletReader.value record).

(** [record] is what lines 492-502 make of the tracked transfer [trn],
    one of the transfers of the BscScan response [transactions]. *)
Definition bsc_record_of {datetime : Type} (transactions : slot)
  (trn : pyval) (record : BscScanWalletReader.transaction datetime) : Prop :=
  (exists held trns,
      slot_getitem transactions "result" = Ok held /\
      iter held = Ok trns /\ In trn trns) /\
  BscScanWalletReader.tracked trn = Ok true /\
  BscScanWalletReader.normalize transactions trn
  = Ok (BscScanWalletReader.wallet record, BscScanWalletReader.value record).

End Spec.

(* ===================================================================== *)
(** * Sample readers, responses and payloads                              *)
(* ===================================================================== *)

Module Examples.

Import UrlReader.

(** A response whose body decodes to [v]. *)
Definition ok_response (v : pyval) : response :=
  {| resp_url := PStr "https://example.invalid/";
     resp_status := 200;
     resp_json := Ok v;
     resp_text := Ok "{}";
     resp_exit := None |}.

(** A response whose body is the page [page]; it is no JSON. *)
Definition page_response (page : string) : response :=
  {| resp_url := PStr "https://example.invalid/";
     resp_status := 200;
     resp_json := Raise ClientError;
     resp_text := Ok page;
     resp_exit := None |}.

(** A gateway error page where JSON was expected. *)
Definition bad_gateway : response :=
  {| resp_url := PStr "https://api.bscscan.com/api/";
     resp_status := 502;
     resp_json := Raise ClientError;
     resp_text := Ok "Bad Gateway";
     resp_exit := None |}.

(** A TronGrid account payload holding [amount] of the tracked token. *)
Definition tron_account (amount : string) : list (string * pyval) :=
  [("data",
    PList [PDict [("trc20",
                   PList [PDict [(DEFAULTS.TRON_USDT_CONTRACT,
                                  PStr amount)]])]]);
   ("success", PBool true)].

(** A TRC20 transfer of the tracked token as TronGrid lists it. *)
Definition trc20_transfer (sender receiver symbol : string) : pyval :=
  PDict [("from", PStr sender); ("to", PStr receiver);
         ("value", PStr "100");
         ("block_timestamp", PInt 1700000000000);
         ("token_info",
          PDict [("address", PStr DEFAULTS.TRON_USDT_CONTRACT);
                 ("symbol", PStr symbol)])].

(** A BEP20 transfer as BscScan lists it. *)
Definition bep20_transfer (sender receiver contract : string) : pyval :=
  PDict [("from", PStr sender); ("to", PStr receiver);
         ("value", PStr "100");
         ("timeStamp", PStr "1700000000");
         ("contractAddress", PStr contract);
         ("tokenSymbol", PStr "BSC-USD")].

(** The readers as [__init__] has them before it sets the wallets. *)
Definition blank_tron : TronWalletReader.t :=
  {| TronWalletReader.base :=
       init (PStr DEFAULTS.TRON_API_URL) PNone PNone JSON;
     TronWalletReader.usdt_contract := DEFAULTS.TRON_USDT_CONTRACT;
     TronWalletReader.__wallets := [];
     TronWalletReader.urls := [];
     TronWalletReader.trnx_urls := [] |}.

Definition blank_bsc : BscScanWalletReader.t :=
  {| BscScanWalletReader.base :=
       init (PStr DEFAULTS.BSCSCAN_API_URL) PNone PNone JSON;
     BscScanWalletReader.usdt_contract := DEFAULTS.BSCSCAN_USDT_CONTRACT;
     BscScanWalletReader.api_key := PStr DEFAULTS.BSCSCAN_API_KEY;
     BscScanWalletReader.__wallets := [];
     BscScanWalletReader.balance_params_list := [];
     BscScanWalletReader.trnx_params_list := [] |}.

End Examples.

(* ===================================================================== *)
(** * Further specification predicates                                    *)
(* ===================================================================== *)

Module Shape.

Import UrlReader Loop.

(** Some character of [s] satisfies [p]. *)
Fixpoint has_char (p : ascii -> bool) (s : string) : bool :=
  match s with
  | EmptyString => false
  | String c s' => p c || has_char p s'
  end.

(** A character that cannot be part of a target: whitespace, which the
    target-set idiom deletes, or the comma, at which it splits. *)
Definition is_separator (c : ascii) : bool := is_space c || Ascii.eqb c ",".

(** The event is a request handed to the session, not a log line. *)
Definition is_request (ev : event) : bool :=
  match ev with
  | Session_get _ _ _ => true
  | _ => false
  end.

(** The trace of a reader that sent the request [rq] and nothing else
    to the session: the request first, then log lines. *)
Definition sent_only (rq : event) (trace : list event) : Prop :=
  exists logs,
    trace = rq :: logs /\ Forall (fun ev => is_request ev = false) logs.

End Shape.

(* ===================================================================== *)
(** * Tasks that complete one after the other                             *)
(* ===================================================================== *)

(** The interleaving the empty schedule stands for: every task runs up
    to its sleep, in creation order, and then the tasks resume one at a
    time, each from its sleep to its [return]. *)

Module InOrder.

Import UrlReader Loop.

Fixpoint start_all (tasks : list task) (self : t) : t * list status :=
  match tasks with
  | [] => (self, [])
  | tk :: rest =>
      let '(self, st) := step self tk Created in
      let '(self, sts) := start_all rest self in
      (self, st :: sts)
  end.

Fixpoint finish_each (tasks : list task) (self : t) (sts : list status)
  : t * list status :=
  match tasks, sts with
  | tk :: rest, st :: sts' =>
      let '(self, st) := step self tk st in
      let '(self, st) := step self tk st in
      let '(self, sts') := finish_each rest self sts' in
      (self, st :: sts')
  | _, _ => (self, sts)
  end.

(** [k] steps of one task. *)
Definition steps (k : nat) (tk : task) (state : t * status) : t * status :=
  Nat.iter k (fun state => step (fst state) tk (snd state)) state.

(** How many times a schedule names the first task. *)
Fixpoint turns (schedule : list nat) : nat :=
  match schedule with
  | [] => O
  | O :: rest => S (turns rest)
  | S _ :: rest => turns rest
  end.

(** The response of the task was not decoded: the sleep or the request
    raised, or reading the body did. *)
Definition undecoded (mode : UrlReaderMode) (o : outcome) : Prop :=
  match o with
  | Responded r => exists e, decode mode r = Raise e
  | _ => True
  end.

(** [url or self.__url] of line 182 is truthy: the call gets past the
    check of line 183. *)
Definition has_url (self : t) (tk : task) : bool :=
  truthy (py_or (t_url tk) (__url self)).

(** The status of a task agrees with its URL: only a task without a URL
    ends in an exception, which is the [ValueError] of line 185. *)
Definition fits (self : t) (tk : task) (st : status) : Prop :=
  match st with
  | Created => True
  | Done (SExc e) => e = ValueError /\ has_url self tk = false
  | _ => has_url self tk = true
  end.

End InOrder.

(* ===================================================================== *)
(** * Where a rate comes from                                             *)
(* ===================================================================== *)

Module Provenance.

Section Rates.

Variable decimal : Type.
Variable datetime : Type.

(** The entry [key: rate] is what lines 233-236 make of one of the
    quotes [rows] of the Yahoo response. *)
Definition quoted (Decimal_of_str : pyval -> result decimal)
  (rows : list pyval) (key : pyval)
  (rate : YahooReader.CurrencyRate decimal datetime) : Prop :=
  exists data price,
    In data rows /\
    getitem data "symbol" = Ok (YahooReader.symbol rate) /\
    py_eqb key (YahooReader.symbol rate) = true /\
    getitem data "shortName" = Ok (YahooReader.name rate) /\
    getitem data "regularMarketPrice" = Ok price /\
    Decimal_of_str price = Ok (YahooReader.rate rate).

(** The entry [key: rate] joins a row of the MOEX market data, priced
    and with a security id found in [symbols], with a row of the
    securities list that has the same id. *)
Definition joined (Decimal_of : pyval -> result decimal)
  (fromisoformat : pyval -> result datetime) (symbols : string)
  (securities marketdata : list pyval) (key : pyval)
  (rate : MOEXReader.CurrencyRate decimal datetime) : Prop :=
  exists secid data price stamp listed,
    key = PStr secid /\
    In data marketdata /\
    index data 2 = Ok (PStr secid) /\
    contains_str secid symbols = true /\
    index data 0 = Ok price /\ truthy price = true /\
    Decimal_of price = Ok (MOEXReader.rate decimal datetime rate) /\
    index data 3 = Ok stamp /\
    fromisoformat stamp = Ok (MOEXReader.updated_at decimal datetime rate) /\
    In listed securities /\
    index listed 0 = Ok (PStr secid) /\
    index listed 1 = Ok (MOEXReader.symbol decimal datetime rate) /\
    index listed 2 = Ok (MOEXReader.name decimal datetime rate).

End Rates.

Arguments quoted {decimal datetime} _ _ _ _.
Arguments joined {decimal datetime} _ _ _ _ _ _ _.

(** The metadata entry [key: meta] was read off a row of the securities
    list that has this id. *)
Definition listed (securities : list pyval) (key : pyval)
  (meta : MOEXReader.MOEXMetadata) : Prop :=
  exists row secid,
    In row securities /\
    index row 0 = Ok secid /\ py_eqb key secid = true /\
    index row 1 = Ok (@MOEXReader.shortname meta) /\
    index row 2 = Ok (@MOEXReader.secname meta).

Section Scraped.

Variable decimal : Type.
Variable datetime : Type.

(** The entry [key: rate] is what lines 580-588 make of one of the
    [pages]: the first text node that the query finds there splits into
    tokens of which the second and the last name the pair and the last
    but one, with its commas removed, is the rate. *)
Definition scraped (Decimal : string -> result decimal) (now : datetime)
  (xpath_text : Loop.slot -> result (list string)) (pages : list Loop.slot)
  (key : string) (rate : XeReader.CurrencyRate decimal datetime) : Prop :=
  exists page first texts tokens src value dst,
    In page pages /\
    xpath_text page = Ok (first :: texts) /\
    split_ws first = tokens /\
    nth_error tokens 1 = Some src /\
    nth_error tokens (List.length tokens - 1) = Some dst /\
    nth_error tokens (List.length tokens - 2) = Some value /\
    key = src ++ "/" ++ dst /\
    XeReader.symbol decimal datetime rate = key /\
    XeReader.name decimal datetime rate = key /\
    Decimal (remove_char "," value)
    = Ok (XeReader.rate decimal datetime rate) /\
    XeReader.updated_at decimal datetime rate = now.

End Scraped.

Arguments scraped {decimal datetime} _ _ _ _ _ _.

End Provenance.

(* ===================================================================== *)
(** * Balances, wallet by wallet                                          *)
(* ===================================================================== *)

Module Ledger.

Import UrlReader Loop.

(** The BscScan body [d] reports the balance [z]: the amount under
    ['result'] when the message is [OK] in whatever case, the sentinel
    [-1] otherwise. The body has no ['wallet_address'] of its own. *)
Definition bsc_reported (d : list (string * pyval)) (z : Z) : Prop :=
  lookup "wallet_address" d = None /\
  exists message,
    lookup "message" d = Some (PStr message) /\
    ((upper message = "OK" /\
      exists held, lookup "result" d = Some held /\ py_int held = Ok z) \/
     (upper message <> "OK" /\ z = -1)).

(** A body with the wallet mixed in, as a slot. *)
Definition tagged (wallet : string) (d : list (string * pyval)) : slot :=
  SVal (PDict (dict_set "wallet_address" (PStr wallet) d)).

(** A TronGrid account has no tokens; an entry of a token list does not
    hold the contract. *)
Definition no_tokens (account : pyval) : Prop :=
  exists tokens, getitem account "trc20" = Ok tokens /\ truthy tokens = false.

Definition lacks (contract : string) (entry : pyval) : Prop :=
  exists held, get entry contract PNone = Ok held /\ truthy held = false.

(** The amount of [contract] in a token list: that of the first entry
    that holds it, [0] when none does. *)
Definition amount_in (contract : string) (entries : list pyval) (z : Z)
  : Prop :=
  (Forall (lacks contract) entries /\ z = 0) \/
  (exists before entry after held,
      entries = (before ++ entry :: after)%list /\
      Forall (lacks contract) before /\
      get entry contract PNone = Ok held /\ truthy held = true /\
      py_int held = Ok z).

(** The amount of [contract] in a list of accounts: that in the token
    list of the first account that has tokens, [0] when none has. *)
Definition held_in (contract : string) (accounts : list pyval) (z : Z)
  : Prop :=
  (Forall no_tokens accounts /\ z = 0) \/
  (exists before account after tokens entries,
      accounts = (before ++ account :: after)%list /\
      Forall no_tokens before /\
      getitem account "trc20" = Ok tokens /\ truthy tokens = true /\
      iter tokens = Ok entries /\ amount_in contract entries z).

(** The TronGrid body [d] reports the balance [z] of [contract]: the
    sentinel [-1] when ['success'] is falsy (the body then has an
    ['error']), the amount held in ['data'] otherwise. The body has no
    ['wallet_address'] of its own. *)
Definition tron_reported (contract : string) (d : list (string * pyval))
  (z : Z) : Prop :=
  lookup "wallet_address" d = None /\
  exists success,
    lookup "success" d = Some success /\
    ((truthy success = false /\
      (exists err, lookup "error" d = Some err) /\ z = -1) \/
     (truthy success = true /\
      exists data accounts,
        lookup "data" d = Some data /\ iter data = Ok accounts /\
        held_in contract accounts z)).

(** The slots of a batch completed in order, wallet by wallet: the slot
    of a wallet holds its own body, which reports its amount, or it
    repeats the slot before it, and the amount is [0]. *)
Fixpoint in_order (reported : list (string * pyval) -> Z -> Prop)
  (previous : option slot) (items : list (string * Z * slot)) : Prop :=
  match items with
  | [] => True
  | (wallet, amount, s) :: rest =>
      ((exists d, s = tagged wallet d /\ reported d amount) \/
       (amount = 0 /\ previous = Some s)) /\
      in_order reported (Some s) rest
  end.

(** Wallets, amounts and slots side by side. *)
Fixpoint zip3 (ws : list string) (zs : list Z) (ss : list slot)
  : list (string * Z * slot) :=
  match ws, zs, ss with
  | w :: ws', z :: zs', s :: ss' => (w, z, s) :: zip3 ws' zs' ss'
  | _, _, _ => []
  end.

(** The wallet of an item, its entry before the loop, and its entry
    after. *)
Definition wallet_of (item : string * Z * slot) : string :=
  fst (fst item).

Definition zero_of (item : string * Z * slot) : pyval * Z :=
  (PStr (fst (fst item)), 0).

Definition entry_of (item : string * Z * slot) : pyval * Z :=
  (PStr (fst (fst item)), snd (fst item)).

End Ledger.
(* ===================================================================== *)
(** * Facts about the fetcher                                             *)
(* ===================================================================== *)

Module UrlReaderFacts.

Import UrlReader Spec.

Lemma eqb_empty_false (k : string) :
  k <> EmptyString -> (k =? "")%string = false.
Proof. intro H. apply String.eqb_neq. exact H. Qed.

Lemma emit_result self ev : __result (emit self ev) = __result self.
Proof. reflexivity. Qed.

Lemma emit_mode self ev : __mode (emit self ev) = __mode self.
Proof. reflexivity. Qed.

Lemma with_suite_mode self task_key task_name r :
  __mode (fst (with_suite self task_key task_name r)) = __mode self.
Proof.
  unfold with_suite.
  destruct (decode _ r) as [v0|e]; [|reflexivity].
  destruct (key_collides _ task_key) as [[|]|e]; try reflexivity.
  destruct task_key as [k|]; [|reflexivity].
  destruct (key_truthy (Some k) && negb (truthy task_name));
    destruct (key_truthy (Some k) && is_JSON _); simpl; try reflexivity;
    match goal with
    | |- context [setitem ?a ?b ?c] => destruct (setitem a b c)
    end; reflexivity.
Qed.

(** After a successful decoding the attribute holds the payload, as it
    is or with the task key set. *)
Lemma with_suite_decoded self task_key task_name r v0 :
  decode (__mode self) r = Ok v0 ->
  let v := __result (fst (with_suite self task_key task_name r)) in
  v = v0 \/ exists k, task_key = Some k /\ setitem v0 k task_name = Ok v.
Proof.
  intros Hdec. unfold with_suite.
  change (__mode (set_response self r)) with (__mode self). rewrite Hdec.
  destruct (key_collides _ task_key) as [[|]|e]; try (left; reflexivity).
  destruct task_key as [k|]; [|left; reflexivity].
  destruct (key_truthy (Some k) && negb (truthy task_name));
    destruct (key_truthy (Some k) && is_JSON _); simpl;
    try (left; reflexivity).
  all: rewrite ?emit_result;
    change (__result (set_result (set_response self r) v0)) with v0;
    destruct (setitem v0 k task_name) as [v'|e] eqn:Hs; simpl;
    [right; exists k; split; [reflexivity|exact Hs] | left; reflexivity].
Qed.

(** A dict payload without the task key gets it, in JSON mode. *)
Lemma with_suite_tags self k task_name r d :
  k <> EmptyString -> __mode self = JSON ->
  decode (__mode self) r = Ok (PDict d) -> lookup k d = None ->
  __result (fst (with_suite self (Some k) task_name r))
  = PDict (dict_set k task_name d).
Proof.
  intros Hne Hm Hdec Hl. unfold with_suite.
  change (__mode (set_response self r)) with (__mode self). rewrite Hdec.
  unfold key_collides, key_truthy.
  change (__result (set_result (set_response self r) (PDict d)))
    with (PDict d).
  change (__mode (set_result (set_response self r) (PDict d)))
    with (__mode self).
  rewrite (eqb_empty_false _ Hne), Hm. simpl.
  rewrite Hl. simpl.
  destruct d as [|kv d']; simpl;
    destruct (negb (truthy task_name)); rewrite ?emit_mode;
    cbn [__mode set_result set_response]; rewrite Hm; reflexivity.
Qed.

(** The body of the [async with] either leaves [self.__result] alone
    (decoding raised) or leaves the payload of this response in it. *)
Lemma with_suite_result self task_key task_name r :
  let self' := fst (with_suite self task_key task_name r) in
  __result self' = __result self \/
  left_by (__mode self) task_key task_name (Responded r) (__result self').
Proof.
  destruct (decode (__mode self) r) as [v0|e] eqn:Hdec.
  - right. exists r, v0. split; [reflexivity|]. split; [exact Hdec|].
    split; [apply with_suite_decoded; exact Hdec|].
    intros k d Hk Hne Hm Hv Hl. subst task_key v0.
    apply with_suite_tags; assumption.
  - left. unfold with_suite.
    change (__mode (set_response self r)) with (__mode self).
    rewrite Hdec. reflexivity.
Qed.

End UrlReaderFacts.

(* ===================================================================== *)
(** * Facts about the event loop                                          *)
(* ===================================================================== *)

Module LoopFacts.

Import UrlReader Loop Spec UrlReaderFacts.

(** ** One slot per task *)

Lemma step_nth_length tasks i self sts :
  List.length (snd (step_nth tasks i self sts)) = List.length sts.
Proof.
  revert i self sts.
  induction tasks as [|tk tasks IH]; intros i self [|st sts];
    try reflexivity.
  destruct i as [|i]; simpl.
  - destruct (step self tk st). reflexivity.
  - specialize (IH i self sts).
    destruct (step_nth tasks i self sts). simpl in *. congruence.
Qed.

Lemma run_length tasks schedule self sts :
  List.length (snd (run tasks schedule self sts)) = List.length sts.
Proof.
  revert self sts.
  induction schedule as [|i rest IH]; intros self sts; simpl;
    [reflexivity|].
  pose proof (step_nth_length tasks i self sts) as H.
  destruct (step_nth tasks i self sts) as [self' sts']. simpl in H.
  rewrite IH. exact H.
Qed.

Lemma settle_length tasks schedule self :
  List.length (snd (settle tasks schedule self)) = List.length tasks.
Proof.
  unfold settle.
  pose proof (run_length tasks (seq 0 (List.length tasks)) self
                (repeat Created (List.length tasks))) as H1.
  destruct (run tasks (seq 0 (List.length tasks)) self _) as [s1 sts1].
  pose proof (run_length tasks schedule s1 sts1) as H2.
  destruct (run tasks schedule s1 sts1) as [s2 sts2].
  rewrite run_length. simpl in *. rewrite H2, H1. apply repeat_length.
Qed.

Lemma gather_length tasks schedule self :
  List.length (snd (gather tasks schedule self)) = List.length tasks.
Proof.
  unfold gather.
  pose proof (settle_length tasks schedule self) as H.
  destruct (settle tasks schedule self) as [s sts]. simpl in *.
  rewrite length_map. exact H.
Qed.

(** ** Every task finishes *)

Local Arguments Nat.min : simpl never.

Lemma rank_bound st : (rank st <= 3)%nat.
Proof. destruct st; simpl; lia. Qed.

Lemma step_rank self tk st :
  (Nat.min 3 (S (rank st)) <= rank (snd (step self tk st)))%nat.
Proof.
  destruct st as [|rq|inflight|s]; simpl.
  - destruct (prologue self (t_url tk) (t_params tk) (t_headers tk))
      as [self' [rq|e]]; simpl; lia.
  - destruct (try_suite self rq (t_key tk) (t_name tk) (t_outcome tk))
      as [[self1 inflight] resp].
    destruct (except_suite self1 inflight resp). simpl. lia.
  - simpl. lia.
  - simpl. lia.
Qed.

Lemma step_nth_progress tasks i self sts j :
  (progress sts j <= progress (snd (step_nth tasks i self sts)) j)%nat /\
  (j = i -> (i < List.length tasks)%nat ->
   (Nat.min 3 (S (progress sts j))
    <= progress (snd (step_nth tasks i self sts)) j)%nat).
Proof.
  revert i self sts j.
  induction tasks as [|tk tasks IH]; intros i self sts j.
  - simpl. split; [lia|]. intros _ H. inversion H.
  - destruct sts as [|st sts].
    + simpl. unfold progress. destruct j; simpl; split; intros; lia.
    + destruct i as [|i]; simpl.
      * pose proof (step_rank self tk st) as Hr.
        destruct (step self tk st) as [self' st']. simpl in *.
        unfold progress. destruct j as [|j]; simpl.
        -- pose proof (rank_bound st). split; [lia|]. intros _ _. exact Hr.
        -- split; [apply le_n|]. intros H. discriminate.
      * specialize (IH i self sts).
        destruct (step_nth tasks i self sts) as [self' sts']. simpl in *.
        unfold progress in *. destruct j as [|j]; simpl.
        -- split; [apply le_n|]. intros H. discriminate.
        -- destruct (IH j) as [H1 H2]. split; [exact H1|].
           intros Hj Hi. injection Hj as Hj. apply H2; [exact Hj|lia].
Qed.

Lemma run_progress tasks schedule self sts j :
  (progress sts j <= progress (snd (run tasks schedule self sts)) j)%nat /\
  (In j schedule -> (j < List.length tasks)%nat ->
   (Nat.min 3 (S (progress sts j))
    <= progress (snd (run tasks schedule self sts)) j)%nat).
Proof.
  revert self sts.
  induction schedule as [|i rest IH]; intros self sts; simpl.
  - split; [lia|]. intros [].
  - destruct (step_nth_progress tasks i self sts j) as [H1 H2].
    destruct (step_nth tasks i self sts) as [self' sts']. simpl in *.
    destruct (IH self' sts') as [H3 H4]. split; [lia|].
    intros [Hi|Hin] Hj.
    + subst i. specialize (H2 eq_refl Hj). lia.
    + specialize (H4 Hin Hj). lia.
Qed.

(** Two steps in a row for every task of [l]. *)
Lemma run_finish_progress tasks l self sts j :
  In j l -> (j < List.length tasks)%nat ->
  (Nat.min 3 (S (S (progress sts j)))
   <= progress (snd (run tasks (flat_map (fun i => [i; i]) l) self sts)) j)%nat.
Proof.
  revert self sts. induction l as [|i l IH]; intros self sts Hin Hj.
  - destruct Hin.
  - simpl.
    destruct (step_nth_progress tasks i self sts j) as [M1 P1].
    destruct (step_nth tasks i self sts) as [s1 sts1]. simpl in M1, P1.
    destruct (step_nth_progress tasks i s1 sts1 j) as [M2 P2].
    destruct (step_nth tasks i s1 sts1) as [s2 sts2]. simpl in M2, P2.
    destruct (Nat.eq_dec j i) as [E|E].
    + subst i. specialize (P1 eq_refl Hj). specialize (P2 eq_refl Hj).
      pose proof (run_progress tasks (flat_map (fun i => [i; i]) l)
                    s2 sts2 j) as [M3 _].
      lia.
    + destruct Hin as [Hin|Hin]; [congruence|].
      specialize (IH s2 sts2 Hin Hj). lia.
Qed.

(** When [gather] reads the results every task is [Done]. *)
Lemma settle_done tasks schedule self :
  Forall (fun st => exists s, st = Done s)
         (snd (settle tasks schedule self)).
Proof.
  pose proof (settle_length tasks schedule self) as Hlen.
  apply Forall_forall. intros st Hin.
  apply In_nth_error in Hin. destruct Hin as [j Hj].
  assert (Hlt : (j < List.length tasks)%nat).
  { rewrite <- Hlen. apply nth_error_Some. congruence. }
  assert (Hseq : In j (seq 0 (List.length tasks))).
  { apply in_seq. lia. }
  revert Hj. unfold settle, finish_all.
  destruct (run tasks (seq 0 (List.length tasks)) self _) as [s1 sts1] eqn:E1.
  destruct (run tasks schedule s1 sts1) as [s2 sts2] eqn:E2.
  pose proof (run_progress tasks (seq 0 (List.length tasks)) self
                (repeat Created (List.length tasks)) j) as [_ P1].
  pose proof (run_progress tasks schedule s1 sts1 j) as [P2 _].
  pose proof (run_finish_progress tasks (seq 0 (List.length tasks)) s2 sts2
                j Hseq Hlt) as P3.
  rewrite E1 in P1. rewrite E2 in P2.
  specialize (P1 Hseq Hlt). simpl in P1, P2.
  intros Hj. unfold progress in P3 at 2. rewrite Hj in P3.
  destruct st as [|rq|inflight|s]; simpl in P3; try lia.
  exists s. reflexivity.
Qed.

(** ** What a slot can hold *)

Section Provenance.

Variable tasks : list task.
Variable mode : UrlReaderMode.

Local Abbreviation clean := (Spec.clean tasks mode).
Local Abbreviation sound := (Spec.sound tasks mode).


Lemma except_suite_result self inflight resp :
  __result (fst (except_suite self inflight resp)) = __result self.
Proof.
  unfold except_suite. destruct inflight as [err|]; [|reflexivity].
  destruct (is_ClientError err || is_Exception err); [|reflexivity].
  destruct resp as [r|]; [|reflexivity].
  destruct (resp_text r); reflexivity.
Qed.

Lemma except_suite_mode self inflight resp :
  __mode (fst (except_suite self inflight resp)) = __mode self.
Proof.
  unfold except_suite. destruct inflight as [err|]; [|reflexivity].
  destruct (is_ClientError err || is_Exception err); [|reflexivity].
  destruct resp as [r|]; [|reflexivity].
  destruct (resp_text r); reflexivity.
Qed.

Lemma try_suite_mode self rq task_key task_name o :
  __mode (fst (fst (try_suite self rq task_key task_name o)))
  = __mode self.
Proof.
  destruct o as [e|e|r]; try reflexivity. simpl.
  pose proof (with_suite_mode
                (emit self (Session_get (rq_url rq) (rq_params rq)
                                        (rq_headers rq)))
                task_key task_name r) as H.
  destruct (with_suite _ task_key task_name r). exact H.
Qed.

Lemma try_suite_result self rq task_key task_name o :
  let self' := fst (fst (try_suite self rq task_key task_name o)) in
  __result self' = __result self \/
  left_by (__mode self) task_key task_name o (__result self').
Proof.
  destruct o as [e|e|r]; try (left; reflexivity). simpl.
  pose proof (with_suite_result
                (emit self (Session_get (rq_url rq) (rq_params rq)
                                        (rq_headers rq)))
                task_key task_name r) as H.
  destruct (with_suite _ task_key task_name r). exact H.
Qed.

Lemma prologue_spec self url params headers :
  let '(self', out) := prologue self url params headers in
  __mode self' = __mode self /\
  match out with
  | Ok _ => __result self' = PNone
  | Raise e => e = ValueError /\ __result self' = __result self
  end.
Proof.
  unfold prologue.
  destruct (negb (truthy (py_or url (__url self))) &&
            negb (truthy (__url self))); simpl; auto.
Qed.

(** One step of one task keeps the mode, keeps a clean attribute clean,
    and takes a sound status to a sound status. *)
Lemma step_sound self tk st i :
  nth_error tasks i = Some tk ->
  __mode self = mode ->
  sound self st ->
  let '(self', st') := step self tk st in
  __mode self' = mode /\
  (clean (__result self) -> clean (__result self')) /\
  sound self' st'.
Proof.
  intros Hnth Hmode Hst. destruct st as [|rq|inflight|s]; simpl.
  - pose proof (prologue_spec self (t_url tk) (t_params tk) (t_headers tk))
      as H.
    destruct (prologue self (t_url tk) (t_params tk) (t_headers tk))
      as [self' [rq|e]]; destruct H as [Hm H].
    + split; [congruence|]. simpl. rewrite H.
      split; [intros _|]; left; reflexivity.
    + destruct H as [He Hr]. split; [congruence|]. rewrite Hr.
      split; [tauto|exact He].
  - pose proof (try_suite_mode self rq (t_key tk) (t_name tk) (t_outcome tk))
      as Hm.
    pose proof (try_suite_result self rq (t_key tk) (t_name tk)
                  (t_outcome tk)) as Hr.
    destruct (try_suite self rq (t_key tk) (t_name tk) (t_outcome tk))
      as [[self1 inflight] resp]. simpl in Hm, Hr.
    pose proof (except_suite_mode self1 inflight resp) as Hm2.
    pose proof (except_suite_result self1 inflight resp) as Hr2.
    destruct (except_suite self1 inflight resp) as [self2 inflight2].
    simpl in Hm2, Hr2. split; [congruence|].
    assert (Hclean : clean (__result self) -> clean (__result self2)).
    { intro Hc. rewrite Hr2. destruct Hr as [Hr|Hr].
      - rewrite Hr. exact Hc.
      - right. exists i, tk. split; [exact Hnth|]. rewrite <- Hmode.
        exact Hr. }
    split; [exact Hclean|]. simpl. apply Hclean. exact Hst.
  - split; [exact Hmode|]. split; [tauto|]. exact Hst.
  - split; [exact Hmode|]. split; [tauto|]. exact Hst.
Qed.

Lemma sound_mono self self' st :
  (clean (__result self) -> clean (__result self')) ->
  sound self st -> sound self' st.
Proof. destruct st as [| | |[v|e]]; simpl; auto. Qed.

Lemma step_nth_sound suffix offset i self sts :
  (forall j tk, nth_error suffix j = Some tk ->
                nth_error tasks (offset + j) = Some tk) ->
  __mode self = mode ->
  Forall (sound self) sts ->
  let '(self', sts') := step_nth suffix i self sts in
  __mode self' = mode /\
  (clean (__result self) -> clean (__result self')) /\
  Forall (sound self') sts'.
Proof.
  revert offset i self sts.
  induction suffix as [|tk suffix IH]; intros offset i self sts Hsuf Hm Hs.
  - simpl. auto.
  - destruct sts as [|st sts]; [simpl; auto|].
    apply Forall_cons_iff in Hs. destruct Hs as [Hst Hrest].
    destruct i as [|i]; simpl.
    + pose proof (step_sound self tk st (offset + 0)%nat (Hsuf 0%nat tk eq_refl)
                    Hm Hst) as H.
      destruct (step self tk st) as [self' st'].
      destruct H as [Hm' [Hc Hst']].
      split; [exact Hm'|]. split; [exact Hc|].
      constructor; [exact Hst'|].
      eapply Forall_impl; [|exact Hrest].
      intros a. apply sound_mono. exact Hc.
    + assert (Hsuf' : forall j tk0, nth_error suffix j = Some tk0 ->
                nth_error tasks (S offset + j) = Some tk0).
      { intros j tk0 Hj. specialize (Hsuf (S j) tk0 Hj).
        replace (S offset + j)%nat with (offset + S j)%nat by lia.
        exact Hsuf. }
      pose proof (IH (S offset) i self sts Hsuf' Hm Hrest) as H.
      destruct (step_nth suffix i self sts) as [self' sts'].
      destruct H as [Hm' [Hc Hrest']].
      split; [exact Hm'|]. split; [exact Hc|].
      constructor; [|exact Hrest'].
      revert Hst. apply sound_mono. exact Hc.
Qed.

Lemma run_sound schedule self sts :
  __mode self = mode ->
  Forall (sound self) sts ->
  let '(self', sts') := run tasks schedule self sts in
  __mode self' = mode /\ Forall (sound self') sts'.
Proof.
  revert self sts.
  induction schedule as [|i rest IH]; intros self sts Hm Hs; simpl;
    [auto|].
  pose proof (step_nth_sound tasks 0 i self sts (fun j tk H => H) Hm Hs)
    as H.
  destruct (step_nth tasks i self sts) as [self' sts'].
  destruct H as [Hm' [_ Hs']]. apply IH; assumption.
Qed.

(** Every slot [gather] returns is sound. *)
Lemma gather_sound schedule self s :
  __mode self = mode ->
  In s (snd (gather tasks schedule self)) ->
  match s with
  | SVal v => clean v
  | SExc e => e = ValueError
  end.
Proof.
  intros Hm Hin. unfold gather, settle in Hin.
  assert (H0 : Forall (sound self) (repeat Created (List.length tasks))).
  { apply Forall_forall. intros st Hst. apply repeat_spec in Hst.
    subst st. exact I. }
  pose proof (run_sound (seq 0 (List.length tasks)) self _ Hm H0) as H1.
  destruct (run tasks (seq 0 (List.length tasks)) self _) as [s1 sts1].
  destruct H1 as [Hm1 Hs1].
  pose proof (run_sound schedule s1 sts1 Hm1 Hs1) as H2.
  destruct (run tasks schedule s1 sts1) as [s2 sts2].
  destruct H2 as [Hm2 Hs2].
  pose proof (run_sound (finish_all (List.length tasks)) s2 sts2 Hm2 Hs2)
    as H3.
  destruct (run tasks _ s2 sts2) as [s3 sts3].
  destruct H3 as [Hm3 Hs3]. simpl in Hin.
  apply in_map_iff in Hin. destruct Hin as [st [Hst Hin]].
  rewrite Forall_forall in Hs3. specialize (Hs3 st Hin).
  destruct st as [|rq|inflight|s0]; simpl in Hst; subst s;
    try (left; reflexivity).
  exact Hs3.
Qed.

End Provenance.

End LoopFacts.

(* ===================================================================== *)
(** * Facts about dicts                                                   *)
(* ===================================================================== *)

Module DictFacts.

Lemma pd_insert_fresh {V} (k : pyval) (x : V) (d : pydict V) :
  pd_lookup k d = None -> pd_insert k x d = (d ++ [(k, x)])%list.
Proof.
  induction d as [|[k' v] d IH]; simpl; intro H; [reflexivity|].
  destruct (py_eqb k' k); [discriminate|]. rewrite IH by exact H.
  reflexivity.
Qed.

Lemma pd_lookup_snoc {V} (k k2 : pyval) (x : V) (d : pydict V) :
  pd_lookup k d = None -> py_eqb k2 k = false ->
  pd_lookup k (d ++ [(k2, x)])%list = None.
Proof.
  induction d as [|[k' v] d IH]; simpl; intros H H2.
  - rewrite H2. reflexivity.
  - destruct (py_eqb k' k); [discriminate|]. apply IH; assumption.
Qed.

(** A comprehension over distinct [str] keys lists them in order. *)
Lemma pd_comprehension_strs {V} (f : pyval -> V) (ws : list string)
  (acc : pydict V) :
  NoDup ws ->
  (forall w, In w ws -> pd_lookup (PStr w) acc = None) ->
  pd_comprehension f (map PStr ws) acc
  = Ok (acc ++ map (fun w => (PStr w, f (PStr w))) ws)%list.
Proof.
  revert acc. induction ws as [|w ws IH]; intros acc Hnd Hfresh; simpl.
  - rewrite app_nil_r. reflexivity.
  - inversion Hnd as [|? ? Hw Hnd']; subst.
    unfold pd_set. simpl.
    rewrite pd_insert_fresh by (apply Hfresh; left; reflexivity).
    rewrite IH; [rewrite <- app_assoc; reflexivity|exact Hnd'|].
    intros w' Hin. apply pd_lookup_snoc.
    + apply Hfresh. right. exact Hin.
    + simpl. apply String.eqb_neq. intro E. subst w'. contradiction.
Qed.

Lemma pd_lookup_In {V} (k : pyval) (x : V) (d : pydict V) :
  pd_lookup k d = Some x -> exists k', In (k', x) d.
Proof.
  induction d as [|[k' v] d IH]; simpl; [discriminate|].
  destruct (py_eqb k' k).
  - intro H. injection H as <-. exists k'. left. reflexivity.
  - intro H. destruct (IH H) as [k2 H2]. exists k2. right. exact H2.
Qed.

Lemma pd_insert_In {V} (k : pyval) (x : V) (d : pydict V) k' (y : V) :
  In (k', y) (pd_insert k x d) -> y = x \/ In (k', y) d.
Proof.
  induction d as [|[k2 v] d IH]; simpl.
  - intros [H|[]]. left. congruence.
  - destruct (py_eqb k2 k); simpl.
    + intros [H|H]; [left; congruence|right; right; exact H].
    + intros [H|H]; [right; left; exact H|].
      destruct (IH H) as [E|E]; [left; exact E|right; right; exact E].
Qed.

End DictFacts.

(* ===================================================================== *)
(** * The batch dispatchers                                               *)
(* ===================================================================== *)

Module DispatchFacts.

Import UrlReader Loop Spec UrlReaderFacts LoopFacts DictFacts.

Lemma lookup_dict_set {V} (k : string) (x : V) (d : list (string * V)) :
  lookup k (dict_set k x d) = Some x.
Proof.
  induction d as [|[k' v] d IH]; simpl.
  - rewrite String.eqb_refl. reflexivity.
  - destruct (k' =? k)%string eqn:E; simpl; rewrite E; [reflexivity|exact IH].
Qed.

(** From what a task left to an attributable value. *)
Lemma left_by_attributed wallets net i address v :
  nth_error wallets i = Some address ->
  left_by JSON (Some "wallet_address") address (net i) v ->
  attributed wallets net v.
Proof.
  intros Hnth [r [v0 [Ho [Hdec [Hv Htag]]]]]. right.
  exists i, address, r, v0. split; [exact Hnth|]. split; [exact Ho|].
  split; [exact Hdec|]. split.
  - destruct Hv as [Hv|[k [Hk Hs]]]; [left; exact Hv|].
    injection Hk as <-. right. exact Hs.
  - intros d Hd Hl.
    rewrite (Htag "wallet_address" d eq_refl ltac:(discriminate) eq_refl Hd Hl).
    simpl. rewrite lookup_dict_set. reflexivity.
Qed.

(** ** [TronWalletReader.__fetch_urls] *)

Lemma tron_tasks_length self items i net :
  List.length (TronWalletReader.tasks_of self items i net)
  = List.length items.
Proof.
  revert i. induction items as [|[a u] items IH]; intro i; simpl;
    [reflexivity|]. rewrite IH. reflexivity.
Qed.

Lemma tron_tasks_nth self items i net j tk :
  nth_error (TronWalletReader.tasks_of self items i net) j = Some tk ->
  exists address url,
    nth_error items j = Some (address, url) /\
    t_key tk = Some "wallet_address" /\
    t_name tk = address /\
    t_outcome tk = net (i + j)%nat.
Proof.
  revert i j. induction items as [|[a u] items IH]; intros i j; simpl.
  - destruct j; discriminate.
  - destruct j as [|j]; simpl.
    + intro H. injection H as <-. exists a, u. simpl.
      rewrite Nat.add_0_r. auto.
    + intro H. destruct (IH (S i) j H) as [a' [u' [H1 [H2 [H3 H4]]]]].
      exists a', u'. rewrite H4.
      replace (S i + j)%nat with (i + S j)%nat by lia. auto.
Qed.

Lemma tron_fetch_urls_ok self urls net schedule :
  __mode (TronWalletReader.base self) = JSON ->
  batch_ok (map fst urls) net
           (snd (TronWalletReader.fetch_urls self urls net schedule)).
Proof.
  intro Hm. unfold TronWalletReader.fetch_urls.
  pose proof (gather_length (TronWalletReader.tasks_of self urls 0 net)
                schedule (TronWalletReader.base self)) as Hlen.
  pose proof (gather_sound (TronWalletReader.tasks_of self urls 0 net)
                JSON schedule (TronWalletReader.base self)) as Hsound.
  destruct (gather _ schedule (TronWalletReader.base self)) as [b slots].
  simpl in *. split.
  - rewrite Hlen, tron_tasks_length, length_map. reflexivity.
  - intros v Hin. specialize (Hsound (SVal v) Hm Hin). simpl in Hsound.
    destruct Hsound as [Hv|[i [tk [Hnth Hleft]]]]; [left; exact Hv|].
    destruct (tron_tasks_nth _ _ _ _ _ _ Hnth) as [a [u [H1 [H2 [H3 H4]]]]].
    rewrite H2, H3, H4 in Hleft. simpl in Hleft.
    apply (left_by_attributed _ net i a); [|exact Hleft].
    rewrite nth_error_map, H1. reflexivity.
Qed.

(** Setting distinct [str] wallets fills both url dicts, one entry per
    wallet, in order. *)
Lemma tron_setter_strs self (ws : list string) :
  NoDup ws ->
  exists self',
    TronWalletReader.wallets_setter self (PList (map PStr ws))
    = (self', None) /\
    TronWalletReader.base self' = TronWalletReader.base self /\
    TronWalletReader.__wallets self' = map PStr ws /\
    map fst (TronWalletReader.urls self') = map PStr ws /\
    map fst (TronWalletReader.trnx_urls self') = map PStr ws.
Proof.
  intro Hnd. unfold TronWalletReader.wallets_setter.
  rewrite !pd_comprehension_strs by (auto; intros; reflexivity).
  eexists. split; [reflexivity|]. simpl.
  rewrite !map_map. simpl. repeat split; reflexivity.
Qed.

(** ** [BscScanWalletReader.__fetch_urls] *)

Lemma bsc_tasks_ok self (mk : pyval -> pyval) wallets i net :
  (forall w, getitem (mk w) "address" = Ok w) ->
  exists tasks,
    BscScanWalletReader.tasks_of self (map mk wallets) i net = Ok tasks /\
    List.length tasks = List.length wallets /\
    forall j tk, nth_error tasks j = Some tk ->
      exists address,
        nth_error wallets j = Some address /\
        t_key tk = Some "wallet_address" /\
        t_name tk = address /\
        t_outcome tk = net (i + j)%nat.
Proof.
  intro Hmk. revert i.
  induction wallets as [|w wallets IH]; intro i; simpl.
  - exists []. split; [reflexivity|]. split; [reflexivity|].
    intros [|j] tk H; discriminate.
  - rewrite Hmk. simpl. destruct (IH (S i)) as [tasks [E [Hlen Hn]]].
    rewrite E. simpl. eexists. split; [reflexivity|]. split.
    + simpl. rewrite Hlen. reflexivity.
    + intros [|j] tk; simpl.
      * intro H. injection H as <-. exists w. simpl.
        rewrite Nat.add_0_r. auto.
      * intro H. destruct (Hn j tk H) as [a [H1 [H2 [H3 H4]]]].
        exists a. rewrite H4.
        replace (S i + j)%nat with (i + S j)%nat by lia. auto.
Qed.

Lemma bsc_fetch_urls_ok self (mk : pyval -> pyval) wallets net schedule :
  (forall w, getitem (mk w) "address" = Ok w) ->
  __mode (BscScanWalletReader.base self) = JSON ->
  exists slots,
    snd (BscScanWalletReader.fetch_urls self (map mk wallets) net schedule)
    = Ok slots /\
    batch_ok wallets net slots.
Proof.
  intros Hmk Hm. unfold BscScanWalletReader.fetch_urls.
  destruct (bsc_tasks_ok self mk wallets 0 net Hmk) as [tasks [E [Hlen Hn]]].
  rewrite E.
  pose proof (gather_length tasks schedule (BscScanWalletReader.base self))
    as Hgl.
  pose proof (gather_sound tasks JSON schedule
                (BscScanWalletReader.base self)) as Hsound.
  destruct (gather tasks schedule (BscScanWalletReader.base self))
    as [b slots].
  simpl in *. exists slots. split; [reflexivity|]. split.
  - rewrite Hgl. exact Hlen.
  - intros v Hin. specialize (Hsound (SVal v) Hm Hin). simpl in Hsound.
    destruct Hsound as [Hv|[i [tk [Hnth Hleft]]]]; [left; exact Hv|].
    destruct (Hn i tk Hnth) as [a [H1 [H2 [H3 H4]]]].
    rewrite H2, H3, H4 in Hleft. simpl in Hleft.
    apply (left_by_attributed _ net i a); assumption.
Qed.

End DispatchFacts.

(* ===================================================================== *)
(** * Facts about the transaction loops                                   *)
(* ===================================================================== *)

Module TransactionFacts.

Import UrlReader Loop Spec DictFacts.

(** Take [bind c k = Ok w] apart. *)
Ltac bind_ok H :=
  match type of H with
  | bind ?c _ = Ok _ =>
      let E := fresh "E" in
      destruct c eqn:E; simpl in H; [|discriminate H]
  end.

Lemma py_eqb_str (a : pyval) (s : string) :
  py_eqb a (PStr s) = true -> a = PStr s.
Proof.
  destruct a; simpl; try discriminate.
  intro H. apply String.eqb_eq in H. subst. reflexivity.
Qed.

Lemma all_records_insert {R} (P : R -> Prop) wallets address records :
  all_records P wallets -> Forall P records ->
  all_records P (pd_insert address records wallets).
Proof.
  intros Hall Hrec a rs Hin.
  destruct (pd_insert_In _ _ _ _ _ Hin) as [E|E]; [subst; exact Hrec|].
  exact (Hall a rs E).
Qed.

Lemma pd_get_In {V} (k : pyval) (d : pydict V) (x : V) :
  pd_get k d = Ok x -> exists k', In (k', x) d.
Proof.
  unfold pd_get. destruct (hashable k); [|discriminate].
  destruct (pd_lookup k d) eqn:E; [|discriminate].
  intro H. injection H as <-. exact (pd_lookup_In _ _ _ E).
Qed.

(** The dict [{k: [] for k in keys}] holds empty lists only. *)
Lemma empty_lists_records {R} (P : R -> Prop) keys (acc wallets : pydict (list R)) :
  all_records P acc ->
  pd_comprehension (fun _ => []) keys acc = Ok wallets ->
  all_records P wallets.
Proof.
  revert acc. induction keys as [|k keys IH]; intros acc Hacc; simpl.
  - intro H. injection H as <-. exact Hacc.
  - unfold pd_set. destruct (hashable k); simpl; [|discriminate].
    apply IH. apply all_records_insert; [exact Hacc|constructor].
Qed.

Section Tron.

Variable datetime : Type.
Variable fromtimestamp_ms : pyval -> result datetime.

Lemma tron_transfers_records P transactions trns wallets wallets' :
  (forall trn record,
      In trn trns ->
      TronWalletReader.tracked trn = Ok true ->
      TronWalletReader.normalize transactions trn
      = Ok (TronWalletReader.wallet record, TronWalletReader.value record) ->
      P record) ->
  all_records P wallets ->
  TronWalletReader.transfers_loop datetime fromtimestamp_ms transactions
    trns wallets = Ok wallets' ->
  all_records P wallets'.
Proof.
  revert wallets. induction trns as [|trn trns IH]; intros wallets HP Hall; simpl.
  - intro H. injection H as <-. exact Hall.
  - intro H. bind_ok H. destruct a as [|]; simpl in H.
    + bind_ok H. destruct a as [trn_from value]. bind_ok H. bind_ok H.
      bind_ok H. bind_ok H.
      apply IH in H; [exact H| |].
      * intros t r Hin. apply HP. right. exact Hin.
      * apply all_records_insert; [exact Hall|].
        destruct (pd_get_In _ _ _ E2) as [k' Hk'].
        apply Forall_app. split; [exact (Hall _ _ Hk')|].
        constructor; [|constructor].
        apply (HP trn); [left; reflexivity|exact E|exact E0].
    + apply IH in H; [exact H| |exact Hall].
      intros t r Hin. apply HP. right. exact Hin.
Qed.

Lemma tron_transactions_records P all raw_data wallets wallets' :
  (forall transactions, In transactions raw_data -> In transactions all) ->
  (forall transactions trn record,
      In transactions all -> tron_record_of transactions trn record ->
      P record) ->
  all_records P wallets ->
  TronWalletReader.transactions_loop datetime fromtimestamp_ms raw_data
    wallets = Ok wallets' ->
  all_records P wallets'.
Proof.
  revert wallets.
  induction raw_data as [|transactions rest IH]; intros wallets Hsub HP Hall;
    simpl.
  - intro H. injection H as <-. exact Hall.
  - intro H. bind_ok H.
    assert (Hrest : forall s, In s rest -> In s all)
      by (intros s Hs; apply Hsub; right; exact Hs).
    destruct (negb (truthy a)); simpl in H.
    + bind_ok H. bind_ok H. exact (IH wallets Hrest HP Hall H).
    + bind_ok H. bind_ok H. bind_ok H.
      apply (IH a2 Hrest HP); [|exact H].
      apply (tron_transfers_records P transactions a1 wallets a2);
        [|exact Hall|exact E2].
      intros trn record Hin Htr Hnorm.
      apply (HP transactions trn); [apply Hsub; left; reflexivity|].
      split; [exists a0, a1; auto|]. split; assumption.
Qed.

End Tron.

Section Bsc.

Variable datetime : Type.
Variable fromtimestamp : Z -> result datetime.

Lemma bsc_transfers_records P transactions trns wallets wallets' :
  (forall trn record,
      In trn trns ->
      BscScanWalletReader.tracked trn = Ok true ->
      BscScanWalletReader.normalize transactions trn
      = Ok (BscScanWalletReader.wallet record,
            BscScanWalletReader.value record) ->
      P record) ->
  all_records P wallets ->
  BscScanWalletReader.transfers_loop datetime fromtimestamp transactions
    trns wallets = Ok wallets' ->
  all_records P wallets'.
Proof.
  revert wallets. induction trns as [|trn trns IH]; intros wallets HP Hall; simpl.
  - intro H. injection H as <-. exact Hall.
  - intro H. bind_ok H. destruct a as [|]; simpl in H.
    + bind_ok H. destruct a as [trn_from value]. bind_ok H. bind_ok H.
      bind_ok H. bind_ok H. bind_ok H.
      apply IH in H; [exact H| |].
      * intros t r Hin. apply HP. right. exact Hin.
      * apply all_records_insert; [exact Hall|].
        destruct (pd_get_In _ _ _ E2) as [k' Hk'].
        apply Forall_app. split; [exact (Hall _ _ Hk')|].
        constructor; [|constructor].
        apply (HP trn); [left; reflexivity|exact E|exact E0].
    + apply IH in H; [exact H| |exact Hall].
      intros t r Hin. apply HP. right. exact Hin.
Qed.

Lemma bsc_transactions_records P all raw_data wallets wallets' :
  (forall transactions, In transactions raw_data -> In transactions all) ->
  (forall transactions trn record,
      In transactions all -> bsc_record_of transactions trn record ->
      P record) ->
  all_records P wallets ->
  BscScanWalletReader.transactions_loop datetime fromtimestamp raw_data
    wallets = Ok wallets' ->
  all_records P wallets'.
Proof.
  revert wallets.
  induction raw_data as [|transactions rest IH]; intros wallets Hsub HP Hall;
    simpl.
  - intro H. injection H as <-. exact Hall.
  - intro H. bind_ok H.
    assert (Hrest : forall s, In s rest -> In s all)
      by (intros s Hs; apply Hsub; right; exact Hs).
    destruct a; simpl in H.
    + bind_ok H. bind_ok H. exact (IH wallets Hrest HP Hall H).
    + bind_ok H. bind_ok H. bind_ok H.
      apply (IH a1 Hrest HP); [|exact H].
      apply (bsc_transfers_records P transactions a0 wallets a1);
        [|exact Hall|exact E2].
      intros trn record Hin Htr Hnorm.
      apply (HP transactions trn); [apply Hsub; left; reflexivity|].
      split; [exists a, a0; auto|]. split; assumption.
Qed.

End Bsc.

(** What passing the filters says about a transfer. *)
Lemma tron_tracked_inv (trn : pyval) :
  TronWalletReader.tracked trn = Ok true ->
  exists info symbol,
    getitem trn "token_info" = Ok info /\
    getitem info "address" = Ok (PStr DEFAULTS.TRON_USDT_CONTRACT) /\
    getitem info "symbol" = Ok (PStr symbol) /\
    upper symbol = "USDT".
Proof.
  unfold TronWalletReader.tracked. intro H.
  bind_ok H. bind_ok H.
  destruct (py_eqb a0 (PStr DEFAULTS.TRON_USDT_CONTRACT)) eqn:Ea;
    simpl in H; [|discriminate].
  apply py_eqb_str in Ea. subst a0.
  bind_ok H. bind_ok H.
  destruct a0; simpl in E2; try discriminate.
  injection E2 as <-. injection H as H. apply String.eqb_eq in H.
  exists a, s. auto.
Qed.

Lemma bsc_tracked_inv (trn : pyval) :
  BscScanWalletReader.tracked trn = Ok true ->
  getitem trn "tokenSymbol" = Ok (PStr "BSC-USD").
Proof.
  unfold BscScanWalletReader.tracked. intro H. bind_ok H.
  injection H as H. apply py_eqb_str in H. subst. reflexivity.
Qed.

End TransactionFacts.


(* ===================================================================== *)
(** * Facts about the balance loops                                       *)
(* ===================================================================== *)

Module BalanceFacts.

Import UrlReader Loop Spec DictFacts TransactionFacts.

Lemma py_eqb_refl_hashable (k : pyval) :
  hashable k = true -> py_eqb k k = true.
Proof.
  destruct k; simpl; try discriminate; intros _.
  - reflexivity.
  - destruct b; reflexivity.
  - apply Z.eqb_refl.
  - apply String.eqb_refl.
Qed.

Lemma pd_insert_keeps {V} (k a : pyval) (x : V) (d : pydict V) :
  pd_lookup k d <> None -> pd_lookup k (pd_insert a x d) <> None.
Proof.
  induction d as [|[k' v] d IH]; simpl; [congruence|].
  destruct (py_eqb k' a); simpl; destruct (py_eqb k' k); auto; discriminate.
Qed.

Lemma pd_insert_has {V} (a : pyval) (x : V) (d : pydict V) :
  hashable a = true -> pd_lookup a (pd_insert a x d) <> None.
Proof.
  intro Ha. induction d as [|[k' v] d IH]; simpl.
  - rewrite (py_eqb_refl_hashable a Ha). discriminate.
  - destruct (py_eqb k' a) eqn:E; simpl; rewrite E; [discriminate|exact IH].
Qed.

Lemma pd_set_keeps {V} (k a : pyval) (x : V) (d d' : pydict V) :
  pd_set a x d = Ok d' -> pd_lookup k d <> None -> pd_lookup k d' <> None.
Proof.
  unfold pd_set. destruct (hashable a); [|discriminate].
  intro H. injection H as <-. apply pd_insert_keeps.
Qed.

(** A comprehension has every one of its keys. *)
Lemma pd_comprehension_keys {V} (f : pyval -> V) keys (acc d : pydict V) k :
  pd_comprehension f keys acc = Ok d ->
  In k keys \/ pd_lookup k acc <> None -> pd_lookup k d <> None.
Proof.
  revert acc. induction keys as [|a keys IH]; intros acc; simpl.
  - intros H [[]|Hk]. injection H as <-. exact Hk.
  - unfold pd_set. destruct (hashable a) eqn:Ha; simpl; [|discriminate].
    intros H Hk. apply (IH _ H).
    destruct Hk as [[E|Hin]|Hk].
    + subst a. right. apply pd_insert_has. exact Ha.
    + left. exact Hin.
    + right. apply pd_insert_keeps. exact Hk.
Qed.

Lemma tron_balances_keep contract raw_data wallets wallets' k :
  TronWalletReader.balances_loop contract raw_data wallets = Ok wallets' ->
  pd_lookup k wallets <> None -> pd_lookup k wallets' <> None.
Proof.
  revert wallets.
  induction raw_data as [|balance rest IH]; intros wallets; simpl.
  - intro H. injection H as <-. auto.
  - intros H Hk. bind_ok H. destruct (negb (truthy a)); simpl in H.
    + repeat bind_ok H. apply (IH _ H).
      match goal with
      | E : pd_set _ _ _ = Ok _ |- _ => exact (pd_set_keeps _ _ _ _ _ E Hk)
      end.
    + repeat bind_ok H. apply (IH _ H).
      match goal with
      | E : pd_set _ _ _ = Ok _ |- _ => exact (pd_set_keeps _ _ _ _ _ E Hk)
      end.
Qed.

Lemma bsc_balances_keep raw_data wallets wallets' k :
  BscScanWalletReader.balances_loop raw_data wallets = Ok wallets' ->
  pd_lookup k wallets <> None -> pd_lookup k wallets' <> None.
Proof.
  revert wallets.
  induction raw_data as [|balance rest IH]; intros wallets; simpl.
  - intro H. injection H as <-. auto.
  - intros H Hk. bind_ok H. bind_ok H.
    destruct (a0 =? "OK")%string; simpl in H.
    + repeat bind_ok H. apply (IH _ H).
      match goal with
      | E : pd_set _ _ _ = Ok _ |- _ => exact (pd_set_keeps _ _ _ _ _ E Hk)
      end.
    + repeat bind_ok H. apply (IH _ H).
      match goal with
      | E : pd_set _ _ _ = Ok _ |- _ => exact (pd_set_keeps _ _ _ _ _ E Hk)
      end.
Qed.

(** Whenever [get_balances] returns a mapping, every wallet requested
    is one of its keys. *)
Lemma requested_wallets_are_never_missing
  (tron : TronWalletReader.t) (bsc : BscScanWalletReader.t)
  (net : nat -> outcome) (schedule : list nat) :
  (forall wallets k,
      snd (TronWalletReader.get_balances tron net schedule) = Ok wallets ->
      In k (TronWalletReader.__wallets tron) ->
      pd_lookup k wallets <> None) /\
  (forall wallets k,
      snd (BscScanWalletReader.get_balances bsc net schedule) = Ok wallets ->
      In k (BscScanWalletReader.__wallets bsc) ->
      pd_lookup k wallets <> None).
Proof.
  split; intros wallets k Hget Hin.
  - unfold TronWalletReader.get_balances in Hget.
    destruct (pd_comprehension (fun _ => 0)
                (TronWalletReader.__wallets tron) []) as [w0|e] eqn:E0;
      [|discriminate].
    destruct (TronWalletReader.fetch_urls tron (TronWalletReader.urls tron)
                net schedule) as [tron' raw_data].
    simpl in Hget. apply (tron_balances_keep _ _ _ _ k Hget).
    apply (pd_comprehension_keys _ _ _ _ k E0). left. exact Hin.
  - unfold BscScanWalletReader.get_balances in Hget.
    destruct (pd_comprehension (fun _ => 0)
                (BscScanWalletReader.__wallets bsc) []) as [w0|e] eqn:E0;
      [|discriminate].
    destruct (BscScanWalletReader.fetch_urls bsc
                (BscScanWalletReader.balance_params_list bsc) net schedule)
      as [bsc' [raw_data|e]]; [|discriminate].
    simpl in Hget. apply (bsc_balances_keep _ _ _ k Hget).
    apply (pd_comprehension_keys _ _ _ _ k E0). left. exact Hin.
Qed.

(** A gathered [None] makes each of the four loops raise, whatever the
    other slots hold. *)
Lemma none_slot_raises (datetime : Type)
  (fromtimestamp_ms : pyval -> result datetime)
  (fromtimestamp : Z -> result datetime)
  (contract : string) (raw_data : list slot) :
  In (SVal PNone) raw_data ->
  (forall wallets,
      exists e,
        TronWalletReader.balances_loop contract raw_data wallets = Raise e) /\
  (forall wallets,
      exists e,
        BscScanWalletReader.balances_loop raw_data wallets = Raise e) /\
  (forall wallets,
      exists e,
        TronWalletReader.transactions_loop datetime fromtimestamp_ms
          raw_data wallets = Raise e) /\
  (forall wallets,
      exists e,
        BscScanWalletReader.transactions_loop datetime fromtimestamp
          raw_data wallets = Raise e).
Proof.
  intro Hin. induction raw_data as [|s rest IH]; [destruct Hin|].
  assert (Hrest : s = SVal PNone \/ In (SVal PNone) rest)
    by (destruct Hin; auto).
  clear Hin. destruct Hrest as [E|Hin].
  - subst s. repeat split; intros wallets; eexists; reflexivity.
  - destruct (IH Hin) as [I1 [I2 [I3 I4]]].
    repeat split; intros wallets; simpl;
      repeat match goal with
        | |- exists e, bind ?c _ = Raise e =>
            destruct c; simpl; [|eexists; reflexivity]
        | |- exists e, (if ?b then _ else _) = Raise e => destruct b; simpl
        end; auto.
Qed.

End BalanceFacts.

(* ===================================================================== *)
(** * The claims                                                          *)
(* ===================================================================== *)

Import UrlReader Loop Spec Examples.
Import UrlReaderFacts LoopFacts DictFacts DispatchFacts TransactionFacts.
Import BalanceFacts.

(** ** Batch dispatch *)

(** C1. Once the wallets of a [TronWalletReader] or a
    [BscScanWalletReader] are set to [N] distinct addresses, a batch
    fetch (of balances or of transactions) returns exactly [N] slots,
    whatever the order in which the requests complete; and every value
    in a slot is [None] or the payload that answered one of the wallets'
    requests, carrying that wallet under ['wallet_address'] whenever the
    payload is a dict that did not have the key. *)
Theorem batch_fetch_slots_attributed
  (ws : list string) (tron : TronWalletReader.t)
  (bsc : BscScanWalletReader.t) (net : nat -> outcome)
  (schedule : list nat) :
  NoDup ws ->
  __mode (TronWalletReader.base tron) = JSON ->
  __mode (BscScanWalletReader.base bsc) = JSON ->
  let wallets := map PStr ws in
  let tron := fst (TronWalletReader.wallets_setter tron (PList wallets)) in
  let bsc := fst (BscScanWalletReader.wallets_setter bsc (PList wallets)) in
  TronWalletReader.__wallets tron = wallets /\
  BscScanWalletReader.__wallets bsc = wallets /\
  batch_ok wallets net
    (snd (TronWalletReader.fetch_urls tron (TronWalletReader.urls tron)
            net schedule)) /\
  batch_ok wallets net
    (snd (TronWalletReader.fetch_urls tron (TronWalletReader.trnx_urls tron)
            net schedule)) /\
  (exists slots,
      snd (BscScanWalletReader.fetch_urls bsc
             (BscScanWalletReader.balance_params_list bsc) net schedule)
      = Ok slots /\ batch_ok wallets net slots) /\
  (exists slots,
      snd (BscScanWalletReader.fetch_urls bsc
             (BscScanWalletReader.trnx_params_list bsc) net schedule)
      = Ok slots /\ batch_ok wallets net slots).
Proof.
  intros Hnd Hmt Hmb wallets.
  destruct (tron_setter_strs tron ws Hnd)
    as [tron' [Hset [Hbase [Hws [Hurls Htrnx]]]]].
  fold wallets in Hset, Hws, Hurls, Htrnx. rewrite Hset. simpl fst.
  split; [exact Hws|]. split; [reflexivity|].
  split; [|split; [|split]].
  - rewrite <- Hurls. apply tron_fetch_urls_ok. rewrite Hbase. exact Hmt.
  - rewrite <- Htrnx. apply tron_fetch_urls_ok. rewrite Hbase. exact Hmt.
  - apply (bsc_fetch_urls_ok _ (BscScanWalletReader.balance_params bsc));
      [reflexivity|exact Hmb].
  - apply (bsc_fetch_urls_ok _ (BscScanWalletReader.trnx_params bsc));
      [reflexivity|exact Hmb].
Qed.

(** Two wallets, the second request answered first and the first one
    failing: two slots, each value attributable. *)
Lemma batch_fetch_slots_attributed_witness :
  let net i :=
    match i with
    | O => GetRaises ClientError
    | _ => Responded (ok_response (PDict (tron_account "5")))
    end in
  let tron :=
    fst (TronWalletReader.wallets_setter blank_tron
           (PList [PStr "TA"; PStr "TB"])) in
  batch_ok [PStr "TA"; PStr "TB"] net
    (snd (TronWalletReader.fetch_urls tron (TronWalletReader.urls tron)
            net [1; 1; 0; 0]%nat)).
Proof.
  intros net tron.
  assert (Hnd : NoDup ["TA"; "TB"]).
  { constructor; [simpl; intros [H|[]]; discriminate H|].
    constructor; [intros []|constructor]. }
  destruct (batch_fetch_slots_attributed ["TA"; "TB"] blank_tron blank_bsc
              net [1; 1; 0; 0]%nat Hnd eq_refl eq_refl)
    as [_ [_ [H _]]].
  exact H.
Defined.

(** C2. As the claim has it, a request that fails would leave an empty
    or sentinel value for its wallet and the batch would go on. The code
    does not: the failed fetch resolves to [None], and the adapter loops
    subscript (or call [get] on) every gathered value. Here the request
    for the second of two Tron wallets fails to connect first, and a
    BscScan response fails to decode: the fetcher yields [None], and all
    four batch operations raise. *)
Theorem failed_request_raises_out_of_the_batch :
  (exists tron,
      TronWalletReader.init (PStr "TA, TB") DEFAULTS.TRON_USDT_CONTRACT
        (PStr DEFAULTS.TRON_API_KEY) = Ok tron /\
      let net i :=
        match i with
        | O => Responded (ok_response (PDict (tron_account "5")))
        | _ => GetRaises ClientError
        end in
      let net' i :=
        match i with
        | O => Responded (ok_response
                 (PDict [("data", PList []); ("success", PBool true)]))
        | _ => GetRaises ClientError
        end in
      snd (TronWalletReader.fetch_urls tron (TronWalletReader.urls tron)
             net [1; 1; 0; 0]%nat)
      = [SVal (PDict (tron_account "5" ++ [("wallet_address", PStr "TA")]));
         SVal PNone] /\
      snd (TronWalletReader.get_balances tron net [1; 1; 0; 0]%nat)
      = Raise TypeError /\
      snd (TronWalletReader.get_transactions Z py_int tron net'
             [1; 1; 0; 0]%nat)
      = Raise AttributeError) /\
  (exists bsc,
      BscScanWalletReader.init (PStr "0xaa") DEFAULTS.BSCSCAN_USDT_CONTRACT
        (PStr DEFAULTS.BSCSCAN_API_KEY) = Ok bsc /\
      let net (_ : nat) := Responded bad_gateway in
      snd (BscScanWalletReader.fetch_urls bsc
             (BscScanWalletReader.balance_params_list bsc) net [])
      = Ok [SVal PNone] /\
      snd (BscScanWalletReader.get_balances bsc net []) = Raise TypeError /\
      snd (BscScanWalletReader.get_transactions Z (fun n => Ok n) bsc net [])
      = Raise AttributeError).
Proof.
  split; eexists; (split; [reflexivity|]); repeat split; vm_compute;
    reflexivity.
Qed.

(** C3. As the claim has it, a payload that already holds the
    correlation key would be a failed slot and leave its siblings alone.
    The code raises [KeyError] for it, but only after the payload was
    stored in [self.__result], which [finally] returns: the slot holds
    the payload, untagged, and [get_balances] books its balance under
    the wallet the payload names. Here the answer for [TA] names [TB]:
    wallet [TB], whose own answer said 7, ends with 5. *)
Theorem colliding_payload_is_returned_and_overwrites_sibling :
  exists tron,
    TronWalletReader.init (PStr "TB, TA") DEFAULTS.TRON_USDT_CONTRACT
      (PStr DEFAULTS.TRON_API_KEY) = Ok tron /\
    let colliding :=
      PDict (tron_account "5" ++ [("wallet_address", PStr "TB")]) in
    let net i :=
      match i with
      | O => Responded (ok_response (PDict (tron_account "7")))
      | _ => Responded (ok_response colliding)
      end in
    snd (TronWalletReader.fetch_urls tron (TronWalletReader.urls tron) net
           [0; 0; 1; 1]%nat)
    = [SVal (PDict (tron_account "7" ++ [("wallet_address", PStr "TB")]));
       SVal colliding] /\
    snd (TronWalletReader.get_balances tron net [0; 0; 1; 1]%nat)
    = Ok [(PStr "TB", 5); (PStr "TA", 0)].
Proof.
  eexists. split; [reflexivity|]. split; vm_compute; reflexivity.
Qed.

(** C4. As the claim has it, the keys of the returned mapping would be
    exactly the wallets requested. Through the defect of C3 the code
    can add one: the only wallet requested is [TA], the payload that
    answers already names [TZ], and the mapping returned has both. *)
Theorem colliding_payload_adds_a_wallet :
  exists tron,
    TronWalletReader.init (PStr "TA") DEFAULTS.TRON_USDT_CONTRACT
      (PStr DEFAULTS.TRON_API_KEY) = Ok tron /\
    TronWalletReader.__wallets tron = [PStr "TA"] /\
    snd (TronWalletReader.get_balances tron
           (fun _ => Responded (ok_response
              (PDict [("data", PList []); ("success", PBool true);
                      ("wallet_address", PStr "TZ")])))
           [])
    = Ok [(PStr "TA", 0); (PStr "TZ", 0)].
Proof.
  eexists. split; [reflexivity|]. split; vm_compute; reflexivity.
Qed.

(** ** Transactions *)

Lemma upper_neq (a b : string) : upper a <> upper b -> a <> b.
Proof. intros H E. apply H. rewrite E. reflexivity. Qed.

(** C5. A tracked transfer of [n] from wallet [A] to wallet [B] (two
    wallets: addresses that differ even when case is ignored, which is
    how [BscScanWalletReader] compares them) is recorded, in the
    response for [A], with counterparty [B] and amount [-n], and in the
    response for [B], with counterparty [A] and amount [n]. *)
Theorem transfer_direction_normalized
  (datetime : Type)
  (fromtimestamp_ms : pyval -> result datetime)
  (fromtimestamp : Z -> result datetime)
  (A B : string) (n : Z)
  (trn : pyval) (amount millis : pyval) (stamp : datetime)
  (trn' : pyval) (amount' seconds : pyval) (secs : Z) (stamp' : datetime) :
  upper A <> upper B ->
  (* a tracked TRC20 transfer of [n] from [A] to [B] *)
  TronWalletReader.tracked trn = Ok true ->
  getitem trn "from" = Ok (PStr A) ->
  getitem trn "to" = Ok (PStr B) ->
  getitem trn "value" = Ok amount -> py_int amount = Ok n ->
  getitem trn "block_timestamp" = Ok millis ->
  fromtimestamp_ms millis = Ok stamp ->
  (* a tracked BEP20 transfer of [n] from [A] to [B] *)
  BscScanWalletReader.tracked trn' = Ok true ->
  getitem trn' "from" = Ok (PStr A) ->
  getitem trn' "to" = Ok (PStr B) ->
  getitem trn' "value" = Ok amount' -> py_int amount' = Ok n ->
  getitem trn' "timeStamp" = Ok seconds -> py_int seconds = Ok secs ->
  fromtimestamp secs = Ok stamp' ->
  let tron_response queried :=
    SVal (PDict [("data", PList [trn]); ("success", PBool true);
                 ("wallet_address", PStr queried)]) in
  let bsc_response queried :=
    SVal (PDict [("status", PStr "1"); ("message", PStr "OK");
                 ("result", PList [trn']);
                 ("wallet_address", PStr queried)]) in
  TronWalletReader.transactions_loop datetime fromtimestamp_ms
    [tron_response A] [(PStr A, [])]
  = Ok [(PStr A, [{| TronWalletReader.wallet := PStr B;
                     TronWalletReader.timestamp := stamp;
                     TronWalletReader.value := - n |}])] /\
  TronWalletReader.transactions_loop datetime fromtimestamp_ms
    [tron_response B] [(PStr B, [])]
  = Ok [(PStr B, [{| TronWalletReader.wallet := PStr A;
                     TronWalletReader.timestamp := stamp;
                     TronWalletReader.value := n |}])] /\
  BscScanWalletReader.transactions_loop datetime fromtimestamp
    [bsc_response A] [(PStr A, [])]
  = Ok [(PStr A, [{| BscScanWalletReader.wallet := PStr B;
                     BscScanWalletReader.timestamp := stamp';
                     BscScanWalletReader.value := - n |}])] /\
  BscScanWalletReader.transactions_loop datetime fromtimestamp
    [bsc_response B] [(PStr B, [])]
  = Ok [(PStr B, [{| BscScanWalletReader.wallet := PStr A;
                     BscScanWalletReader.timestamp := stamp';
                     BscScanWalletReader.value := n |}])].
Proof.
  intros Hne Ht Hf Hto Hv Hn Hms Hst Ht' Hf' Hto' Hv' Hn' Hs' Hsecs Hst'
    tron_response bsc_response.
  pose proof (upper_neq _ _ Hne) as HAB.
  assert (EAB : (A =? B)%string = false) by (apply String.eqb_neq; exact HAB).
  assert (EU : (upper A =? upper B)%string = false)
    by (apply String.eqb_neq; exact Hne).
  repeat split.
  - simpl. rewrite Ht. simpl.
    unfold TronWalletReader.normalize. rewrite Hv. simpl. rewrite Hn. simpl.
    rewrite Hf. simpl. rewrite ?String.eqb_refl. rewrite Hto. simpl.
    unfold pd_get. simpl. rewrite ?String.eqb_refl. rewrite Hms. simpl.
    rewrite Hst. simpl. rewrite ?String.eqb_refl.
    replace (n * -1) with (- n) by lia. reflexivity.
  - simpl. rewrite Ht. simpl.
    unfold TronWalletReader.normalize. rewrite Hv. simpl. rewrite Hn. simpl.
    rewrite Hf. simpl. rewrite EAB. simpl.
    unfold pd_get. simpl. rewrite ?String.eqb_refl. rewrite Hms. simpl.
    rewrite Hst. simpl. rewrite ?String.eqb_refl. reflexivity.
  - simpl. rewrite Ht'. simpl.
    unfold BscScanWalletReader.normalize. rewrite Hv'. simpl. rewrite Hn'.
    simpl. rewrite Hf'. simpl. rewrite ?String.eqb_refl. rewrite Hto'.
    simpl. unfold pd_get. simpl. rewrite ?String.eqb_refl. rewrite Hs'.
    simpl. rewrite Hsecs. simpl. rewrite Hst'. simpl.
    rewrite ?String.eqb_refl. replace (n * -1) with (- n) by lia.
    reflexivity.
  - simpl. rewrite Ht'. simpl.
    unfold BscScanWalletReader.normalize. rewrite Hv'. simpl. rewrite Hn'.
    simpl. rewrite Hf'. simpl. rewrite EU. simpl.
    unfold pd_get. simpl. rewrite ?String.eqb_refl. rewrite Hs'. simpl.
    rewrite Hsecs. simpl. rewrite Hst'. simpl. rewrite ?String.eqb_refl.
    reflexivity.
Qed.

(** The transfer of 100 of the spec, from [TA] to [TB] and from [0xaa]
    to [0xbb]. *)
Lemma transfer_direction_normalized_witness :
  TronWalletReader.transactions_loop Z py_int
    [SVal (PDict [("data", PList [trc20_transfer "TA" "TB" "USDT"]);
                  ("success", PBool true);
                  ("wallet_address", PStr "TA")])]
    [(PStr "TA", [])]
  = Ok [(PStr "TA", [{| TronWalletReader.wallet := PStr "TB";
                        TronWalletReader.timestamp := 1700000000000;
                        TronWalletReader.value := - 100 |}])] /\
  BscScanWalletReader.transactions_loop Z (fun n => Ok n)
    [SVal (PDict [("status", PStr "1"); ("message", PStr "OK");
                  ("result",
                   PList [bep20_transfer "TA" "TB"
                            DEFAULTS.BSCSCAN_USDT_CONTRACT]);
                  ("wallet_address", PStr "TB")])]
    [(PStr "TB", [])]
  = Ok [(PStr "TB", [{| BscScanWalletReader.wallet := PStr "TA";
                        BscScanWalletReader.timestamp := 1700000000;
                        BscScanWalletReader.value := 100 |}])].
Proof.
  assert (Hne : upper "TA" <> upper "TB") by (simpl; discriminate).
  destruct (transfer_direction_normalized Z py_int (fun n => Ok n)
              "TA" "TB" 100
              (trc20_transfer "TA" "TB" "USDT") (PStr "100")
              (PInt 1700000000000) 1700000000000
              (bep20_transfer "TA" "TB" DEFAULTS.BSCSCAN_USDT_CONTRACT)
              (PStr "100") (PStr "1700000000") 1700000000 1700000000
              Hne eq_refl eq_refl eq_refl eq_refl eq_refl eq_refl eq_refl
              eq_refl eq_refl eq_refl eq_refl eq_refl eq_refl eq_refl
              eq_refl)
    as [H1 [_ [_ H4]]].
  split; [exact H1|exact H4].
Defined.

(** C6, as stated, fails: [BscScanWalletReader.get_transactions] looks
    at the token symbol only and keeps a transfer of another contract,
    and [TronWalletReader.get_transactions] compares the symbol in upper
    case and keeps a transfer whose symbol is [usdt]. *)
Lemma transfers_kept_without_exact_match :
  let other := "0x000000000000000000000000000000000000dead" in
  (exists bsc,
      BscScanWalletReader.init (PStr "0xbb") DEFAULTS.BSCSCAN_USDT_CONTRACT
        (PStr DEFAULTS.BSCSCAN_API_KEY) = Ok bsc /\
      other <> BscScanWalletReader.usdt_contract bsc /\
      snd (BscScanWalletReader.get_transactions Z (fun n => Ok n) bsc
             (fun _ => Responded (ok_response
                (PDict [("status", PStr "1"); ("message", PStr "OK");
                        ("result",
                         PList [bep20_transfer "0xaa" "0xbb" other])])))
             [])
      = Ok [(PStr "0xbb",
             [{| BscScanWalletReader.wallet := PStr "0xaa";
                 BscScanWalletReader.timestamp := 1700000000;
                 BscScanWalletReader.value := 100 |}])]) /\
  (exists tron,
      TronWalletReader.init (PStr "TB") DEFAULTS.TRON_USDT_CONTRACT
        (PStr DEFAULTS.TRON_API_KEY) = Ok tron /\
      "usdt" <> "USDT" /\
      snd (TronWalletReader.get_transactions Z py_int tron
             (fun _ => Responded (ok_response
                (PDict [("data", PList [trc20_transfer "TA" "TB" "usdt"]);
                        ("success", PBool true)])))
             [])
      = Ok [(PStr "TB",
             [{| TronWalletReader.wallet := PStr "TA";
                 TronWalletReader.timestamp := 1700000000000;
                 TronWalletReader.value := 100 |}])]).
Proof.
  split; eexists; (split; [reflexivity|]); (split; [discriminate|]);
    vm_compute; reflexivity.
Qed.

(** C6, amended. Every record in a list that [get_transactions] returns
    was made from a transfer of a gathered response that passed the
    adapter's filter. For a [TronWalletReader] that tracks the default
    contract: the transfer's token contract address is the adapter's
    contract and its symbol is [USDT] when put in upper case. For a
    [BscScanWalletReader]: its token symbol is [BSC-USD]. *)
Theorem transactions_pass_the_adapter_filter
  (datetime : Type)
  (fromtimestamp_ms : pyval -> result datetime)
  (fromtimestamp : Z -> result datetime)
  (tron : TronWalletReader.t) (bsc : BscScanWalletReader.t)
  (net : nat -> outcome) (schedule : list nat) :
  TronWalletReader.usdt_contract tron = DEFAULTS.TRON_USDT_CONTRACT ->
  (forall wallets address records record,
      snd (TronWalletReader.get_transactions datetime fromtimestamp_ms
             tron net schedule) = Ok wallets ->
      In (address, records) wallets -> In record records ->
      exists transactions trn info symbol,
        In transactions
           (snd (TronWalletReader.fetch_urls tron
                   (TronWalletReader.trnx_urls tron) net schedule)) /\
        tron_record_of transactions trn record /\
        getitem trn "token_info" = Ok info /\
        getitem info "address"
        = Ok (PStr (TronWalletReader.usdt_contract tron)) /\
        getitem info "symbol" = Ok (PStr symbol) /\
        upper symbol = "USDT") /\
  (forall wallets address records record,
      snd (BscScanWalletReader.get_transactions datetime fromtimestamp
             bsc net schedule) = Ok wallets ->
      In (address, records) wallets -> In record records ->
      exists raw_data transactions trn,
        snd (BscScanWalletReader.fetch_urls bsc
               (BscScanWalletReader.trnx_params_list bsc) net schedule)
        = Ok raw_data /\
        In transactions raw_data /\
        bsc_record_of transactions trn record /\
        getitem trn "tokenSymbol" = Ok (PStr "BSC-USD")).
Proof.
  intro Hcontract. split.
  - intros wallets address records record Hget Hin Hrec.
    unfold TronWalletReader.get_transactions in Hget.
    destruct (pd_comprehension (fun _ => [])
                (TronWalletReader.__wallets tron) []) as [w0|e] eqn:E0;
      [|discriminate].
    destruct (TronWalletReader.fetch_urls tron
                (TronWalletReader.trnx_urls tron) net schedule)
      as [tron' raw_data] eqn:Ef.
    simpl in Hget. simpl.
    set (P := fun record : TronWalletReader.transaction datetime =>
                exists transactions trn info symbol,
                  In transactions raw_data /\
                  tron_record_of transactions trn record /\
                  getitem trn "token_info" = Ok info /\
                  getitem info "address"
                  = Ok (PStr (TronWalletReader.usdt_contract tron)) /\
                  getitem info "symbol" = Ok (PStr symbol) /\
                  upper symbol = "USDT").
    assert (Hall : all_records P wallets).
    { apply (tron_transactions_records datetime fromtimestamp_ms P raw_data
               raw_data w0 wallets); [auto| | |exact Hget].
      - intros transactions trn r Hs Hr.
        destruct Hr as [Hdata [Htr Hnorm]].
        destruct (tron_tracked_inv trn Htr)
          as [info [symbol [H1 [H2 [H3 H4]]]]].
        exists transactions, trn, info, symbol. rewrite Hcontract.
        repeat split; assumption.
      - apply (empty_lists_records P (TronWalletReader.__wallets tron)
                 [] w0); [|exact E0].
        intros a rs []. }
    specialize (Hall address records Hin).
    rewrite Forall_forall in Hall. exact (Hall record Hrec).
  - intros wallets address records record Hget Hin Hrec.
    unfold BscScanWalletReader.get_transactions in Hget.
    destruct (pd_comprehension (fun _ => [])
                (BscScanWalletReader.__wallets bsc) []) as [w0|e] eqn:E0;
      [|discriminate].
    destruct (BscScanWalletReader.fetch_urls bsc
                (BscScanWalletReader.trnx_params_list bsc) net schedule)
      as [bsc' [raw_data|e]] eqn:Ef; [|discriminate].
    simpl in Hget. simpl.
    set (P := fun record : BscScanWalletReader.transaction datetime =>
                exists transactions trn,
                  In transactions raw_data /\
                  bsc_record_of transactions trn record /\
                  getitem trn "tokenSymbol" = Ok (PStr "BSC-USD")).
    assert (Hall : all_records P wallets).
    { apply (bsc_transactions_records datetime fromtimestamp P raw_data
               raw_data w0 wallets); [auto| | |exact Hget].
      - intros transactions trn r Hs Hr.
        exists transactions, trn. split; [exact Hs|]. split; [exact Hr|].
        apply bsc_tracked_inv. apply Hr.
      - apply (empty_lists_records P (BscScanWalletReader.__wallets bsc)
                 [] w0); [|exact E0].
        intros a rs []. }
    specialize (Hall address records Hin).
    rewrite Forall_forall in Hall.
    destruct (Hall record Hrec) as [transactions [trn H]].
    exists raw_data, transactions, trn. split; [reflexivity|exact H].
Qed.

(** The record of a transfer received by [TB], traced back to it. *)
Lemma transactions_pass_the_adapter_filter_witness :
  let tron := fst (TronWalletReader.wallets_setter blank_tron (PStr "TB")) in
  let net (_ : nat) :=
    Responded (ok_response
      (PDict [("data", PList [trc20_transfer "TA" "TB" "USDT"]);
              ("success", PBool true)])) in
  let record :=
    {| TronWalletReader.wallet := PStr "TA";
       TronWalletReader.timestamp := 1700000000000;
       TronWalletReader.value := 100 |} in
  exists transactions trn info symbol,
    In transactions
       (snd (TronWalletReader.fetch_urls tron
               (TronWalletReader.trnx_urls tron) net [])) /\
    tron_record_of transactions trn record /\
    getitem trn "token_info" = Ok info /\
    getitem info "address"
    = Ok (PStr (TronWalletReader.usdt_contract tron)) /\
    getitem info "symbol" = Ok (PStr symbol) /\
    upper symbol = "USDT".
Proof.
  intros tron net record.
  apply (proj1 (transactions_pass_the_adapter_filter Z py_int
                  (fun n => Ok n) tron blank_bsc net [] eq_refl)
           [(PStr "TB", [record])] (PStr "TB") [record] record).
  - reflexivity.
  - left. reflexivity.
  - left. reflexivity.
Defined.

(** ** Rates *)

(** C7. As the claim has it, a page on which the XPath query matches
    nothing would be skipped. The code skips a page only when the first
    match is blank; with no match at all, [rate[0]] raises [IndexError]
    out of [get_rates], and the rate found on the other page is lost. *)
Theorem page_without_match_raises
  (decimal datetime : Type) (Decimal : string -> result decimal)
  (now : datetime) :
  exists xe,
    XeReader.init (PStr "USD/RUB, CNY/RUB") = Ok xe /\
    let net i :=
      match i with
      | O => Responded (page_response "<html><body></body></html>")
      | _ => Responded (page_response "<html>...1 CNY = 11.5 RUB...</html>")
      end in
    let xpath_text page :=
      match page with
      | SVal (PStr "<html><body></body></html>") => Ok []
      | _ => Ok ["1 CNY = 11.5 RUB"]
      end in
    snd (HTMLReader.get_pages xe net [])
    = [SVal (PStr "<html><body></body></html>");
       SVal (PStr "<html>...1 CNY = 11.5 RUB...</html>")] /\
    snd (XeReader.get_rates decimal datetime Decimal now xpath_text xe net [])
    = Raise IndexError.
Proof.
  eexists. split; [reflexivity|]. split; reflexivity.
Qed.

(** The scenario of the spec: three securities, market data for the two
    requested symbols, two entries keyed by security id with the
    metadata of that id. *)
Example moex_two_of_three :
  exists moex,
    MOEXReader.init (PList [PStr "USD000UTSTOM"; PStr "CNYRUB_TOM"])
    = Ok moex /\
    let row price secid :=
      PList [price; PStr "10:00:00"; PStr secid;
             PStr "2023-01-10 10:00:00"] in
    let payload :=
      PDict [("securities",
              PDict [("data",
                      PList [PList [PStr "USD000UTSTOM"; PStr "USDRUB_TOM";
                                    PStr "USD/RUB TOM"];
                             PList [PStr "CNYRUB_TOM"; PStr "CNYRUB_TOM";
                                    PStr "CNY/RUB TOM"];
                             PList [PStr "EUR_RUB__TOM"; PStr "EURRUB_TOM";
                                    PStr "EUR/RUB TOM"]])]);
             ("marketdata",
              PDict [("data",
                      PList [row (PInt 70) "USD000UTSTOM";
                             row (PInt 10) "CNYRUB_TOM";
                             row (PInt 80) "EUR_RUB__TOM"])])] in
    snd (MOEXReader.get_rates pyval pyval (fun v => Ok v) (fun v => Ok v)
           moex (Responded (ok_response payload)))
    = Ok [(PStr "USD000UTSTOM",
           {| MOEXReader.symbol := PStr "USDRUB_TOM";
              MOEXReader.name := PStr "USD/RUB TOM";
              MOEXReader.rate := PInt 70;
              MOEXReader.updated_at := PStr "2023-01-10 10:00:00" |});
          (PStr "CNYRUB_TOM",
           {| MOEXReader.symbol := PStr "CNYRUB_TOM";
              MOEXReader.name := PStr "CNY/RUB TOM";
              MOEXReader.rate := PInt 10;
              MOEXReader.updated_at := PStr "2023-01-10 10:00:00" |})].
Proof.
  eexists. split; [reflexivity|]. vm_compute. reflexivity.
Qed.

(** C8. As the claim has it, a row is kept when its symbol is one of
    the configured symbols. The code joins the configured symbols into
    one [str] and tests [data[2] in self.symbols], a substring test: the
    row of [RUB_TOM], which was not requested, is kept, because
    [CNYRUB_TOM] was. (The row of [CNYRUB_TOM] itself has no price and
    is skipped.) *)
Theorem substring_symbol_is_kept :
  exists moex,
    MOEXReader.init (PList [PStr "USD000UTSTOM"; PStr "CNYRUB_TOM"])
    = Ok moex /\
    MOEXReader.symbols moex = "USD000UTSTOM, CNYRUB_TOM" /\
    let row price secid :=
      PList [price; PStr "10:00:00"; PStr secid;
             PStr "2023-01-10 10:00:00"] in
    let payload :=
      PDict [("securities",
              PDict [("data",
                      PList [PList [PStr "USD000UTSTOM"; PStr "USDRUB_TOM";
                                    PStr "USD/RUB TOM"];
                             PList [PStr "CNYRUB_TOM"; PStr "CNYRUB_TOM";
                                    PStr "CNY/RUB TOM"];
                             PList [PStr "RUB_TOM"; PStr "OTHER";
                                    PStr "Not requested"]])]);
             ("marketdata",
              PDict [("data",
                      PList [row (PInt 70) "USD000UTSTOM";
                             row PNone "CNYRUB_TOM";
                             row (PInt 3) "RUB_TOM"])])] in
    snd (MOEXReader.get_rates pyval pyval (fun v => Ok v) (fun v => Ok v)
           moex (Responded (ok_response payload)))
    = Ok [(PStr "USD000UTSTOM",
           {| MOEXReader.symbol := PStr "USDRUB_TOM";
              MOEXReader.name := PStr "USD/RUB TOM";
              MOEXReader.rate := PInt 70;
              MOEXReader.updated_at := PStr "2023-01-10 10:00:00" |});
          (PStr "RUB_TOM",
           {| MOEXReader.symbol := PStr "OTHER";
              MOEXReader.name := PStr "Not requested";
              MOEXReader.rate := PInt 3;
              MOEXReader.updated_at := PStr "2023-01-10 10:00:00" |})].
Proof.
  eexists. split; [reflexivity|]. split; vm_compute; reflexivity.
Qed.

(** ** Configuration and the fetcher *)

(** C9, as stated, fails: the guards test [isinstance(value, list)] and
    do not look at the elements, so a list of numbers, which is neither
    a string nor a list of strings, is accepted as a target set. *)
Lemma list_of_non_strings_is_accepted :
  let value := PList [PInt 1; PInt 2] in
  is_str value = false /\
  (forall l, value = PList l -> forallb is_str l = false) /\
  (exists self,
      TronWalletReader.init value DEFAULTS.TRON_USDT_CONTRACT
        (PStr DEFAULTS.TRON_API_KEY) = Ok self /\
      TronWalletReader.__wallets self = [PInt 1; PInt 2]) /\
  (exists self,
      BscScanWalletReader.init value DEFAULTS.BSCSCAN_USDT_CONTRACT
        (PStr DEFAULTS.BSCSCAN_API_KEY) = Ok self /\
      BscScanWalletReader.__wallets self = [PInt 1; PInt 2]).
Proof.
  simpl. split; [reflexivity|]. split.
  - intros l H. injection H as <-. reflexivity.
  - split; eexists; split; reflexivity.
Qed.

(** C9, amended. A fetch with no URL at the call site and none on the
    instance raises [ValueError] after logging and before any request,
    whatever the network would have done; and a target set that is
    neither a string nor a list makes the wallet setters and the
    constructors raise [ValueError]. *)
Theorem configuration_errors_fail_fast
  (self : t) (url params headers : pyval) (task_key : option string)
  (task_name : pyval) (o : outcome)
  (tron : TronWalletReader.t) (bsc : BscScanWalletReader.t)
  (value : pyval) (contract : string) (api_key hparams hheaders : pyval) :
  truthy url = false -> truthy (__url self) = false ->
  is_str value = false -> is_list value = false ->
  _get_raw_data self url params headers task_key task_name o
  = (emit self Log_url_none, Raise ValueError) /\
  TronWalletReader.wallets_setter tron value = (tron, Some ValueError) /\
  TronWalletReader.init value contract api_key = Raise ValueError /\
  BscScanWalletReader.wallets_setter bsc value = (bsc, Some ValueError) /\
  BscScanWalletReader.init value contract api_key = Raise ValueError /\
  MOEXReader.init value = Raise ValueError /\
  HTMLReader.init value hparams hheaders = Raise ValueError /\
  XeReader.init value = Raise ValueError.
Proof.
  intros Hu Hs Hstr Hlist. split.
  - unfold _get_raw_data, prologue, py_or. rewrite Hu, Hs. reflexivity.
  - destruct value; try discriminate; repeat split; reflexivity.
Qed.

(** An empty URL and the number 7 as a target set. *)
Lemma configuration_errors_fail_fast_witness :
  _get_raw_data (init PNone PNone PNone JSON) (PStr "") PNone PNone None
    PNone (GetRaises ClientError)
  = (emit (init PNone PNone PNone JSON) Log_url_none, Raise ValueError) /\
  TronWalletReader.wallets_setter blank_tron (PInt 7)
  = (blank_tron, Some ValueError) /\
  XeReader.init (PInt 7) = Raise ValueError.
Proof.
  pose proof (configuration_errors_fail_fast
                (init PNone PNone PNone JSON) (PStr "") PNone PNone None
                PNone (GetRaises ClientError) blank_tron blank_bsc
                (PInt 7) "" PNone PNone PNone
                eq_refl eq_refl eq_refl eq_refl) as H.
  split; [apply H|]. split; apply H.
Defined.

(** C10. When a URL is available, from the call site or from the
    instance, [_get_raw_data] returns, whatever its awaits do (raise
    while sleeping, while connecting, while decoding, on leaving the
    response, in the handlers): the value returned is [None] or the
    payload decoded from the response, with or without the task key
    set. *)
Theorem get_raw_data_always_returns
  (self : t) (url params headers : pyval) (task_key : option string)
  (task_name : pyval) (o : outcome) :
  truthy url = true \/ truthy (__url self) = true ->
  exists self' v,
    _get_raw_data self url params headers task_key task_name o
    = (self', Ok v) /\
    (v = PNone \/ left_by (__mode self) task_key task_name o v).
Proof.
  intro Hurl. unfold _get_raw_data, prologue.
  assert (Hpre : negb (truthy (py_or url (__url self)))
                 && negb (truthy (__url self)) = false).
  { unfold py_or. destruct (truthy url) eqn:Hu.
    - rewrite Hu. reflexivity.
    - destruct Hurl as [H|H]; [discriminate|]. rewrite H. reflexivity. }
  rewrite Hpre.
  set (self0 := set_result self PNone).
  set (rq := {| rq_url := py_or url (__url self);
                rq_params := py_or params (__params self);
                rq_headers := py_or headers (__headers self) |}).
  pose proof (try_suite_result self0 rq task_key task_name o) as Hr.
  destruct (try_suite self0 rq task_key task_name o)
    as [[self1 inflight] resp]. simpl in Hr.
  pose proof (except_suite_result self1 inflight resp) as Hr2.
  destruct (except_suite self1 inflight resp) as [self2 inflight2].
  simpl in Hr2. exists self2, (__result self2).
  split; [reflexivity|]. rewrite Hr2.
  destruct Hr as [Hr|Hr]; [left; exact Hr|right; exact Hr].
Qed.

(** A payload that already has the task key: the call still returns. *)
Lemma get_raw_data_always_returns_witness :
  exists self' v,
    _get_raw_data (init PNone PNone PNone JSON)
      (PStr "https://api.trongrid.io/v1/accounts/TA") PNone PNone
      (Some "wallet_address") (PStr "TA")
      (Responded (ok_response (PDict [("wallet_address", PStr "TB")])))
    = (self', Ok v) /\
    (v = PNone \/
     left_by JSON (Some "wallet_address") (PStr "TA")
       (Responded (ok_response (PDict [("wallet_address", PStr "TB")])))
       v).
Proof.
  apply (get_raw_data_always_returns (init PNone PNone PNone JSON)).
  left. reflexivity.
Defined.

(* ===================================================================== *)
(** * Further properties of the code                                      *)
(* ===================================================================== *)

(** ** Strings *)

Module StringFacts.

Import Shape.

Lemma append_nil_r (s : string) : s ++ "" = s.
Proof. induction s as [|c s IH]; simpl; [reflexivity|]. rewrite IH. reflexivity. Qed.

Lemma append_assoc (a b c : string) : (a ++ b) ++ c = a ++ (b ++ c).
Proof. induction a as [|x a IH]; simpl; [reflexivity|]. rewrite IH. reflexivity. Qed.

Lemma split_on_acc_cons sep s acc :
  exists x rest, split_on_acc sep s acc = x :: rest.
Proof.
  revert acc. induction s as [|a s IH]; intro acc; simpl.
  - eauto.
  - destruct (Ascii.eqb a sep); [eauto|apply IH].
Qed.

Lemma join_split_on_acc sep s acc :
  join (String sep "") (split_on_acc sep s acc) = acc ++ s.
Proof.
  revert acc. induction s as [|a s IH]; intro acc; simpl.
  - rewrite append_nil_r. reflexivity.
  - destruct (Ascii.eqb a sep) eqn:E.
    + apply Ascii.eqb_eq in E. subst a.
      specialize (IH "").
      destruct (split_on_acc_cons sep s "") as [x [rest Hx]].
      rewrite Hx in *. change (acc ++ String sep "" ++ join (String sep "") (x :: rest) = acc ++ String sep s).
      rewrite IH. reflexivity.
    + rewrite IH. rewrite append_assoc. reflexivity.
Qed.

Lemma has_char_append p a b :
  has_char p (a ++ b) = has_char p a || has_char p b.
Proof.
  induction a as [|c a IH]; simpl; [reflexivity|].
  rewrite IH. rewrite orb_assoc. reflexivity.
Qed.

Lemma has_char_remove_spaces s : has_char is_space (remove_spaces s) = false.
Proof.
  induction s as [|c s IH]; simpl; [reflexivity|].
  destruct (is_space c) eqn:E; simpl; [exact IH|]. rewrite E, IH. reflexivity.
Qed.

Lemma split_on_acc_fields s acc :
  has_char is_space s = false ->
  has_char is_separator acc = false ->
  Forall (fun w => has_char is_separator w = false) (split_on_acc "," s acc).
Proof.
  revert acc. induction s as [|a s IH]; intros acc Hs Hacc; simpl.
  - constructor; [exact Hacc|constructor].
  - simpl in Hs. apply orb_false_iff in Hs. destruct Hs as [Ha Hs].
    destruct (Ascii.eqb a ",") eqn:E.
    + constructor; [exact Hacc|]. apply IH; [exact Hs|reflexivity].
    + apply IH; [exact Hs|]. rewrite has_char_append. rewrite Hacc. simpl.
      unfold is_separator. rewrite Ha, E. reflexivity.
Qed.

End StringFacts.

(** ** The fetcher, call by call *)

Module FetchFacts.

Import UrlReader Spec UrlReaderFacts.

Lemma url_available self url :
  truthy url = true \/ truthy (__url self) = true ->
  negb (truthy (py_or url (__url self))) && negb (truthy (__url self))
  = false.
Proof.
  intro Hurl. unfold py_or. destruct (truthy url) eqn:Hu.
  - rewrite Hu. reflexivity.
  - destruct Hurl as [H|H]; [discriminate|]. rewrite H. reflexivity.
Qed.

Lemma except_suite_response self inflight resp :
  __response_status (fst (except_suite self inflight resp))
  = __response_status self /\
  __response_url (fst (except_suite self inflight resp))
  = __response_url self.
Proof.
  unfold except_suite. destruct inflight as [err|]; [|split; reflexivity].
  destruct (is_ClientError err || is_Exception err); [|split; reflexivity].
  destruct resp as [r|]; [|split; reflexivity].
  destruct (resp_text r); split; reflexivity.
Qed.

Lemma with_suite_response self task_key task_name r :
  __response_status (fst (with_suite self task_key task_name r))
  = resp_status r /\
  __response_url (fst (with_suite self task_key task_name r)) = resp_url r.
Proof.
  unfold with_suite.
  repeat match goal with
         | |- context [match ?x with _ => _ end] => destruct x; simpl
         end; split; reflexivity.
Qed.

(** What a call that got a response returns is what the body of the
    [async with] left in [self.__result]. *)
Lemma returned_value self url params headers task_key task_name r :
  truthy url = true \/ truthy (__url self) = true ->
  snd (_get_raw_data self url params headers task_key task_name
         (Responded r))
  = Ok (__result
          (fst (with_suite
                  (emit (set_result self PNone)
                     (Session_get (py_or url (__url self))
                        (py_or params (__params self))
                        (py_or headers (__headers self))))
                  task_key task_name r))).
Proof.
  intro Hurl. unfold _get_raw_data, prologue.
  rewrite (url_available self url Hurl). unfold try_suite.
  unfold rq_url, rq_params, rq_headers.
  destruct (with_suite _ task_key task_name r) as [self1 inflight].
  pose proof (LoopFacts.except_suite_result self1
                (match resp_exit r with Some e => Some e | None => inflight end)
                (Some r)) as H.
  destruct (except_suite self1 _ (Some r)) as [self2 inflight2].
  simpl in *. unfold finally_suite. rewrite H. reflexivity.
Qed.

Lemma key_collides_html self task_key :
  __mode self = HTML ->
  (exists body, __result self = PStr body) ->
  key_collides self task_key = Ok false.
Proof.
  intros Hmode [body Hr]. unfold key_collides. rewrite Hr, Hmode.
  destruct (negb (truthy (PStr body))); [reflexivity|].
  destruct task_key as [k|]; [|reflexivity].
  destruct (k =? "")%string; [reflexivity|]. simpl.
  rewrite andb_false_r. reflexivity.
Qed.

Lemma with_suite_html self task_key task_name r :
  __mode self = HTML ->
  __result (fst (with_suite self task_key task_name r))
  = match resp_text r with
    | Ok body => PStr body
    | Raise _ => __result self
    end.
Proof.
  intro Hmode. unfold with_suite, decode. simpl. rewrite Hmode. simpl.
  destruct (resp_text r) as [body|e]; simpl; [|reflexivity].
  rewrite key_collides_html; [|exact Hmode|exists body; reflexivity].
  destruct task_key as [k|]; [|reflexivity].
  destruct (key_truthy (Some k) && negb (truthy task_name)); simpl;
    rewrite Hmode; rewrite andb_false_r; reflexivity.
Qed.

Lemma with_suite_no_object self task_key task_name r v0 :
  decode (__mode self) r = Ok v0 ->
  (forall d, v0 <> PDict d) ->
  __result (fst (with_suite self task_key task_name r)) = v0.
Proof.
  intros Hd Hv. unfold with_suite. simpl. rewrite Hd.
  destruct (key_collides (set_result (set_response self r) v0) task_key)
    as [[|]|e]; try reflexivity.
  destruct task_key as [k|]; [|reflexivity].
  destruct (key_truthy (Some k) && negb (truthy task_name)); simpl;
    (destruct (negb (k =? "")%string && is_JSON (__mode self));
     [|reflexivity]);
    destruct v0; try reflexivity; exfalso; eapply Hv; reflexivity.
Qed.

Lemma lookup_dict_set_other {V} (k k' : string) (x : V)
  (d : list (string * V)) :
  k' <> k -> lookup k' (dict_set k x d) = lookup k' d.
Proof.
  intro Hne. induction d as [|[a v] d IH]; simpl.
  - destruct (k =? k')%string eqn:E; [|reflexivity].
    apply String.eqb_eq in E. congruence.
  - destruct (a =? k)%string eqn:E; simpl.
    + apply String.eqb_eq in E. subst a.
      destruct (k =? k')%string eqn:E'; [|reflexivity].
      apply String.eqb_eq in E'. congruence.
    + rewrite IH. reflexivity.
Qed.


(** Without a task key the call returns the decoded body, or [None]. *)
Lemma untagged_value self url params headers task_name o :
  truthy url = true \/ truthy (__url self) = true ->
  snd (_get_raw_data self url params headers None task_name o)
  = Ok (match o with
        | Responded r =>
            match decode (__mode self) r with
            | Ok v0 => v0
            | Raise _ => PNone
            end
        | _ => PNone
        end).
Proof.
  intro Hurl. destruct o as [e|e|r].
  - unfold _get_raw_data, prologue. rewrite (url_available self url Hurl).
    simpl. destruct e; reflexivity.
  - unfold _get_raw_data, prologue. rewrite (url_available self url Hurl).
    simpl. destruct e; reflexivity.
  - rewrite (returned_value self url params headers None task_name r Hurl).
    unfold with_suite. cbn [__mode set_response emit set_result].
    destruct (decode (__mode self) r) as [v0|e]; [|reflexivity].
    unfold key_collides. cbn [__result set_result].
    destruct (negb (truthy v0)); reflexivity.
Qed.

Lemma undecoded_value self url params headers task_name o :
  truthy url = true \/ truthy (__url self) = true ->
  InOrder.undecoded (__mode self) o ->
  snd (_get_raw_data self url params headers None task_name o) = Ok PNone.
Proof.
  intros Hurl Hun. rewrite untagged_value by exact Hurl.
  destruct o as [e|e|r]; try reflexivity.
  destruct Hun as [e He]. rewrite He. reflexivity.
Qed.

(** *** The trace of one call *)

Lemma with_suite_events self task_key task_name r :
  exists logs,
    events (fst (with_suite self task_key task_name r))
    = (events self ++ logs)%list /\
    Forall (fun ev => Shape.is_request ev = false) logs.
Proof.
  unfold with_suite.
  destruct (decode (__mode (set_response self r)) r) as [v|e];
    [|exists []; split; [symmetry; apply app_nil_r|constructor]].
  destruct (key_collides (set_result (set_response self r) v) task_key)
    as [[|]|e];
    try (exists []; split; [symmetry; apply app_nil_r|constructor]).
  destruct task_key as [k|];
    [|exists []; split; [symmetry; apply app_nil_r|constructor]].
  destruct (key_truthy (Some k) && negb (truthy task_name)).
  - exists [Log_task_name_none k].
    split; [|constructor; [reflexivity|constructor]].
    destruct (key_truthy (Some k) && is_JSON _); [|reflexivity].
    destruct (setitem _ k task_name); reflexivity.
  - exists []. split; [|constructor]. rewrite app_nil_r.
    destruct (key_truthy (Some k) && is_JSON _); [|reflexivity].
    destruct (setitem _ k task_name); reflexivity.
Qed.

Lemma except_suite_events self inflight resp :
  exists logs,
    events (fst (except_suite self inflight resp))
    = (events self ++ logs)%list /\
    Forall (fun ev => Shape.is_request ev = false) logs.
Proof.
  unfold except_suite.
  destruct inflight as [err|];
    [|exists []; split; [symmetry; apply app_nil_r|constructor]].
  destruct (is_ClientError err || is_Exception err);
    [|exists []; split; [symmetry; apply app_nil_r|constructor]].
  destruct resp as [r|];
    [|exists []; split; [symmetry; apply app_nil_r|constructor]].
  destruct (resp_text r) as [body|e].
  - exists [Log_fetch_error err body].
    split; [reflexivity|constructor; [reflexivity|constructor]].
  - exists []. split; [symmetry; apply app_nil_r|constructor].
Qed.

(** A call that gets past its sleep hands one request to the session. *)
Lemma one_request self url params headers task_key task_name o :
  truthy url = true \/ truthy (__url self) = true ->
  (forall e, o <> SleepRaises e) ->
  exists logs,
    events (fst (_get_raw_data self url params headers task_key task_name o))
    = (events self
       ++ Session_get (py_or url (__url self))
            (py_or params (__params self))
            (py_or headers (__headers self)) :: logs)%list /\
    Forall (fun ev => Shape.is_request ev = false) logs.
Proof.
  intros Hurl Ho. unfold _get_raw_data, prologue.
  rewrite (url_available self url Hurl). unfold try_suite.
  cbn [rq_url rq_params rq_headers].
  destruct o as [e|e|r].
  - exfalso. apply (Ho e). reflexivity.
  - exists []. split; [|constructor].
    simpl. destruct (is_ClientError e || is_Exception e); reflexivity.
  - set (s0 := emit (set_result self PNone) _).
    destruct (with_suite_events s0 task_key task_name r) as [l1 [E1 F1]].
    destruct (with_suite s0 task_key task_name r) as [s1 inflight].
    cbn [fst] in E1.
    destruct (except_suite_events s1
                (match resp_exit r with
                 | Some e => Some e
                 | None => inflight
                 end) (Some r)) as [l2 [E2 F2]].
    destruct (except_suite s1 _ (Some r)) as [s2 inflight2].
    cbn [fst] in *. exists (l1 ++ l2)%list. split.
    + rewrite E2, E1. unfold s0. simpl. rewrite <- !app_assoc. reflexivity.
    + apply Forall_app. split; assumption.
Qed.

End FetchFacts.

(** ** [gather], task by task *)

Module GatherFacts.

Import UrlReader Loop Spec InOrder UrlReaderFacts LoopFacts FetchFacts.

Ltac split_matches :=
  repeat match goal with
         | |- context [match ?x with _ => _ end] => destruct x; simpl
         end.

Lemma with_suite_url self task_key task_name r :
  __url (fst (with_suite self task_key task_name r)) = __url self.
Proof. unfold with_suite. split_matches; reflexivity. Qed.

Lemma try_suite_url self rq task_key task_name o :
  __url (fst (fst (try_suite self rq task_key task_name o))) = __url self.
Proof.
  unfold try_suite. destruct o as [e|e|r]; try reflexivity.
  pose proof (with_suite_url
                (emit self (Session_get (rq_url rq) (rq_params rq)
                              (rq_headers rq))) task_key task_name r) as H.
  destruct (with_suite _ task_key task_name r). simpl in *. exact H.
Qed.

Lemma except_suite_url self inflight resp :
  __url (fst (except_suite self inflight resp)) = __url self.
Proof. unfold except_suite. split_matches; reflexivity. Qed.

Lemma step_url self tk st :
  __url (fst (step self tk st)) = __url self.
Proof.
  destruct st as [|rq|inflight|s]; simpl.
  - unfold prologue.
    destruct (negb (truthy (py_or (t_url tk) (__url self)))
              && negb (truthy (__url self))); reflexivity.
  - pose proof (try_suite_url self rq (t_key tk) (t_name tk) (t_outcome tk))
      as H1.
    destruct (try_suite self rq (t_key tk) (t_name tk) (t_outcome tk))
      as [[s1 inflight] resp].
    pose proof (except_suite_url s1 inflight resp) as H2.
    destruct (except_suite s1 inflight resp). simpl in *. congruence.
  - reflexivity.
  - reflexivity.
Qed.

Lemma step_mode self tk st :
  __mode (fst (step self tk st)) = __mode self.
Proof.
  destruct st as [|rq|inflight|s]; simpl.
  - unfold prologue.
    destruct (negb (truthy (py_or (t_url tk) (__url self)))
              && negb (truthy (__url self))); reflexivity.
  - pose proof (try_suite_mode self rq (t_key tk) (t_name tk) (t_outcome tk))
      as H1.
    destruct (try_suite self rq (t_key tk) (t_name tk) (t_outcome tk))
      as [[s1 inflight] resp].
    pose proof (except_suite_mode s1 inflight resp) as H2.
    destruct (except_suite s1 inflight resp). simpl in *. congruence.
  - reflexivity.
  - reflexivity.
Qed.

(** *** Exceptions in the slots, for any schedule *)

Lemma has_url_eq self self' tk :
  __url self' = __url self -> has_url self' tk = has_url self tk.
Proof. intro H. unfold has_url. rewrite H. reflexivity. Qed.

Lemma step_fits self0 self tk st :
  __url self = __url self0 ->
  fits self0 tk st ->
  fits self0 tk (snd (step self tk st)).
Proof.
  intros Hu Hf. destruct st as [|rq|inflight|s]; simpl.
  - unfold prologue.
    destruct (negb (truthy (py_or (t_url tk) (__url self)))
              && negb (truthy (__url self))) eqn:E; simpl.
    + split; [reflexivity|]. unfold has_url. rewrite <- Hu.
      apply andb_true_iff in E. destruct E as [E _].
      apply negb_true_iff in E. exact E.
    + unfold has_url. rewrite <- Hu.
      apply andb_false_iff in E. destruct E as [E|E];
        apply negb_false_iff in E; [exact E|].
      unfold py_or. destruct (truthy (t_url tk)) eqn:E'; assumption.
  - destruct (try_suite self rq (t_key tk) (t_name tk) (t_outcome tk))
      as [[s1 inflight] resp].
    destruct (except_suite s1 inflight resp). exact Hf.
  - exact Hf.
  - exact Hf.
Qed.

Lemma step_nth_fits self0 tasks i self sts :
  __url self = __url self0 ->
  Forall2 (fits self0) tasks sts ->
  __url (fst (step_nth tasks i self sts)) = __url self0 /\
  Forall2 (fits self0) tasks (snd (step_nth tasks i self sts)).
Proof.
  revert i self sts.
  induction tasks as [|tk tasks IH]; intros i self sts Hu Hf.
  - inversion Hf; subst. simpl. split; [exact Hu|constructor].
  - inversion Hf as [|tk' st tasks' sts' Hst Hrest]; subst.
    destruct i as [|i]; simpl.
    + pose proof (step_url self tk st) as H1.
      pose proof (step_fits self0 self tk st Hu Hst) as H2.
      destruct (step self tk st) as [s1 st1]. simpl in *.
      split; [congruence|]. constructor; assumption.
    + specialize (IH i self sts' Hu Hrest).
      destruct (step_nth tasks i self sts') as [s1 sts1]. simpl in *.
      destruct IH as [IH1 IH2]. split; [exact IH1|].
      constructor; assumption.
Qed.

Lemma run_fits self0 tasks schedule self sts :
  __url self = __url self0 ->
  Forall2 (fits self0) tasks sts ->
  __url (fst (run tasks schedule self sts)) = __url self0 /\
  Forall2 (fits self0) tasks (snd (run tasks schedule self sts)).
Proof.
  revert self sts.
  induction schedule as [|i rest IH]; intros self sts Hu Hf; simpl.
  - split; assumption.
  - pose proof (step_nth_fits self0 tasks i self sts Hu Hf) as H.
    destruct (step_nth tasks i self sts) as [s1 sts1]. simpl in H.
    destruct H as [H1 H2]. apply IH; assumption.
Qed.

Lemma created_fits self0 tasks :
  Forall2 (fits self0) tasks (repeat Created (List.length tasks)).
Proof.
  induction tasks as [|tk tasks IH]; simpl; constructor;
    [exact I|exact IH].
Qed.

Lemma settle_fits tasks schedule self :
  Forall2 (fits self) tasks (snd (settle tasks schedule self)).
Proof.
  unfold settle.
  pose proof (run_fits self tasks (seq 0 (List.length tasks)) self
                (repeat Created (List.length tasks)) eq_refl
                (created_fits self tasks)) as H1.
  destruct (run tasks (seq 0 (List.length tasks)) self _) as [s1 sts1].
  simpl in H1. destruct H1 as [U1 F1].
  pose proof (run_fits self tasks schedule s1 sts1 U1 F1) as H2.
  destruct (run tasks schedule s1 sts1) as [s2 sts2].
  simpl in H2. destruct H2 as [U2 F2].
  apply run_fits; assumption.
Qed.

Lemma Forall2_nth_error {A B} (P : A -> B -> Prop) l m i a b :
  Forall2 P l m -> nth_error l i = Some a -> nth_error m i = Some b ->
  P a b.
Proof.
  intro H. revert i. induction H as [|x y l m Hxy _ IH]; intros i Ha Hb.
  - destruct i; discriminate.
  - destruct i as [|i]; simpl in *.
    + injection Ha as <-. injection Hb as <-. exact Hxy.
    + eapply IH; eassumption.
Qed.

(** A slot holds an exception exactly when its task had no URL. *)
Lemma gather_exceptions tasks schedule self i tk s :
  nth_error tasks i = Some tk ->
  nth_error (snd (gather tasks schedule self)) i = Some s ->
  match s with
  | SExc e => e = ValueError /\ has_url self tk = false
  | SVal _ => has_url self tk = true
  end.
Proof.
  intros Htk Hs. unfold gather in Hs.
  pose proof (settle_fits tasks schedule self) as Hf.
  pose proof (settle_done tasks schedule self) as Hd.
  destruct (settle tasks schedule self) as [s1 sts]. simpl in *.
  rewrite nth_error_map in Hs.
  destruct (nth_error sts i) as [st|] eqn:Est; [|discriminate].
  injection Hs as <-.
  pose proof (Forall2_nth_error _ _ _ _ _ _ Hf Htk Est) as H.
  rewrite Forall_forall in Hd.
  destruct (Hd st (nth_error_In _ _ Est)) as [s Es]. subst st.
  simpl. destruct s; exact H.
Qed.

End GatherFacts.

(** ** [gather] when the tasks complete one after the other *)

Module InOrderFacts.

Import UrlReader Loop Spec InOrder UrlReaderFacts LoopFacts FetchFacts.
Import GatherFacts.

Lemma step_nth_app pre_t tk post_t pre_s st post_s self :
  List.length pre_t = List.length pre_s ->
  step_nth (pre_t ++ tk :: post_t) (List.length pre_t) self
    (pre_s ++ st :: post_s)
  = (fst (step self tk st), (pre_s ++ snd (step self tk st) :: post_s)%list).
Proof.
  revert pre_s. induction pre_t as [|x pre_t IH]; intros [|y pre_s] H;
    try discriminate H; simpl.
  - destruct (step self tk st); reflexivity.
  - injection H as H. rewrite (IH pre_s H). reflexivity.
Qed.

Lemma run_start_all tasks : forall pre_t pre_s self,
  List.length pre_t = List.length pre_s ->
  run (pre_t ++ tasks) (seq (List.length pre_t) (List.length tasks)) self
    (pre_s ++ repeat Created (List.length tasks))
  = (fst (start_all tasks self), (pre_s ++ snd (start_all tasks self))%list).
Proof.
  induction tasks as [|tk tasks IH]; intros pre_t pre_s self H.
  - simpl. reflexivity.
  - cbn [List.length seq repeat run].
    rewrite (step_nth_app pre_t tk tasks pre_s Created _ self H).
    cbn [start_all].
    destruct (step self tk Created) as [s1 st1]. cbn [fst snd].
    assert (H' : List.length (pre_t ++ [tk]) = List.length (pre_s ++ [st1]))
      by (rewrite !length_app; simpl; lia).
    specialize (IH (pre_t ++ [tk])%list (pre_s ++ [st1])%list s1 H').
    rewrite <- !app_assoc in IH. simpl in IH.
    rewrite length_app in IH. simpl in IH.
    replace (List.length pre_t + 1)%nat with (S (List.length pre_t)) in IH
      by lia.
    rewrite IH. destruct (start_all tasks s1) as [s2 sts2]. reflexivity.
Qed.

Lemma run_finish_each tasks : forall sts pre_t pre_s self,
  List.length pre_t = List.length pre_s ->
  List.length sts = List.length tasks ->
  run (pre_t ++ tasks)
    (flat_map (fun i => [i; i]) (seq (List.length pre_t) (List.length tasks)))
    self (pre_s ++ sts)
  = (fst (finish_each tasks self sts),
     (pre_s ++ snd (finish_each tasks self sts))%list).
Proof.
  induction tasks as [|tk tasks IH]; intros sts pre_t pre_s self H Hl.
  - destruct sts; [|discriminate Hl]. simpl. reflexivity.
  - destruct sts as [|st sts]; [discriminate Hl|]. injection Hl as Hl.
    cbn [List.length seq flat_map app run].
    rewrite (step_nth_app pre_t tk tasks pre_s st sts self H).
    cbn [finish_each].
    destruct (step self tk st) as [s1 st1]. cbn [fst snd].
    rewrite (step_nth_app pre_t tk tasks pre_s st1 sts s1 H).
    destruct (step s1 tk st1) as [s2 st2]. cbn [fst snd].
    assert (H' : List.length (pre_t ++ [tk]) = List.length (pre_s ++ [st2]))
      by (rewrite !length_app; simpl; lia).
    specialize (IH sts (pre_t ++ [tk])%list (pre_s ++ [st2])%list s2 H' Hl).
    rewrite <- !app_assoc in IH. simpl in IH.
    rewrite length_app in IH. simpl in IH.
    replace (List.length pre_t + 1)%nat with (S (List.length pre_t)) in IH
      by lia.
    rewrite IH. destruct (finish_each tasks s2 sts) as [s3 sts3]. reflexivity.
Qed.

Lemma start_all_length tasks self :
  List.length (snd (start_all tasks self)) = List.length tasks.
Proof.
  revert self. induction tasks as [|tk tasks IH]; intro self;
    [reflexivity|].
  cbn [start_all].
  destruct (step self tk Created) as [s1 st1].
  specialize (IH s1). destruct (start_all tasks s1). simpl in *.
  congruence.
Qed.

(** The empty schedule is the in-order completion. *)
Lemma settle_in_order tasks self :
  settle tasks [] self
  = finish_each tasks (fst (start_all tasks self))
      (snd (start_all tasks self)).
Proof.
  unfold settle, finish_all.
  pose proof (run_start_all tasks [] [] self eq_refl) as H1.
  simpl in H1. rewrite H1. cbn [run].
  pose proof (run_finish_each tasks (snd (start_all tasks self)) [] []
                (fst (start_all tasks self)) eq_refl
                (start_all_length tasks self)) as H2.
  simpl in H2. rewrite H2.
  destruct (finish_each tasks _ _). reflexivity.
Qed.

(** *** One task, from its sleep to its return *)

Lemma with_suite_left_by self task_key task_name r v0 :
  decode (__mode self) r = Ok v0 ->
  left_by (__mode self) task_key task_name (Responded r)
    (__result (fst (with_suite self task_key task_name r))).
Proof.
  intro Hdec. exists r, v0. split; [reflexivity|]. split; [exact Hdec|].
  split; [apply with_suite_decoded; exact Hdec|].
  intros k d Hk Hne Hm Hv Hl. subst task_key v0.
  apply with_suite_tags; assumption.
Qed.

Lemma with_suite_undecoded self task_key task_name r e :
  decode (__mode self) r = Raise e ->
  __result (fst (with_suite self task_key task_name r)) = __result self.
Proof.
  intro Hdec. unfold with_suite.
  change (__mode (set_response self r)) with (__mode self).
  rewrite Hdec. reflexivity.
Qed.

Lemma step_awaiting self tk rq :
  exists s inflight,
    step self tk (Awaiting rq) = (s, Leaving inflight) /\
    __mode s = __mode self /\
    (undecoded (__mode self) (t_outcome tk) -> __result s = __result self) /\
    (forall r v0,
        t_outcome tk = Responded r -> decode (__mode self) r = Ok v0 ->
        left_by (__mode self) (t_key tk) (t_name tk) (t_outcome tk)
          (__result s)).
Proof.
  pose proof (step_mode self tk (Awaiting rq)) as Hm.
  cbn [step] in *.
  destruct (try_suite self rq (t_key tk) (t_name tk) (t_outcome tk))
    as [[s1 inflight] resp] eqn:Et.
  pose proof (except_suite_result s1 inflight resp) as Hr.
  destruct (except_suite s1 inflight resp) as [s2 inflight2].
  cbn [fst snd] in *.
  exists s2, inflight2. split; [reflexivity|]. split; [exact Hm|].
  rewrite Hr. unfold try_suite in Et. split.
  - intro Hun. unfold undecoded in Hun.
    destruct (t_outcome tk) as [e|e|r].
    + injection Et as <- _ _. reflexivity.
    + injection Et as <- _ _. reflexivity.
    + destruct Hun as [e He].
      pose proof (with_suite_undecoded
                    (emit self (Session_get (rq_url rq) (rq_params rq)
                                  (rq_headers rq)))
                    (t_key tk) (t_name tk) r e He) as H.
      destruct (with_suite _ (t_key tk) (t_name tk) r) as [s' i'].
      injection Et as <- _ _. exact H.
  - intros r v0 Ho Hdec. rewrite Ho in *.
    pose proof (with_suite_left_by
                  (emit self (Session_get (rq_url rq) (rq_params rq)
                                (rq_headers rq)))
                  (t_key tk) (t_name tk) r v0 Hdec) as H.
    destruct (with_suite _ (t_key tk) (t_name tk) r) as [s' i'].
    injection Et as <- _ _. exact H.
Qed.

(** *** All tasks *)

Lemma has_url_prologue self tk :
  has_url self tk = true ->
  negb (truthy (py_or (t_url tk) (__url self)))
  && negb (truthy (__url self)) = false.
Proof. unfold has_url. intro H. rewrite H. reflexivity. Qed.

Lemma start_all_awaiting tasks : forall self,
  (forall tk, In tk tasks -> has_url self tk = true) ->
  __mode (fst (start_all tasks self)) = __mode self /\
  (tasks <> [] -> __result (fst (start_all tasks self)) = PNone) /\
  Forall2 (fun (_ : task) st => exists rq, st = Awaiting rq) tasks
    (snd (start_all tasks self)).
Proof.
  induction tasks as [|tk tasks IH]; intros self Hurl.
  - simpl. split; [reflexivity|]. split; [congruence|constructor].
  - cbn [start_all step]. unfold prologue.
    rewrite (has_url_prologue self tk (Hurl tk (or_introl eq_refl))).
    specialize (IH (set_result self PNone)).
    destruct (start_all tasks (set_result self PNone)) as [s sts] eqn:Es.
    cbn [fst snd] in *.
    destruct IH as [IH1 [IH2 IH3]].
    { intros tk' Hin. rewrite (has_url_eq self); [|reflexivity].
      apply Hurl. right. exact Hin. }
    split; [exact IH1|]. split.
    + intros _. destruct tasks as [|tk' tasks'].
      * simpl in Es. injection Es as <- _. reflexivity.
      * apply IH2. discriminate.
    + constructor; [eexists; reflexivity|exact IH3].
Qed.

Lemma finish_each_slots tasks : forall self sts,
  Forall2 (fun (_ : task) st => exists rq, st = Awaiting rq) tasks sts ->
  let slots := map slot_of (snd (finish_each tasks self sts)) in
  (forall i tk r v0,
      nth_error tasks i = Some tk ->
      t_outcome tk = Responded r -> decode (__mode self) r = Ok v0 ->
      exists v,
        nth_error slots i = Some (SVal v) /\
        left_by (__mode self) (t_key tk) (t_name tk) (t_outcome tk) v) /\
  (forall i tk,
      nth_error tasks i = Some tk -> undecoded (__mode self) (t_outcome tk) ->
      nth_error slots i
      = match i with
        | O => Some (SVal (__result self))
        | S j => nth_error slots j
        end).
Proof.
  induction tasks as [|tk0 tasks IH]; intros self sts Hall.
  - split; intros [|i] tk; discriminate.
  - inversion Hall as [|tk' st tasks' sts' [rq Hst] Hrest]; subst.
    cbn [finish_each].
    destruct (step_awaiting self tk0 rq)
      as [s1 [inflight [Hstep [Hm [Hun Hdec]]]]].
    rewrite Hstep. cbn [step finally_suite].
    specialize (IH s1 sts' Hrest).
    destruct (finish_each tasks s1 sts') as [s3 sts3].
    cbn [fst snd map slot_of] in *. rewrite Hm in IH.
    destruct IH as [IHa IHb]. split.
    + intros [|i] tk r v0 Htk Ho Hd; cbn [nth_error] in *.
      * injection Htk as <-. exists (__result s1).
        split; [reflexivity|]. apply (Hdec r v0); assumption.
      * apply (IHa i tk r v0); assumption.
    + intros [|i] tk Htk Hu; cbn [nth_error] in *.
      * injection Htk as <-. rewrite (Hun Hu). reflexivity.
      * rewrite (IHb i tk Htk Hu). destruct i; reflexivity.
Qed.

(** The slots of a [gather] whose tasks complete one after the other:
    a task whose body decodes gets its own payload, and a task whose
    body does not gets what the task before it got. *)
Lemma gather_in_order tasks self :
  (forall tk, In tk tasks -> has_url self tk = true) ->
  let slots := snd (gather tasks [] self) in
  (forall i tk r v0,
      nth_error tasks i = Some tk ->
      t_outcome tk = Responded r -> decode (__mode self) r = Ok v0 ->
      exists v,
        nth_error slots i = Some (SVal v) /\
        left_by (__mode self) (t_key tk) (t_name tk) (t_outcome tk) v) /\
  (forall i tk,
      nth_error tasks i = Some tk -> undecoded (__mode self) (t_outcome tk) ->
      nth_error slots i
      = match i with
        | O => Some (SVal PNone)
        | S j => nth_error slots j
        end).
Proof.
  intro Hurl. unfold gather. rewrite settle_in_order.
  destruct (start_all_awaiting tasks self Hurl) as [Hm [Hr Hall]].
  pose proof (finish_each_slots tasks (fst (start_all tasks self))
                (snd (start_all tasks self)) Hall) as H.
  destruct (finish_each tasks _ _) as [s sts]. cbn [fst snd] in *.
  rewrite Hm in H. destruct H as [Ha Hb]. split; [exact Ha|].
  intros i tk Htk Hu. rewrite (Hb i tk Htk Hu).
  destruct i; [|reflexivity].
  rewrite Hr; [reflexivity|]. intro E. subst tasks. discriminate Htk.
Qed.

End InOrderFacts.

(** ** The task lists of the batch methods *)

Module BatchFacts.

Import UrlReader Loop Spec InOrder UrlReaderFacts LoopFacts DictFacts.
Import DispatchFacts GatherFacts InOrderFacts.

Lemma has_url_base self tk :
  truthy (__url self) = true -> has_url self tk = true.
Proof.
  intro H. unfold has_url, py_or.
  destruct (truthy (t_url tk)) eqn:E; assumption.
Qed.

Lemma tron_tasks_at self items : forall i net j address url,
  nth_error items j = Some (address, url) ->
  nth_error (TronWalletReader.tasks_of self items i net) j
  = Some {| t_url := PStr url;
            t_params := __params (TronWalletReader.base self);
            t_headers := __headers (TronWalletReader.base self);
            t_key := Some "wallet_address";
            t_name := address;
            t_outcome := net (i + j)%nat |}.
Proof.
  induction items as [|[a u] items IH]; intros i net j address url H.
  - destruct j; discriminate H.
  - destruct j as [|j]; simpl in *.
    + injection H as -> ->. rewrite Nat.add_0_r. reflexivity.
    + rewrite (IH (S i) net j address url H).
      replace (S i + j)%nat with (i + S j)%nat by lia. reflexivity.
Qed.

Lemma bsc_tasks_at self params : forall i net tasks j wallet_params address,
  BscScanWalletReader.tasks_of self params i net = Ok tasks ->
  nth_error params j = Some wallet_params ->
  getitem wallet_params "address" = Ok address ->
  nth_error tasks j
  = Some {| t_url := __url (BscScanWalletReader.base self);
            t_params := wallet_params;
            t_headers := __headers (BscScanWalletReader.base self);
            t_key := Some "wallet_address";
            t_name := address;
            t_outcome := net (i + j)%nat |}.
Proof.
  induction params as [|p params IH];
    intros i net tasks j wallet_params address Ht Hp Ha.
  - destruct j; discriminate Hp.
  - cbn [BscScanWalletReader.tasks_of] in Ht.
    destruct (getitem p "address") as [a|e] eqn:Ea; [|discriminate Ht].
    cbn [bind] in Ht.
    destruct (BscScanWalletReader.tasks_of self params (S i) net)
      as [rest|e] eqn:Er; [|discriminate Ht].
    cbn [bind] in Ht. injection Ht as <-.
    destruct j as [|j]; cbn [nth_error] in *.
    + injection Hp as <-. rewrite Ea in Ha. injection Ha as <-.
      rewrite Nat.add_0_r. reflexivity.
    + rewrite (IH (S i) net rest j wallet_params address Er Hp Ha).
      replace (S i + j)%nat with (i + S j)%nat by lia. reflexivity.
Qed.

Lemma bsc_tasks_url self params : forall i net tasks tk,
  BscScanWalletReader.tasks_of self params i net = Ok tasks ->
  In tk tasks -> t_url tk = __url (BscScanWalletReader.base self).
Proof.
  induction params as [|p params IH]; intros i net tasks tk Ht Hin.
  - injection Ht as <-. destruct Hin.
  - cbn [BscScanWalletReader.tasks_of] in Ht.
    destruct (getitem p "address") as [a|e] eqn:Ea; [|discriminate Ht].
    cbn [bind] in Ht.
    destruct (BscScanWalletReader.tasks_of self params (S i) net)
      as [rest|e] eqn:Er; [|discriminate Ht].
    cbn [bind] in Ht. injection Ht as <-.
    destruct Hin as [<-|Hin]; [reflexivity|].
    eapply IH; eassumption.
Qed.

Lemma html_tasks_at self urls : forall i net j url,
  nth_error urls j = Some url ->
  nth_error (HTMLReader.tasks_of self urls i net) j
  = Some {| t_url := url;
            t_params := __params (HTMLReader.base self);
            t_headers := __headers (HTMLReader.base self);
            t_key := None;
            t_name := PNone;
            t_outcome := net (i + j)%nat |}.
Proof.
  induction urls as [|u urls IH]; intros i net j url H.
  - destruct j; discriminate H.
  - destruct j as [|j]; simpl in *.
    + injection H as ->. rewrite Nat.add_0_r. reflexivity.
    + rewrite (IH (S i) net j url H).
      replace (S i + j)%nat with (i + S j)%nat by lia. reflexivity.
Qed.

Lemma html_tasks_in self urls : forall i net tk,
  In tk (HTMLReader.tasks_of self urls i net) ->
  In (t_url tk) urls /\ t_key tk = None.
Proof.
  induction urls as [|u urls IH]; intros i net tk H.
  - destruct H.
  - destruct H as [<-|H].
    + split; [left|]; reflexivity.
    + destruct (IH (S i) net tk H) as [H1 H2].
      split; [right; exact H1|exact H2].
Qed.

Lemma html_tasks_length self urls : forall i net,
  List.length (HTMLReader.tasks_of self urls i net) = List.length urls.
Proof.
  induction urls as [|u urls IH]; intros i net; simpl;
    [reflexivity|]. rewrite IH. reflexivity.
Qed.

Lemma html_tasks_nth self urls i net j tk :
  nth_error (HTMLReader.tasks_of self urls i net) j = Some tk ->
  exists url,
    nth_error urls j = Some url /\
    t_url tk = url /\ t_key tk = None /\ t_outcome tk = net (i + j)%nat.
Proof.
  intro H. destruct (nth_error urls j) as [url|] eqn:E.
  - rewrite (html_tasks_at self urls i net j url E) in H.
    injection H as <-. exists url. repeat split; reflexivity.
  - apply nth_error_None in E.
    rewrite <- (html_tasks_length self urls i net) in E.
    apply nth_error_None in E. congruence.
Qed.

Lemma slot_at {A B} (l : list A) (m : list B) i a :
  List.length m = List.length l -> nth_error l i = Some a ->
  exists b, nth_error m i = Some b.
Proof.
  intros Hlen Ha. destruct (nth_error m i) as [b|] eqn:E; [eauto|].
  apply nth_error_None in E. rewrite Hlen in E.
  apply nth_error_None in E. congruence.
Qed.

(** A tagged payload, read off [left_by]. *)
Lemma left_by_tagged k name o v r d :
  k <> EmptyString ->
  left_by JSON (Some k) name o v ->
  o = Responded r -> resp_json r = Ok (PDict d) -> lookup k d = None ->
  v = PDict (dict_set k name d).
Proof.
  intros Hk [r' [v0 [Ho [Hdec [_ Htag]]]]] Hr Hj Hl.
  rewrite Hr in Ho. injection Ho as <-.
  unfold decode in Hdec. simpl in Hdec. rewrite Hj in Hdec.
  injection Hdec as <-.
  apply (Htag k d); auto.
Qed.

(** The text of a page, read off [left_by]. *)
Lemma left_by_page name o v :
  left_by HTML None name o v ->
  exists r body, o = Responded r /\ resp_text r = Ok body /\ v = PStr body.
Proof.
  intros [r [v0 [Ho [Hdec [Hv _]]]]].
  unfold decode in Hdec. simpl in Hdec.
  destruct (resp_text r) as [body|e] eqn:Et; [|discriminate Hdec].
  simpl in Hdec. injection Hdec as <-.
  exists r, body. split; [exact Ho|]. split; [exact Et|].
  destruct Hv as [Hv|[k [Hk _]]]; [exact Hv|discriminate Hk].
Qed.

(** *** The wallet batches, completed in order *)

Lemma tron_fetch_in_order self items net :
  __mode (TronWalletReader.base self) = JSON ->
  truthy (__url (TronWalletReader.base self)) = true ->
  let slots := snd (TronWalletReader.fetch_urls self items net []) in
  (forall i address url r d,
      nth_error items i = Some (address, url) ->
      net i = Responded r -> resp_json r = Ok (PDict d) ->
      lookup "wallet_address" d = None ->
      nth_error slots i
      = Some (SVal (PDict (dict_set "wallet_address" address d)))) /\
  (forall i,
      (i < List.length items)%nat -> undecoded JSON (net i) ->
      nth_error slots i
      = match i with
        | O => Some (SVal PNone)
        | S j => nth_error slots j
        end).
Proof.
  intros Hm Hu. unfold TronWalletReader.fetch_urls.
  pose proof (gather_in_order (TronWalletReader.tasks_of self items 0 net)
                (TronWalletReader.base self)
                (fun tk _ => has_url_base _ tk Hu)) as H.
  destruct (gather _ [] (TronWalletReader.base self)) as [b slots].
  cbn [fst snd] in *. rewrite Hm in H. destruct H as [Ha Hb]. split.
  - intros i address url r d Hi Hnet Hj Hl.
    pose proof (tron_tasks_at self items 0 net i address url Hi) as Htk.
    destruct (Ha i _ r (PDict d) Htk) as [v [Hv Hleft]].
    + exact Hnet.
    + unfold decode. simpl. exact Hj.
    + rewrite Hv. f_equal. f_equal. cbn [t_key t_name t_outcome] in Hleft.
      apply (left_by_tagged "wallet_address" address (net (0 + i)%nat) v r d);
        [discriminate|exact Hleft|exact Hnet|exact Hj|exact Hl].
  - intros i Hi Hun.
    destruct (nth_error items i) as [[address url]|] eqn:Ei.
    + pose proof (tron_tasks_at self items 0 net i address url Ei) as Htk.
      apply (Hb i _ Htk). exact Hun.
    + apply nth_error_None in Ei. lia.
Qed.

Lemma bsc_fetch_in_order self (mk : pyval -> pyval) wallets net :
  (forall w, getitem (mk w) "address" = Ok w) ->
  __mode (BscScanWalletReader.base self) = JSON ->
  truthy (__url (BscScanWalletReader.base self)) = true ->
  exists slots,
    snd (BscScanWalletReader.fetch_urls self (map mk wallets) net [])
    = Ok slots /\
    (forall i address r d,
        nth_error wallets i = Some address ->
        net i = Responded r -> resp_json r = Ok (PDict d) ->
        lookup "wallet_address" d = None ->
        nth_error slots i
        = Some (SVal (PDict (dict_set "wallet_address" address d)))) /\
    (forall i,
        (i < List.length wallets)%nat -> undecoded JSON (net i) ->
        nth_error slots i
        = match i with
          | O => Some (SVal PNone)
          | S j => nth_error slots j
          end).
Proof.
  intros Hmk Hm Hu. unfold BscScanWalletReader.fetch_urls.
  destruct (bsc_tasks_ok self mk wallets 0 net Hmk) as [tasks [E [Hlen Hn]]].
  rewrite E.
  pose proof (gather_in_order tasks (BscScanWalletReader.base self)
                (fun tk _ => has_url_base _ tk Hu)) as H.
  destruct (gather tasks [] (BscScanWalletReader.base self)) as [b slots].
  cbn [fst snd] in *. rewrite Hm in H. destruct H as [Ha Hb].
  exists slots. split; [reflexivity|]. split.
  - intros i address r d Hi Hnet Hj Hl.
    assert (Hp : nth_error (map mk wallets) i = Some (mk address))
      by (rewrite nth_error_map, Hi; reflexivity).
    pose proof (bsc_tasks_at self (map mk wallets) 0 net tasks i
                  (mk address) address E Hp (Hmk address)) as Htk.
    destruct (Ha i _ r (PDict d) Htk) as [v [Hv Hleft]].
    + exact Hnet.
    + unfold decode. simpl. exact Hj.
    + rewrite Hv. f_equal. f_equal. cbn [t_key t_name t_outcome] in Hleft.
      apply (left_by_tagged "wallet_address" address (net (0 + i)%nat) v r d);
        [discriminate|exact Hleft|exact Hnet|exact Hj|exact Hl].
  - intros i Hi Hun.
    destruct (nth_error wallets i) as [address|] eqn:Ei.
    + assert (Hp : nth_error (map mk wallets) i = Some (mk address))
        by (rewrite nth_error_map, Ei; reflexivity).
      pose proof (bsc_tasks_at self (map mk wallets) 0 net tasks i
                    (mk address) address E Hp (Hmk address)) as Htk.
      apply (Hb i _ Htk). exact Hun.
    + apply nth_error_None in Ei. lia.
Qed.

Lemma nth_error_fst {A B} (l : list (A * B)) i a :
  nth_error (map fst l) i = Some a ->
  exists b, nth_error l i = Some (a, b).
Proof.
  rewrite nth_error_map. destruct (nth_error l i) as [[a' b]|];
    [|discriminate].
  simpl. intro H. injection H as <-. exists b. reflexivity.
Qed.

End BatchFacts.

(** ** The rate readers *)

Module RateFacts.

Import UrlReader Spec Shape UrlReaderFacts FetchFacts DictFacts.
Import TransactionFacts BalanceFacts.

Lemma all_str_strs (strs : list string) :
  MOEXReader.all_str (map PStr strs) = Ok strs.
Proof.
  induction strs as [|x strs IH]; simpl; [reflexivity|].
  rewrite IH. reflexivity.
Qed.

Lemma py_or_same (v : pyval) : py_or v v = v.
Proof. unfold py_or. destruct (truthy v); reflexivity. Qed.

(** A reader fresh from its constructor sends its own URL, parameters
    and headers. *)
Lemma fresh_reader_request self url params headers task_key task_name o :
  events self = [] ->
  truthy (__url self) = true ->
  (url = PNone \/ url = __url self) ->
  (params = PNone \/ params = __params self) ->
  (headers = PNone \/ headers = __headers self) ->
  (forall e, o <> SleepRaises e) ->
  sent_only (Session_get (__url self) (__params self) (__headers self))
    (events (fst (_get_raw_data self url params headers task_key task_name
                    o))).
Proof.
  intros He Hu Hurl Hp Hh Ho.
  destruct (one_request self url params headers task_key task_name o
              (or_intror Hu) Ho) as [logs [E F]].
  exists logs. split; [|exact F]. rewrite E, He. simpl.
  f_equal. f_equal.
  - destruct Hurl as [->| ->]; [reflexivity|apply py_or_same].
  - destruct Hp as [->| ->]; [reflexivity|apply py_or_same].
  - destruct Hh as [->| ->]; [reflexivity|apply py_or_same].
Qed.

(** *** Dicts keyed by values *)

Lemma pd_insert_In_key {V} (k : pyval) (x : V) (d : pydict V) k' (y : V) :
  In (k', y) (pd_insert k x d) ->
  (y = x /\ (k' = k \/ py_eqb k' k = true)) \/ In (k', y) d.
Proof.
  induction d as [|[a v] d IH]; simpl.
  - intros [H|[]]. injection H as <- <-. left. auto.
  - destruct (py_eqb a k) eqn:E; simpl.
    + intros [H|H].
      * injection H as <- <-. left. auto.
      * right. right. exact H.
    + intros [H|H].
      * right. left. exact H.
      * destruct (IH H) as [H'|H']; [left; exact H'|right; right; exact H'].
Qed.

Lemma pd_insert_length {V} (k : pyval) (x : V) (d : pydict V) :
  (List.length (pd_insert k x d) <= S (List.length d))%nat.
Proof.
  induction d as [|[a v] d IH]; simpl; [lia|].
  destruct (py_eqb a k); simpl; lia.
Qed.

Lemma pd_lookup_In_key {V} (k : pyval) (x : V) (d : pydict V) :
  pd_lookup k d = Some x -> exists k', In (k', x) d /\ py_eqb k' k = true.
Proof.
  induction d as [|[a v] d IH]; simpl; [discriminate|].
  destruct (py_eqb a k) eqn:E.
  - intro H. injection H as <-. exists a. auto.
  - intro H. destruct (IH H) as [k' [H1 H2]]. exists k'. auto.
Qed.

Lemma pd_get_In_key {V} (k : pyval) (d : pydict V) (x : V) :
  pd_get k d = Ok x -> exists k', In (k', x) d /\ py_eqb k' k = true.
Proof.
  unfold pd_get. destruct (hashable k); [|discriminate].
  destruct (pd_lookup k d) as [v|] eqn:E; [|discriminate].
  intro H. injection H as <-. apply pd_lookup_In_key. exact E.
Qed.

Lemma pd_set_hashable {V} (k : pyval) (x : V) (d d' : pydict V) :
  pd_set k x d = Ok d' -> hashable k = true /\ d' = pd_insert k x d.
Proof.
  unfold pd_set. destruct (hashable k); [|discriminate].
  intro H. injection H as <-. auto.
Qed.

Lemma py_eqb_str_l (s : string) (a : pyval) :
  py_eqb (PStr s) a = true -> a = PStr s.
Proof.
  destruct a; simpl; try discriminate.
  intro H. apply String.eqb_eq in H. subst. reflexivity.
Qed.

(** *** [YahooReader.get_rates] *)

Section Yahoo.

Variable decimal : Type.
Variable datetime : Type.
Variable Decimal_of_str : pyval -> result decimal.
Variable now : nat -> datetime.

Lemma yahoo_rates_loop_quoted json rows0 : forall rows clock acc rates,
  (forall data, In data rows -> In data rows0) ->
  YahooReader.rates_loop decimal datetime Decimal_of_str now json rows clock
    acc = Ok rates ->
  (forall key rate,
      In (key, rate) acc ->
      Provenance.quoted Decimal_of_str rows0 key rate) ->
  (forall key rate,
      In (key, rate) rates ->
      Provenance.quoted Decimal_of_str rows0 key rate) /\
  (List.length rates <= List.length acc + List.length rows)%nat.
Proof.
  induction rows as [|data rows IH]; intros clock acc rates Hsub Hloop Hacc.
  - simpl in Hloop. injection Hloop as <-. split; [exact Hacc|simpl; lia].
  - cbn [YahooReader.rates_loop] in Hloop.
    assert (Hsub' : forall d, In d rows -> In d rows0)
      by (intros d Hd; apply Hsub; right; exact Hd).
    destruct (truthy json).
    + repeat bind_ok Hloop.
      match goal with
      | E : pd_set _ _ _ = Ok _ |- _ =>
          destruct (pd_set_hashable _ _ _ _ E) as [Hh ->]
      end.
      destruct (IH _ _ _ Hsub' Hloop) as [H1 H2].
      * intros key rate Hin.
        destruct (pd_insert_In_key _ _ _ _ _ Hin) as [[-> Hk]|Hin'];
          [|apply Hacc; exact Hin'].
        exists data. eexists. split; [apply Hsub; left; reflexivity|].
        cbn [YahooReader.symbol YahooReader.name YahooReader.rate].
        repeat split; try eassumption.
        destruct Hk as [->|Hk]; [|exact Hk].
        apply py_eqb_refl_hashable. exact Hh.
      * split; [exact H1|].
        match type of H2 with
        | (_ <= List.length (pd_insert ?k ?x ?d) + _)%nat =>
            pose proof (pd_insert_length k x d)
        end.
        simpl. lia.
    + destruct (IH _ _ _ Hsub' Hloop Hacc) as [H1 H2].
      split; [exact H1|simpl; lia].
Qed.

End Yahoo.

(** *** [MOEXReader.get_rates] *)

Lemma moex_metadata_listed json securities : forall rows acc metadata,
  (forall row, In row rows -> In row securities) ->
  MOEXReader.metadata_loop json rows acc = Ok metadata ->
  (forall key meta, In (key, meta) acc ->
                    Provenance.listed securities key meta) ->
  forall key meta, In (key, meta) metadata ->
                   Provenance.listed securities key meta.
Proof.
  induction rows as [|row rows IH]; intros acc metadata Hsub Hloop Hacc.
  - simpl in Hloop. injection Hloop as <-. exact Hacc.
  - cbn [MOEXReader.metadata_loop] in Hloop.
    assert (Hsub' : forall d, In d rows -> In d securities)
      by (intros d Hd; apply Hsub; right; exact Hd).
    destruct (truthy json); [|apply (IH _ _ Hsub' Hloop Hacc)].
    repeat bind_ok Hloop.
    match goal with
    | E : pd_set _ _ _ = Ok _ |- _ =>
        destruct (pd_set_hashable _ _ _ _ E) as [Hh ->]
    end.
    apply (IH _ _ Hsub' Hloop).
    intros key meta Hin.
    destruct (pd_insert_In_key _ _ _ _ _ Hin) as [[-> Hk]|Hin'];
      [|apply Hacc; exact Hin'].
    exists row. eexists. split; [apply Hsub; left; reflexivity|].
    split; [eassumption|]. split.
    + destruct Hk as [->|Hk]; [|exact Hk].
      apply py_eqb_refl_hashable. exact Hh.
    + split; assumption.
Qed.

Lemma moex_wanted_inv self json data :
  MOEXReader.wanted self json data = Ok true ->
  truthy json = true /\
  exists price secid,
    index data 0 = Ok price /\ truthy price = true /\
    index data 2 = Ok (PStr secid) /\
    contains_str secid (MOEXReader.symbols self) = true.
Proof.
  unfold MOEXReader.wanted. destruct (truthy json); [|discriminate].
  intro H. split; [reflexivity|].
  destruct (index data 0) as [price|e]; [|discriminate H]. cbn [bind] in H.
  destruct (truthy price) eqn:Ep; [|discriminate H].
  destruct (index data 2) as [secid|e]; [|discriminate H]. cbn [bind] in H.
  destruct secid; try discriminate H. simpl in H. injection H as H.
  exists price. eexists. repeat split; eassumption.
Qed.

Section Moex.

Variable decimal : Type.
Variable datetime : Type.
Variable Decimal_of : pyval -> result decimal.
Variable fromisoformat : pyval -> result datetime.

Lemma moex_rates_loop_joined self metadata json securities marketdata :
  (forall key meta, In (key, meta) metadata ->
                    Provenance.listed securities key meta) ->
  forall rows acc rates,
  (forall row, In row rows -> In row marketdata) ->
  MOEXReader.rates_loop decimal datetime Decimal_of fromisoformat self
    metadata json rows acc = Ok rates ->
  (forall key rate,
      In (key, rate) acc ->
      Provenance.joined Decimal_of fromisoformat (MOEXReader.symbols self)
        securities marketdata key rate) ->
  forall key rate,
    In (key, rate) rates ->
    Provenance.joined Decimal_of fromisoformat (MOEXReader.symbols self)
      securities marketdata key rate.
Proof.
  intro Hmeta.
  induction rows as [|data rows IH]; intros acc rates Hsub Hloop Hacc.
  - simpl in Hloop. injection Hloop as <-. exact Hacc.
  - cbn [MOEXReader.rates_loop] in Hloop.
    assert (Hsub' : forall d, In d rows -> In d marketdata)
      by (intros d Hd; apply Hsub; right; exact Hd).
    destruct (MOEXReader.wanted self json data) as [[|]|e] eqn:Ew;
      cbn [bind] in Hloop; [|apply (IH _ _ Hsub' Hloop Hacc)|discriminate].
    destruct (moex_wanted_inv _ _ _ Ew)
      as [_ [price [secid [Hp [Htp [Hs Hc]]]]]].
    rewrite Hs, Hp in Hloop. cbn [bind] in Hloop.
    repeat bind_ok Hloop.
    apply (IH _ _ Hsub' Hloop).
    intros key rate Hin.
    destruct (pd_insert_In_key _ _ _ _ _ Hin) as [[-> Hk]|Hin'];
      [|apply Hacc; exact Hin'].
    assert (Hkey : key = PStr secid).
    { destruct Hk as [->|Hk]; [reflexivity|].
      apply py_eqb_str. exact Hk. }
    match goal with
    | E : pd_get (PStr secid) metadata = Ok ?m |- _ =>
        destruct (pd_get_In_key _ _ _ E) as [k' [Hink Hk']];
        apply py_eqb_str in Hk'; subst k';
        destruct (Hmeta _ _ Hink) as [listed [sid [L1 [L2 [L3 [L4 L5]]]]]];
        apply py_eqb_str_l in L3; subst sid
    end.
    exists secid, data, price. eexists. exists listed.
    cbn [MOEXReader.symbol MOEXReader.name MOEXReader.rate
         MOEXReader.updated_at].
    split; [exact Hkey|]. split; [apply Hsub; left; reflexivity|].
    repeat split; eassumption.
Qed.

Lemma moex_rates_loop_complete self metadata json : forall rows acc rates,
  MOEXReader.rates_loop decimal datetime Decimal_of fromisoformat self
    metadata json rows acc = Ok rates ->
  (forall key, pd_lookup key acc <> None -> pd_lookup key rates <> None) /\
  (truthy json = true ->
   forall data secid price,
     In data rows ->
     index data 2 = Ok (PStr secid) ->
     index data 0 = Ok price -> truthy price = true ->
     contains_str secid (MOEXReader.symbols self) = true ->
     pd_lookup (PStr secid) rates <> None).
Proof.
  induction rows as [|data rows IH]; intros acc rates Hloop.
  - simpl in Hloop. injection Hloop as <-.
    split; [auto|]. intros _ data secid price [].
  - cbn [MOEXReader.rates_loop] in Hloop.
    destruct (MOEXReader.wanted self json data) as [[|]|e] eqn:Ew;
      cbn [bind] in Hloop; [| |discriminate].
    + destruct (moex_wanted_inv _ _ _ Ew)
        as [_ [price [secid [Hp [Htp [Hs Hc]]]]]].
      rewrite Hs, Hp in Hloop. cbn [bind] in Hloop.
      repeat bind_ok Hloop.
      destruct (IH _ _ Hloop) as [Hkeep Hall]. split.
      * intros key Hk. apply Hkeep. apply pd_insert_keeps. exact Hk.
      * intros Hj d s p [<-|Hin] H2 H0 Ht Hcs.
        -- rewrite Hs in H2. injection H2 as <-.
           apply Hkeep. apply pd_insert_has. reflexivity.
        -- apply (Hall Hj d s p); assumption.
    + destruct (IH _ _ Hloop) as [Hkeep Hall]. split; [exact Hkeep|].
      intros Hj d s p [<-|Hin] H2 H0 Ht Hcs.
      * exfalso. unfold MOEXReader.wanted in Ew.
        rewrite Hj, H0 in Ew. cbn [bind] in Ew. rewrite Ht, H2 in Ew.
        cbn [bind in_str] in Ew. rewrite Hcs in Ew. discriminate Ew.
      * apply (Hall Hj d s p); assumption.
Qed.

End Moex.

(** A reader's one request, when the adapter got a payload out of it. *)
Lemma fetched_payload self o json :
  __mode self = JSON ->
  snd (_get_raw_data self (__url self) (__params self) (__headers self)
         None PNone o) = Ok json ->
  json = PNone \/ exists r, o = Responded r /\ resp_json r = Ok json.
Proof.
  intros Hm H.
  destruct (truthy (__url self)) eqn:Hu.
  - rewrite (untagged_value self _ _ _ PNone o (or_intror Hu)) in H.
    injection H as <-. rewrite Hm.
    destruct o as [e|e|r]; [left; reflexivity|left; reflexivity|].
    unfold decode. simpl.
    destruct (resp_json r) as [v|e] eqn:E; [|left; reflexivity].
    right. exists r. auto.
  - unfold _get_raw_data, prologue, py_or in H. rewrite Hu in H.
    simpl in H. rewrite Hu in H. simpl in H. discriminate H.
Qed.

(** *** [XeReader] *)

Lemma substring_all (s : string) : substring 0 (String.length s) s = s.
Proof.
  induction s as [|c s IH]; simpl; [reflexivity|]. rewrite IH. reflexivity.
Qed.

Lemma issubset_strs (ps pairs : list string) :
  XeReader.issubset (map PStr ps) pairs
  = Ok (forallb (fun p => existsb (String.eqb p) pairs) ps).
Proof.
  induction ps as [|p ps IH]; simpl; [reflexivity|].
  rewrite IH. reflexivity.
Qed.

Lemma covered_iff (ps pairs : list string) :
  forallb (fun p => existsb (String.eqb p) pairs) ps = true
  <-> Forall (fun p => In p pairs) ps.
Proof.
  rewrite forallb_forall, Forall_forall. split; intros H p Hp.
  - destruct (proj1 (existsb_exists _ _) (H p Hp)) as [q [Hq E]].
    apply String.eqb_eq in E. subst q. exact Hq.
  - apply existsb_exists. exists p. split; [apply H; exact Hp|].
    apply String.eqb_refl.
Qed.

Lemma dict_set_In {V} (key : string) (x : V) (d : list (string * V)) k y :
  In (k, y) (dict_set key x d) -> (k = key /\ y = x) \/ In (k, y) d.
Proof.
  induction d as [|[a v] d IH]; simpl.
  - intros [H|[]]. injection H as <- <-. left. auto.
  - destruct (a =? key)%string eqn:E; simpl.
    + apply String.eqb_eq in E. subst a. intros [H|H].
      * injection H as <- <-. left. auto.
      * right. right. exact H.
    + intros [H|H].
      * right. left. exact H.
      * destruct (IH H) as [H'|H']; [left; exact H'|right; right; exact H'].
Qed.

Lemma dict_set_length {V} (key : string) (x : V) (d : list (string * V)) :
  (List.length (dict_set key x d) <= S (List.length d))%nat.
Proof.
  induction d as [|[a v] d IH]; simpl; [lia|].
  destruct (a =? key)%string; simpl; lia.
Qed.

Section Xe.

Variable decimal : Type.
Variable datetime : Type.
Variable Decimal : string -> result decimal.
Variable now : datetime.
Variable xpath_text : Loop.slot -> result (list string).

Lemma item_nth (l : list string) i x :
  XeReader.item l i = Ok x -> nth_error l i = Some x.
Proof.
  unfold XeReader.item. destruct (nth_error l i); [|discriminate].
  intro H. injection H as <-. reflexivity.
Qed.

Lemma item_from_end_nth (l : list string) i x :
  XeReader.item_from_end l i = Ok x ->
  nth_error l (List.length l - i) = Some x.
Proof.
  unfold XeReader.item_from_end.
  destruct (i <=? List.length l)%nat; [|discriminate].
  apply item_nth.
Qed.

Lemma xe_rates_loop_scraped pages0 : forall pages acc rates,
  (forall page, In page pages -> In page pages0) ->
  XeReader.rates_loop decimal datetime Decimal now xpath_text pages acc
  = Ok rates ->
  (forall key rate,
      In (key, rate) acc ->
      Provenance.scraped Decimal now xpath_text pages0 key rate) ->
  (forall key rate,
      In (key, rate) rates ->
      Provenance.scraped Decimal now xpath_text pages0 key rate) /\
  (List.length rates <= List.length acc + List.length pages)%nat.
Proof.
  induction pages as [|page pages IH]; intros acc rates Hsub Hloop Hacc.
  - simpl in Hloop. injection Hloop as <-. split; [exact Hacc|simpl; lia].
  - cbn [XeReader.rates_loop] in Hloop.
    assert (Hsub' : forall d, In d pages -> In d pages0)
      by (intros d Hd; apply Hsub; right; exact Hd).
    destruct (xpath_text page) as [texts|e] eqn:Ex; [|discriminate Hloop].
    cbn [bind] in Hloop.
    destruct (XeReader.item texts 0) as [first|e] eqn:Ef;
      [|discriminate Hloop].
    cbn [bind] in Hloop.
    destruct (List.length (split_ws first) =? 0)%nat.
    + destruct (IH _ _ Hsub' Hloop Hacc) as [H1 H2].
      split; [exact H1|simpl; lia].
    + destruct (XeReader.item (split_ws first) 1) as [src|e] eqn:Es;
        [|discriminate Hloop].
      cbn [bind] in Hloop.
      destruct (XeReader.item_from_end (split_ws first) 1) as [dst|e] eqn:Ed;
        [|discriminate Hloop].
      cbn [bind] in Hloop.
      destruct (XeReader.item_from_end (split_ws first) 2)
        as [value|e] eqn:Ev; [|discriminate Hloop].
      cbn [bind] in Hloop.
      destruct (Decimal (remove_char "," value)) as [amount|e] eqn:Ea;
        [|discriminate Hloop].
      cbn [bind] in Hloop.
      match type of Hloop with
      | XeReader.rates_loop _ _ _ _ _ _ (dict_set ?k ?x ?d) = _ =>
          pose proof (dict_set_length k x d) as Hlen
      end.
      destruct (IH _ _ Hsub' Hloop) as [H1 H2].
      * intros key rate Hin.
        destruct (dict_set_In _ _ _ _ _ Hin) as [[-> ->]|Hin'];
          [|apply Hacc; exact Hin'].
        destruct texts as [|first' texts]; [discriminate Ef|].
        injection Ef as ->.
        exists page, first, texts, (split_ws first), src, value, dst.
        split; [apply Hsub; left; reflexivity|].
        split; [exact Ex|]. split; [reflexivity|].
        split; [apply item_nth; exact Es|].
        split; [apply item_from_end_nth; exact Ed|].
        split; [apply item_from_end_nth; exact Ev|].
        repeat split. exact Ea.
      * split; [exact H1|]. simpl. lia.
Qed.

End Xe.

(** *** Constructors given a list with an element that is no [str] *)




End RateFacts.

(** ** The wallets of a result *)

Module WalletFacts.

Import UrlReader Loop Spec DictFacts TransactionFacts BalanceFacts.
Import DispatchFacts.

Lemma pd_insert_present_keys {V} (k : pyval) (x : V) (d : pydict V) :
  pd_lookup k d <> None -> map fst (pd_insert k x d) = map fst d.
Proof.
  induction d as [|[a v] d IH]; simpl; [congruence|].
  destruct (py_eqb a k); simpl; [reflexivity|].
  intro H. rewrite (IH H). reflexivity.
Qed.

Lemma pd_set_present_keys {V} (k : pyval) (x : V) (d d' : pydict V) :
  pd_set k x d = Ok d' -> pd_lookup k d <> None ->
  map fst d' = map fst d.
Proof.
  unfold pd_set. destruct (hashable k); [|discriminate].
  intro H. injection H as <-. apply pd_insert_present_keys.
Qed.

Lemma pd_get_present {V} (k : pyval) (d : pydict V) (x : V) :
  pd_get k d = Ok x -> pd_lookup k d <> None.
Proof.
  unfold pd_get. destruct (hashable k); [|discriminate].
  destruct (pd_lookup k d); [discriminate|discriminate].
Qed.

(** The wallet a gathered value names is one of the requested wallets,
    when no body comes with the key. *)
Lemma attributed_address wallets net v address :
  (forall i r v0,
      net i = Responded r -> resp_json r = Ok v0 ->
      exists d, v0 = PDict d /\ lookup "wallet_address" d = None) ->
  attributed wallets net v ->
  getitem v "wallet_address" = Ok address ->
  In address wallets.
Proof.
  intros Hnet [->|[i [a [r [v0 [Hi [Hr [Hj [_ Htag]]]]]]]]] Hget;
    [discriminate Hget|].
  destruct (Hnet i r v0 Hr Hj) as [d [-> Hl]].
  rewrite (Htag d eq_refl Hl) in Hget. injection Hget as <-.
  apply (nth_error_In _ _ Hi).
Qed.

Lemma tron_balances_keys contract : forall raw_data wallets wallets',
  TronWalletReader.balances_loop contract raw_data wallets = Ok wallets' ->
  (forall s address,
      In s raw_data -> slot_getitem s "wallet_address" = Ok address ->
      pd_lookup address wallets <> None) ->
  map fst wallets' = map fst wallets.
Proof.
  induction raw_data as [|balance rest IH]; intros wallets wallets' H Hall.
  - simpl in H. injection H as <-. reflexivity.
  - cbn [TronWalletReader.balances_loop] in H.
    bind_ok H. destruct (negb (truthy a)); simpl in H; repeat bind_ok H;
      match goal with
      | E : slot_getitem balance "wallet_address" = Ok ?x,
        E' : pd_set ?x _ wallets = Ok ?w |- _ =>
          pose proof (Hall balance x (or_introl eq_refl) E) as Hx;
          rewrite (IH _ _ H);
          [apply (pd_set_present_keys _ _ _ _ E' Hx)|];
          intros s address Hin Hs;
          apply (pd_set_keeps _ _ _ _ _ E');
          apply (Hall s address (or_intror Hin) Hs)
      end.
Qed.

Lemma bsc_balances_keys : forall raw_data wallets wallets',
  BscScanWalletReader.balances_loop raw_data wallets = Ok wallets' ->
  (forall s address,
      In s raw_data -> slot_getitem s "wallet_address" = Ok address ->
      pd_lookup address wallets <> None) ->
  map fst wallets' = map fst wallets.
Proof.
  induction raw_data as [|balance rest IH]; intros wallets wallets' H Hall.
  - simpl in H. injection H as <-. reflexivity.
  - cbn [BscScanWalletReader.balances_loop] in H.
    bind_ok H. bind_ok H.
    destruct (a0 =? "OK")%string; simpl in H; repeat bind_ok H;
      match goal with
      | E : slot_getitem balance "wallet_address" = Ok ?x,
        E' : pd_set ?x _ wallets = Ok ?w |- _ =>
          pose proof (Hall balance x (or_introl eq_refl) E) as Hx;
          rewrite (IH _ _ H);
          [apply (pd_set_present_keys _ _ _ _ E' Hx)|];
          intros s address Hin Hs;
          apply (pd_set_keeps _ _ _ _ _ E');
          apply (Hall s address (or_intror Hin) Hs)
      end.
Qed.

Section Transactions.

Variable datetime : Type.
Variable fromtimestamp_ms : pyval -> result datetime.
Variable fromtimestamp : Z -> result datetime.

Lemma tron_transfers_keys transactions : forall trns wallets wallets',
  TronWalletReader.transfers_loop datetime fromtimestamp_ms transactions
    trns wallets = Ok wallets' ->
  map fst wallets' = map fst wallets.
Proof.
  induction trns as [|trn rest IH]; intros wallets wallets' H.
  - simpl in H. injection H as <-. reflexivity.
  - cbn [TronWalletReader.transfers_loop] in H. bind_ok H.
    destruct (negb a); simpl in H; [apply (IH _ _ H)|].
    bind_ok H. destruct a0 as [trn_from value]. repeat bind_ok H.
    rewrite (IH _ _ H).
    match goal with
    | E : pd_get ?x wallets = Ok _ |- _ =>
        apply pd_insert_present_keys; apply (pd_get_present _ _ _ E)
    end.
Qed.

Lemma tron_transactions_keys : forall raw_data wallets wallets',
  TronWalletReader.transactions_loop datetime fromtimestamp_ms raw_data
    wallets = Ok wallets' ->
  map fst wallets' = map fst wallets.
Proof.
  induction raw_data as [|transactions rest IH]; intros wallets wallets' H.
  - simpl in H. injection H as <-. reflexivity.
  - cbn [TronWalletReader.transactions_loop] in H. bind_ok H.
    destruct (negb (truthy a)); simpl in H; repeat bind_ok H.
    + apply (IH _ _ H).
    + rewrite (IH _ _ H).
      match goal with
      | E : TronWalletReader.transfers_loop _ _ _ _ wallets = Ok _ |- _ =>
          apply (tron_transfers_keys _ _ _ _ E)
      end.
Qed.

Lemma bsc_transfers_keys transactions : forall trns wallets wallets',
  BscScanWalletReader.transfers_loop datetime fromtimestamp transactions
    trns wallets = Ok wallets' ->
  map fst wallets' = map fst wallets.
Proof.
  induction trns as [|trn rest IH]; intros wallets wallets' H.
  - simpl in H. injection H as <-. reflexivity.
  - cbn [BscScanWalletReader.transfers_loop] in H. bind_ok H.
    destruct (negb a); simpl in H; [apply (IH _ _ H)|].
    bind_ok H. destruct a0 as [trn_from value]. repeat bind_ok H.
    rewrite (IH _ _ H).
    match goal with
    | E : pd_get ?x wallets = Ok _ |- _ =>
        apply pd_insert_present_keys; apply (pd_get_present _ _ _ E)
    end.
Qed.

Lemma bsc_transactions_keys : forall raw_data wallets wallets',
  BscScanWalletReader.transactions_loop datetime fromtimestamp raw_data
    wallets = Ok wallets' ->
  map fst wallets' = map fst wallets.
Proof.
  induction raw_data as [|transactions rest IH]; intros wallets wallets' H.
  - simpl in H. injection H as <-. reflexivity.
  - cbn [BscScanWalletReader.transactions_loop] in H. bind_ok H.
    destruct a; simpl in H; repeat bind_ok H.
    + apply (IH _ _ H).
    + rewrite (IH _ _ H).
      match goal with
      | E : BscScanWalletReader.transfers_loop _ _ _ _ wallets = Ok _ |- _ =>
          apply (bsc_transfers_keys _ _ _ _ E)
      end.
Qed.

End Transactions.

(** The dict a comprehension over distinct [str] keys starts from. *)
Lemma fresh_dict {V} (x : V) (ws : list string) :
  NoDup ws ->
  exists d : pydict V,
    pd_comprehension (fun _ => x) (map PStr ws) [] = Ok d /\
    map fst d = map PStr ws.
Proof.
  intro Hnd.
  rewrite (pd_comprehension_strs (fun _ => x) ws [] Hnd)
    by (intros; reflexivity).
  eexists. split; [reflexivity|]. simpl. rewrite map_map. reflexivity.
Qed.

End WalletFacts.

(** ** BscScan balances, completed in order *)

Module LedgerFacts.

Import UrlReader Loop Spec InOrder Ledger DictFacts DispatchFacts.
Import TransactionFacts BalanceFacts FetchFacts BatchFacts.

Lemma pd_insert_app_miss {V} (w : string) (x y : V) (pre post : pydict V) :
  pd_lookup (PStr w) pre = None ->
  pd_insert (PStr w) y (pre ++ (PStr w, x) :: post)%list
  = (pre ++ (PStr w, y) :: post)%list.
Proof.
  induction pre as [|[k v] pre IH]; simpl.
  - intros _. rewrite String.eqb_refl. reflexivity.
  - destruct (py_eqb k (PStr w)); [discriminate|].
    intro H. rewrite (IH H). reflexivity.
Qed.

(** What the loop of [get_balances] does with a body that reports. *)
Lemma bsc_reported_body wallet d z rest st :
  bsc_reported d z ->
  BscScanWalletReader.balances_loop (tagged wallet d :: rest) st
  = BscScanWalletReader.balances_loop rest (pd_insert (PStr wallet) z st).
Proof.
  intros [Hfresh [message [Hm Hcase]]].
  assert (Gm : getitem (PDict (dict_set "wallet_address" (PStr wallet) d))
                 "message" = Ok (PStr message)).
  { simpl. rewrite lookup_dict_set_other by discriminate.
    rewrite Hm. reflexivity. }
  assert (Ga : getitem (PDict (dict_set "wallet_address" (PStr wallet) d))
                 "wallet_address" = Ok (PStr wallet)).
  { simpl. rewrite lookup_dict_set. reflexivity. }
  unfold tagged. cbn [BscScanWalletReader.balances_loop slot_getitem].
  rewrite Gm. cbn [bind py_upper].
  destruct Hcase as [[Hok [held [Hr Hz]]]|[Hno ->]].
  - rewrite Hok. cbn [String.eqb Ascii.eqb Bool.eqb].
    assert (Gr : getitem (PDict (dict_set "wallet_address" (PStr wallet) d))
                   "result" = Ok held).
    { simpl. rewrite lookup_dict_set_other by discriminate.
      rewrite Hr. reflexivity. }
    rewrite Gr. cbn [bind]. rewrite Hz. cbn [bind]. rewrite Ga.
    reflexivity.
  - apply String.eqb_neq in Hno. rewrite Hno.
    cbn [slot_get get]. rewrite lookup_dict_set_other by discriminate.
    rewrite Hm. cbn [bind]. rewrite Ga. reflexivity.
Qed.

(** What the loop of [TronWalletReader.get_balances] does with a body
    that reports. *)
Lemma first_trc20_none accounts :
  Forall no_tokens accounts ->
  TronWalletReader.first_trc20 accounts = Ok PNone.
Proof.
  induction 1 as [|account accounts [tokens [Ht Hf]] _ IH]; simpl;
    [reflexivity|].
  rewrite Ht. cbn [bind]. rewrite Hf. exact IH.
Qed.

Lemma first_trc20_found before account after tokens :
  Forall no_tokens before ->
  getitem account "trc20" = Ok tokens -> truthy tokens = true ->
  TronWalletReader.first_trc20 (before ++ account :: after) = Ok account.
Proof.
  intros Hb Ht Htr.
  induction Hb as [|a before [tokens' [Ht' Hf']] _ IH]; simpl.
  - rewrite Ht. cbn [bind]. rewrite Htr. reflexivity.
  - rewrite Ht'. cbn [bind]. rewrite Hf'. exact IH.
Qed.

Lemma first_amount_none contract entries :
  Forall (lacks contract) entries ->
  TronWalletReader.first_amount contract entries = Ok (PInt 0).
Proof.
  induction 1 as [|entry entries [held [Hg Hf]] _ IH]; simpl;
    [reflexivity|].
  rewrite Hg. cbn [bind]. rewrite Hf. exact IH.
Qed.

Lemma get_default entry contract held default :
  get entry contract PNone = Ok held -> truthy held = true ->
  get entry contract default = Ok held.
Proof.
  unfold get. destruct entry; try discriminate.
  destruct (lookup contract d); [auto|].
  intros H Ht. injection H as <-. discriminate Ht.
Qed.

Lemma first_amount_found contract before entry after held :
  Forall (lacks contract) before ->
  get entry contract PNone = Ok held -> truthy held = true ->
  TronWalletReader.first_amount contract (before ++ entry :: after)
  = Ok held.
Proof.
  intros Hb Hg Ht.
  induction Hb as [|a before [held' [Hg' Hf']] _ IH]; simpl.
  - rewrite Hg. cbn [bind]. rewrite Ht.
    apply get_default; assumption.
  - rewrite Hg'. cbn [bind]. rewrite Hf'. exact IH.
Qed.

Lemma tron_reported_body contract wallet d z rest st :
  tron_reported contract d z ->
  TronWalletReader.balances_loop contract (tagged wallet d :: rest) st
  = TronWalletReader.balances_loop contract rest
      (pd_insert (PStr wallet) z st).
Proof.
  intros [Hfresh [success [Hs Hcase]]].
  assert (Gs : getitem (PDict (dict_set "wallet_address" (PStr wallet) d))
                 "success" = Ok success).
  { simpl. rewrite lookup_dict_set_other by discriminate.
    rewrite Hs. reflexivity. }
  assert (Ga : getitem (PDict (dict_set "wallet_address" (PStr wallet) d))
                 "wallet_address" = Ok (PStr wallet)).
  { simpl. rewrite lookup_dict_set. reflexivity. }
  unfold tagged. cbn [TronWalletReader.balances_loop slot_getitem].
  rewrite Gs. cbn [bind].
  destruct Hcase as [[Hf [[err He] ->]]|[Ht [data [accounts [Hd [Hi Hh]]]]]].
  - rewrite Hf. cbn [negb]. rewrite Ga. cbn [bind pd_set hashable].
    assert (Ge : getitem (PDict (dict_set "wallet_address" (PStr wallet) d))
                   "error" = Ok err).
    { simpl. rewrite lookup_dict_set_other by discriminate.
      rewrite He. reflexivity. }
    rewrite Ge. reflexivity.
  - rewrite Ht. cbn [negb].
    assert (Gd : getitem (PDict (dict_set "wallet_address" (PStr wallet) d))
                   "data" = Ok data).
    { simpl. rewrite lookup_dict_set_other by discriminate.
      rewrite Hd. reflexivity. }
    rewrite Gd. cbn [bind]. rewrite Hi. cbn [bind].
    destruct Hh as [[Hnone ->]|
                    [before [account [after [tokens [entries
                       [-> [Hb [Hk [Htk [Hit Ham]]]]]]]]]]].
    + rewrite (first_trc20_none _ Hnone). cbn [bind truthy].
      rewrite Ga. reflexivity.
    + rewrite (first_trc20_found before account after tokens Hb Hk Htk).
      cbn [bind].
      assert (Hacc : truthy account = true).
      { destruct account; try discriminate Hk.
        destruct d0; [discriminate Hk|reflexivity]. }
      rewrite Hacc, Hk. cbn [bind]. rewrite Hit. cbn [bind].
      destruct Ham as [[Hl ->]|
                       [eb [entry [ea [held [-> [Hl [Hg [Hth Hz]]]]]]]]].
      * rewrite (first_amount_none _ _ Hl). cbn [bind py_int].
        rewrite Ga. reflexivity.
      * rewrite (first_amount_found contract eb entry ea held Hl Hg Hth).
        cbn [bind]. rewrite Hz. cbn [bind]. rewrite Ga. reflexivity.
Qed.

Section InOrder.

(** The loop of a [get_balances] and what a body reports to it. *)
Variable loop : list slot -> pydict Z -> result (pydict Z).
Variable reported : list (string * pyval) -> Z -> Prop.

Hypothesis loop_nil : forall st, loop [] st = Ok st.
Hypothesis loop_body : forall wallet d z rest st,
  reported d z ->
  loop (tagged wallet d :: rest) st
  = loop rest (pd_insert (PStr wallet) z st).

Lemma loop_in_order : forall items pre previous,
  in_order reported previous items ->
  NoDup (map wallet_of items) ->
  (forall w, In w (map wallet_of items) -> pd_lookup (PStr w) pre = None) ->
  (forall s rest,
      previous = Some s ->
      loop (s :: rest) (pre ++ map zero_of items)%list
      = loop rest (pre ++ map zero_of items)%list) ->
  loop (map snd items) (pre ++ map zero_of items)%list
  = Ok (pre ++ map entry_of items)%list.
Proof.
  induction items as [|[[w z] s] items IH];
    intros pre previous Hin Hnd Hpre Hprev.
  - simpl. apply loop_nil.
  - cbn [in_order] in Hin. destruct Hin as [Hcase Hrest].
    cbn [map wallet_of fst snd] in Hnd, Hpre.
    inversion Hnd as [|? ? Hnotin Hnd']; subst.
    assert (Hw : pd_lookup (PStr w) pre = None)
      by (apply Hpre; left; reflexivity).
    assert (Hmiss : forall x : Z,
               (forall w', In w' (map wallet_of items) ->
                           pd_lookup (PStr w') (pre ++ [(PStr w, x)])%list
                           = None)).
    { intros x w' Hw'. apply pd_lookup_snoc.
      - apply Hpre. right. exact Hw'.
      - simpl. apply String.eqb_neq. intro E. subst w'.
        apply Hnotin. exact Hw'. }
    cbn [map snd zero_of entry_of fst].
    destruct Hcase as [[d [-> Hrep]]|[-> Hs]].
    + rewrite (loop_body w d z _ _ Hrep).
      rewrite (pd_insert_app_miss w 0 z pre _ Hw).
      specialize (IH (pre ++ [(PStr w, z)])%list (Some (tagged w d)) Hrest
                    Hnd' (Hmiss z)).
      rewrite <- !app_assoc in IH. cbn [app] in IH. apply IH.
      intros s rest E. assert (s = tagged w d) as -> by congruence.
      rewrite (loop_body w d z _ _ Hrep).
      rewrite (pd_insert_app_miss w z z pre _ Hw). reflexivity.
    + rewrite (Hprev s _ Hs).
      specialize (IH (pre ++ [(PStr w, 0)])%list (Some s) Hrest Hnd'
                    (Hmiss 0)).
      rewrite <- !app_assoc in IH. cbn [app] in IH. apply IH.
      intros s' rest E. assert (s' = s) as -> by congruence.
      apply (Hprev s rest Hs).
Qed.

(** From positions to the list. *)
Lemma skipn_cons {A} (l : list A) : forall k x l',
  skipn k l = x :: l' -> nth_error l k = Some x /\ skipn (S k) l = l'.
Proof.
  induction l as [|a l IH]; intros k x l' H.
  - destruct k; discriminate H.
  - destruct k as [|k]; simpl in *.
    + injection H as -> ->. auto.
    + apply IH. exact H.
Qed.

Lemma zip3_in_order (ws : list string) (amounts : list Z)
  (slots : list slot) :
  (forall i w z,
      nth_error ws i = Some w -> nth_error amounts i = Some z ->
      (exists d, nth_error slots i = Some (tagged w d) /\ reported d z) \/
      (z = 0 /\ exists j, i = S j /\ nth_error slots i = nth_error slots j)) ->
  forall ws' zs' ss' k,
    skipn k ws = ws' -> skipn k amounts = zs' -> skipn k slots = ss' ->
    in_order reported
      (match k with O => None | S j => nth_error slots j end)
      (zip3 ws' zs' ss').
Proof.
  intros Hall. induction ws' as [|w ws' IH]; intros zs' ss' k Hw Hz Hs.
  - exact I.
  - destruct zs' as [|z zs']; [exact I|]. destruct ss' as [|s ss']; [exact I|].
    destruct (skipn_cons _ _ _ _ Hw) as [Hw1 Hw2].
    destruct (skipn_cons _ _ _ _ Hz) as [Hz1 Hz2].
    destruct (skipn_cons _ _ _ _ Hs) as [Hs1 Hs2].
    cbn [zip3 in_order]. split.
    + destruct (Hall k w z Hw1 Hz1) as [[d [Hd Hr]]|[-> [j [-> Hj]]]].
      * left. exists d. rewrite Hs1 in Hd. injection Hd as ->. auto.
      * right. split; [reflexivity|]. rewrite <- Hj. exact Hs1.
    + specialize (IH zs' ss' (S k) Hw2 Hz2 Hs2). cbn in IH.
      rewrite Hs1 in IH. exact IH.
Qed.

Lemma zip3_fst ws : forall zs ss,
  List.length zs = List.length ws -> List.length ss = List.length ws ->
  map wallet_of (zip3 ws zs ss) = ws /\
  map snd (zip3 ws zs ss) = ss /\
  map zero_of (zip3 ws zs ss) = map (fun w => (PStr w, 0)) ws /\
  map entry_of (zip3 ws zs ss) = combine (map PStr ws) zs.
Proof.
  induction ws as [|w ws IH]; intros [|z zs] [|s ss] Hz Hs;
    try discriminate; simpl.
  - auto.
  - injection Hz as Hz. injection Hs as Hs.
    destruct (IH zs ss Hz Hs) as [H1 [H2 [H3 H4]]].
    unfold wallet_of, zero_of, entry_of in *. simpl.
    rewrite H1, H2, H3, H4. auto.
Qed.

(** The batch as a whole. *)
Lemma balances_in_order (ws : list string) (amounts : list Z)
  (slots : list slot) :
  NoDup ws ->
  List.length amounts = List.length ws ->
  List.length slots = List.length ws ->
  (forall i w z,
      nth_error ws i = Some w -> nth_error amounts i = Some z ->
      (exists d, nth_error slots i = Some (tagged w d) /\ reported d z) \/
      (z = 0 /\ exists j, i = S j /\ nth_error slots i = nth_error slots j)) ->
  loop slots (map (fun w => (PStr w, 0)) ws)
  = Ok (combine (map PStr ws) amounts).
Proof.
  intros Hnd Hlen Hsl Hall.
  assert (Hin : in_order reported None (zip3 ws amounts slots))
    by (apply (zip3_in_order ws amounts slots Hall) with (k := O);
        reflexivity).
  destruct (zip3_fst ws amounts slots Hlen Hsl) as [Z1 [Z2 [Z3 Z4]]].
  pose proof (loop_in_order (zip3 ws amounts slots) [] None Hin) as H.
  rewrite Z1, Z2, Z3, Z4 in H. cbn [app] in H. apply H.
  - exact Hnd.
  - reflexivity.
  - intros s rest Hs. discriminate Hs.
Qed.

End InOrder.

End LedgerFacts.

(** ** Wallets as dict keys *)

Module KeyFacts.

Import DictFacts TransactionFacts BalanceFacts RateFacts.

Lemma pd_lookup_insert_str {V} (w w' : string) (x : V) (d : pydict V) :
  pd_lookup (PStr w) (pd_insert (PStr w') x d)
  = if (w' =? w)%string then Some x else pd_lookup (PStr w) d.
Proof.
  induction d as [|[k v] d IH]; simpl.
  - reflexivity.
  - destruct (py_eqb k (PStr w')) eqn:E; simpl.
    + apply py_eqb_str in E. subst k. simpl.
      destruct (w' =? w)%string; reflexivity.
    + rewrite IH. destruct (py_eqb k (PStr w)) eqn:E'; [|reflexivity].
      apply py_eqb_str in E'. subst k. simpl in E.
      destruct (w' =? w)%string eqn:E''; [|reflexivity].
      apply String.eqb_eq in E''. subst w'.
      rewrite String.eqb_refl in E. discriminate E.
Qed.

Lemma pd_lookup_key {V} (k : pyval) (d : pydict V) :
  hashable k = true -> In k (map fst d) -> pd_lookup k d <> None.
Proof.
  intro Hh. induction d as [|[a v] d IH]; simpl; [intros []|].
  intros [->|Hin].
  - rewrite (py_eqb_refl_hashable k Hh). discriminate.
  - destruct (py_eqb a k); [discriminate|]. apply IH. exact Hin.
Qed.

Lemma pd_insert_keys {V} (w : string) (x : V) (d : pydict V) :
  NoDup (map fst d) ->
  NoDup (map fst (pd_insert (PStr w) x d)) /\
  forall k, In k (map fst (pd_insert (PStr w) x d))
            <-> k = PStr w \/ In k (map fst d).
Proof.
  intro Hnd. destruct (pd_lookup (PStr w) d) as [v|] eqn:E.
  - assert (Hk : map fst (pd_insert (PStr w) x d) = map fst d).
    { apply WalletFacts.pd_insert_present_keys. congruence. }
    rewrite Hk. split; [exact Hnd|].
    intro k. split; [auto|]. intros [->|H]; [|exact H].
    destruct (pd_lookup_In_key _ _ _ E) as [k' [Hin Hk']].
    apply py_eqb_str in Hk'. subst k'.
    apply (in_map fst) in Hin. exact Hin.
  - rewrite (pd_insert_fresh _ x _ E). rewrite map_app. simpl. split.
    + apply NoDup_app; [exact Hnd|repeat constructor; intros []|].
      intros k Hin [<-|[]].
      apply (pd_lookup_key (PStr w) d eq_refl Hin). exact E.
    + intro k. rewrite in_app_iff. simpl. intuition congruence.
Qed.

(** A comprehension over [str] keys: every key is there once, with the
    value of the expression at that key. *)
Lemma pd_comprehension_str_keys {V} (f : pyval -> V) (strs : list string) :
  forall acc,
    NoDup (map fst acc) ->
    exists d,
      pd_comprehension f (map PStr strs) acc = Ok d /\
      NoDup (map fst d) /\
      (forall k, In k (map fst d)
                 <-> In k (map PStr strs) \/ In k (map fst acc)).
Proof.
  induction strs as [|s strs IH]; intros acc Hnd.
  - exists acc. simpl. split; [reflexivity|]. split; [exact Hnd|]. tauto.
  - cbn [map pd_comprehension pd_set hashable bind].
    destruct (pd_insert_keys s (f (PStr s)) acc Hnd) as [Hnd' Hkeys].
    destruct (IH _ Hnd') as [d [E [Hd Hk]]].
    exists d. split; [exact E|]. split; [exact Hd|].
    intro k. rewrite Hk, Hkeys. simpl. intuition congruence.
Qed.

Lemma pd_comprehension_str_lookup {V} (f : pyval -> V)
  (strs : list string) : forall acc d w,
  pd_comprehension f (map PStr strs) acc = Ok d ->
  pd_lookup (PStr w) d
  = if existsb (String.eqb w) strs then Some (f (PStr w))
    else pd_lookup (PStr w) acc.
Proof.
  induction strs as [|s strs IH]; intros acc d w E.
  - simpl in E. injection E as <-. reflexivity.
  - cbn [map pd_comprehension pd_set hashable bind] in E.
    rewrite (IH _ _ w E). rewrite pd_lookup_insert_str. simpl.
    rewrite (String.eqb_sym w s).
    destruct (existsb (String.eqb w) strs); [rewrite orb_true_r; reflexivity|].
    rewrite orb_false_r.
    destruct (s =? w)%string eqn:Es; [|reflexivity].
    apply String.eqb_eq in Es. subst s. reflexivity.
Qed.

(** A comprehension over keys of which one cannot be hashed raises. *)
Lemma pd_comprehension_unhashable {V} (f : pyval -> V) (keys : list pyval) :
  existsb (fun k => negb (hashable k)) keys = true ->
  forall acc, pd_comprehension f keys acc = Raise TypeError.
Proof.
  induction keys as [|k keys IH]; [discriminate|].
  simpl. intros H acc. unfold pd_set.
  destruct (hashable k); simpl in *; [apply IH; exact H|reflexivity].
Qed.

Lemma pd_insert_same_keys {V W} (k : pyval) (x : V) (y : W) :
  forall (d : pydict V) (d' : pydict W),
    map fst d = map fst d' ->
    map fst (pd_insert k x d) = map fst (pd_insert k y d').
Proof.
  induction d as [|[a v] d IH]; intros [|[a' v'] d'] H;
    try discriminate H; simpl.
  - reflexivity.
  - simpl in H. injection H as <- H.
    destruct (py_eqb a k); simpl; [rewrite H; reflexivity|].
    rewrite (IH d' H). reflexivity.
Qed.

Lemma pd_comprehension_same_keys {V W} (f : pyval -> V) (g : pyval -> W)
  (keys : list pyval) : forall acc acc' d d',
  map fst acc = map fst acc' ->
  pd_comprehension f keys acc = Ok d ->
  pd_comprehension g keys acc' = Ok d' ->
  map fst d = map fst d'.
Proof.
  induction keys as [|k keys IH]; intros acc acc' d d' H E E'; simpl in *.
  - injection E as <-. injection E' as <-. exact H.
  - unfold pd_set in *. destruct (hashable k); [|discriminate E].
    simpl in *. apply (IH _ _ _ _ (pd_insert_same_keys k _ _ _ _ H) E E').
Qed.

End KeyFacts.

(** ** A batch of one task *)

Module SingleFacts.

Import UrlReader Loop Spec InOrder LoopFacts.

Lemma steps_add k j tk state :
  steps (k + j) tk state = steps k tk (steps j tk state).
Proof. unfold steps. apply Nat.iter_add. Qed.

Lemma steps_done k tk self s :
  steps k tk (self, Done s) = (self, Done s).
Proof.
  induction k as [|k IH]; [reflexivity|].
  unfold steps in *. simpl. rewrite IH. reflexivity.
Qed.

Lemma three_steps tk self :
  exists self' s, steps 3 tk (self, Created) = (self', Done s).
Proof.
  unfold steps. simpl.
  destruct (prologue self (t_url tk) (t_params tk) (t_headers tk))
    as [s1 [rq|e]]; simpl.
  - destruct (try_suite s1 rq (t_key tk) (t_name tk) (t_outcome tk))
      as [[s2 inflight] resp]; simpl.
    destruct (except_suite s2 inflight resp) as [s3 inflight3]; simpl.
    eauto.
  - eauto.
Qed.

Lemma steps_settled k tk self :
  steps (k + 3) tk (self, Created) = steps 3 tk (self, Created).
Proof.
  rewrite steps_add.
  destruct (three_steps tk self) as [self' [s E]]. rewrite E.
  apply steps_done.
Qed.

Lemma step_nth_single tk i self st :
  step_nth [tk] i self [st]
  = match i with
    | O => (fst (step self tk st), [snd (step self tk st)])
    | S _ => (self, [st])
    end.
Proof.
  destruct i as [|i]; simpl.
  - destruct (step self tk st). reflexivity.
  - destruct i; reflexivity.
Qed.

Lemma run_single tk schedule : forall self st,
  run [tk] schedule self [st]
  = (fst (steps (turns schedule) tk (self, st)),
     [snd (steps (turns schedule) tk (self, st))]).
Proof.
  induction schedule as [|i rest IH]; intros self st.
  - reflexivity.
  - cbn [run]. rewrite step_nth_single. destruct i as [|i].
    + cbn [turns].
      rewrite (IH (fst (step self tk st)) (snd (step self tk st))).
      replace (S (turns rest)) with (turns rest + 1)%nat by lia.
      rewrite (steps_add (turns rest) 1 tk (self, st)).
      unfold steps at 3 6. simpl.
      destruct (step self tk st). reflexivity.
    + cbn [turns]. apply IH.
Qed.

(** The order of completion does not matter to a batch of one task. *)
Lemma settle_single tk schedule self :
  settle [tk] schedule self = settle [tk] [] self.
Proof.
  assert (G : forall schedule,
             settle [tk] schedule self
             = (fst (steps 3 tk (self, Created)),
                [snd (steps 3 tk (self, Created))])).
  { clear schedule. intro schedule. unfold settle, finish_all.
    cbn [List.length seq repeat flat_map app].
    rewrite (run_single tk [0%nat] self Created).
    rewrite (run_single tk schedule).
    rewrite <- surjective_pairing, <- steps_add.
    rewrite (run_single tk [0%nat; 0%nat]).
    rewrite <- surjective_pairing, <- steps_add.
    cbn [turns].
    replace (2 + (turns schedule + 1))%nat
      with (turns schedule + 3)%nat by lia.
    rewrite steps_settled. reflexivity. }
  rewrite (G schedule), (G []). reflexivity.
Qed.

Lemma gather_single tasks schedule self :
  (List.length tasks <= 1)%nat ->
  gather tasks schedule self = gather tasks [] self.
Proof.
  intro H. destruct tasks as [|tk [|tk' tasks]].
  - unfold gather, settle. simpl.
    assert (G : forall schedule s,
               run [] schedule s [] = (s, [])).
    { clear. induction schedule as [|i rest IH]; intro s; simpl;
        [reflexivity|apply IH]. }
    rewrite G. reflexivity.
  - unfold gather. rewrite settle_single. reflexivity.
  - simpl in H. lia.
Qed.

End SingleFacts.

(* ===================================================================== *)
(** * Further properties                                                  *)
(* ===================================================================== *)

Import Shape InOrder StringFacts FetchFacts GatherFacts InOrderFacts BatchFacts.
Import RateFacts WalletFacts Ledger LedgerFacts KeyFacts SingleFacts.

(** ** Target sets *)

(** X1. The target-set idiom [''.join(value.split()).split(',')] loses
    nothing but whitespace: joining the targets with commas gives the
    value back with its whitespace deleted. There is always at least one
    target (an empty value gives one empty target), and no target holds
    whitespace or a comma. *)
Theorem targets_are_the_comma_separated_fields (value : string) :
  join "," (split_targets value) = remove_spaces value /\
  split_targets value <> [] /\
  Forall (fun target => has_char is_separator target = false)
         (split_targets value).
Proof.
  unfold split_targets, split_on. split; [|split].
  - apply (join_split_on_acc "," (remove_spaces value) "").
  - destruct (split_on_acc_cons "," (remove_spaces value) "")
      as [x [rest H]].
    rewrite H. discriminate.
  - apply split_on_acc_fields; [apply has_char_remove_spaces|reflexivity].
Qed.

(** ** One call of [_get_raw_data] *)

(** X2. When the sleep or the request itself raises, whatever the
    exception, the call returns [None] and logs nothing: the handler's
    own log call reads [response], which is not bound, and the [return]
    of the [finally] suite discards the exception that results. The only
    trace is the request handed to the session, when the sleep went
    through. *)
Theorem request_that_raises_is_not_logged
  (self : t) (url params headers : pyval) (task_key : option string)
  (task_name : pyval) (e : exn) :
  truthy url = true \/ truthy (__url self) = true ->
  _get_raw_data self url params headers task_key task_name (SleepRaises e)
  = (set_result self PNone, Ok PNone) /\
  _get_raw_data self url params headers task_key task_name (GetRaises e)
  = (emit (set_result self PNone)
       (Session_get (py_or url (__url self)) (py_or params (__params self))
          (py_or headers (__headers self))),
     Ok PNone).
Proof.
  intro Hurl. unfold _get_raw_data, prologue.
  rewrite (url_available self url Hurl).
  split; simpl; destruct e; reflexivity.
Qed.

Lemma request_that_raises_is_not_logged_witness :
  _get_raw_data (init (PStr DEFAULTS.GARANTEX_API_URL) PNone PNone JSON)
    PNone PNone PNone None PNone (SleepRaises CancelledError)
  = (init (PStr DEFAULTS.GARANTEX_API_URL) PNone PNone JSON, Ok PNone).
Proof.
  apply (request_that_raises_is_not_logged
           (init (PStr DEFAULTS.GARANTEX_API_URL) PNone PNone JSON)
           PNone PNone PNone None PNone CancelledError).
  right. reflexivity.
Defined.

(** X3. In HTML mode a call that gets a response returns the text of
    the response, whatever the task key and name and even if leaving the
    response raises; it returns [None] when reading the text raises. The
    task key is never mixed in. *)
Theorem html_mode_returns_the_page_text
  (self : t) (url params headers : pyval) (task_key : option string)
  (task_name : pyval) (r : response) :
  truthy url = true \/ truthy (__url self) = true ->
  __mode self = HTML ->
  snd (_get_raw_data self url params headers task_key task_name
         (Responded r))
  = Ok (match resp_text r with
        | Ok body => PStr body
        | Raise _ => PNone
        end).
Proof.
  intros Hurl Hmode.
  rewrite (returned_value self url params headers task_key task_name r Hurl).
  rewrite with_suite_html; [|exact Hmode].
  destruct (resp_text r); reflexivity.
Qed.

Lemma html_mode_returns_the_page_text_witness :
  snd (_get_raw_data (init PNone PNone PNone HTML)
         (PStr "https://www.xe.com/") PNone PNone (Some "wallet_address")
         (PStr "TA") (Responded (page_response "<html></html>")))
  = Ok (PStr "<html></html>").
Proof.
  apply (html_mode_returns_the_page_text (init PNone PNone PNone HTML)
           (PStr "https://www.xe.com/") PNone PNone (Some "wallet_address")
           (PStr "TA") (page_response "<html></html>")).
  - left. reflexivity.
  - reflexivity.
Defined.

(** X4. In JSON mode, a body that decodes to something other than an
    object (a list, a string, a number, [null]) is returned as decoded,
    whatever the task key: the assignment of the key raises inside the
    [try] suite and the [finally] suite returns the payload without
    it. *)
Theorem payload_that_is_no_object_is_returned_as_decoded
  (self : t) (url params headers : pyval) (task_key : option string)
  (task_name : pyval) (r : response) (v0 : pyval) :
  truthy url = true \/ truthy (__url self) = true ->
  __mode self = JSON ->
  resp_json r = Ok v0 ->
  (forall d, v0 <> PDict d) ->
  snd (_get_raw_data self url params headers task_key task_name
         (Responded r))
  = Ok v0.
Proof.
  intros Hurl Hmode Hjson Hv.
  rewrite (returned_value self url params headers task_key task_name r Hurl).
  rewrite (with_suite_no_object _ task_key task_name r v0); [reflexivity| |exact Hv].
  unfold decode. simpl. rewrite Hmode. exact Hjson.
Qed.

Lemma payload_that_is_no_object_is_returned_as_decoded_witness :
  snd (_get_raw_data (init (PStr DEFAULTS.TRON_API_URL) PNone PNone JSON)
         PNone PNone PNone (Some "wallet_address") (PStr "TA")
         (Responded (ok_response (PList [PInt 1; PInt 2]))))
  = Ok (PList [PInt 1; PInt 2]).
Proof.
  apply (payload_that_is_no_object_is_returned_as_decoded
           (init (PStr DEFAULTS.TRON_API_URL) PNone PNone JSON)
           PNone PNone PNone (Some "wallet_address") (PStr "TA")
           (ok_response (PList [PInt 1; PInt 2])) (PList [PInt 1; PInt 2])).
  - right. reflexivity.
  - reflexivity.
  - reflexivity.
  - intros d H. discriminate H.
Defined.

(** X5. In JSON mode, when the body decodes to an object that does not
    have the task key, the value returned has the task name under the
    task key and every other key as the body had it, even if leaving the
    response raises afterwards. *)
Theorem task_key_is_added_and_nothing_else_changes
  (self : t) (url params headers : pyval) (k : string)
  (task_name : pyval) (r : response) (d : list (string * pyval)) :
  truthy url = true \/ truthy (__url self) = true ->
  __mode self = JSON ->
  resp_json r = Ok (PDict d) ->
  k <> EmptyString ->
  lookup k d = None ->
  exists v,
    snd (_get_raw_data self url params headers (Some k) task_name
           (Responded r)) = Ok v /\
    getitem v k = Ok task_name /\
    forall k', k' <> k -> getitem v k' = getitem (PDict d) k'.
Proof.
  intros Hurl Hmode Hjson Hk Hfresh.
  rewrite (returned_value self url params headers (Some k) task_name r Hurl).
  rewrite (with_suite_tags _ k task_name r d); try assumption.
  - eexists. split; [reflexivity|]. split.
    + simpl. rewrite DispatchFacts.lookup_dict_set. reflexivity.
    + intros k' Hne. simpl. rewrite lookup_dict_set_other; [reflexivity|exact Hne].
  - simpl. unfold decode. rewrite Hmode. exact Hjson.
Qed.

Lemma task_key_is_added_and_nothing_else_changes_witness :
  exists v,
    snd (_get_raw_data (init (PStr DEFAULTS.TRON_API_URL) PNone PNone JSON)
           PNone PNone PNone (Some "wallet_address") (PStr "TA")
           (Responded (ok_response (PDict (tron_account "5"))))) = Ok v /\
    getitem v "wallet_address" = Ok (PStr "TA") /\
    forall k', k' <> "wallet_address" ->
               getitem v k' = getitem (PDict (tron_account "5")) k'.
Proof.
  apply (task_key_is_added_and_nothing_else_changes
           (init (PStr DEFAULTS.TRON_API_URL) PNone PNone JSON)
           PNone PNone PNone "wallet_address" (PStr "TA")
           (ok_response (PDict (tron_account "5"))) (tron_account "5")).
  - right. reflexivity.
  - reflexivity.
  - reflexivity.
  - discriminate.
  - reflexivity.
Defined.

(** ** Batches whose requests complete one after the other *)

(** X6. Position for position: when the requests of a wallet batch
    complete one after the other (the empty schedule), the slot of a
    wallet whose response decodes to an object without
    ['wallet_address'] holds that very object with the wallet mixed in,
    whatever the other requests do. *)
Theorem in_order_slot_holds_the_wallets_own_payload
  (ws : list string) (tron : TronWalletReader.t)
  (bsc : BscScanWalletReader.t) (net : nat -> outcome)
  (i : nat) (w : string) (r : response) (d : list (string * pyval)) :
  NoDup ws ->
  __mode (TronWalletReader.base tron) = JSON ->
  __mode (BscScanWalletReader.base bsc) = JSON ->
  truthy (__url (TronWalletReader.base tron)) = true ->
  truthy (__url (BscScanWalletReader.base bsc)) = true ->
  nth_error ws i = Some w ->
  net i = Responded r ->
  resp_json r = Ok (PDict d) ->
  lookup "wallet_address" d = None ->
  let wallets := map PStr ws in
  let tron := fst (TronWalletReader.wallets_setter tron (PList wallets)) in
  let bsc := fst (BscScanWalletReader.wallets_setter bsc (PList wallets)) in
  let own := Some (SVal (PDict (dict_set "wallet_address" (PStr w) d))) in
  nth_error
    (snd (TronWalletReader.fetch_urls tron (TronWalletReader.urls tron)
            net [])) i = own /\
  nth_error
    (snd (TronWalletReader.fetch_urls tron (TronWalletReader.trnx_urls tron)
            net [])) i = own /\
  (exists slots,
      snd (BscScanWalletReader.fetch_urls bsc
             (BscScanWalletReader.balance_params_list bsc) net [])
      = Ok slots /\ nth_error slots i = own) /\
  (exists slots,
      snd (BscScanWalletReader.fetch_urls bsc
             (BscScanWalletReader.trnx_params_list bsc) net [])
      = Ok slots /\ nth_error slots i = own).
Proof.
  intros Hnd Hmt Hmb Hut Hub Hw Hnet Hj Hl wallets.
  destruct (tron_setter_strs tron ws Hnd)
    as [tron' [Hset [Hbase [Hws [Hurls Htrnx]]]]].
  fold wallets in Hset, Hws, Hurls, Htrnx. rewrite Hset. simpl fst.
  assert (Hwi : nth_error wallets i = Some (PStr w))
    by (unfold wallets; rewrite nth_error_map, Hw; reflexivity).
  rewrite <- Hbase in Hmt, Hut.
  split; [|split; [|split]].
  - rewrite <- Hurls in Hwi. destruct (nth_error_fst _ _ _ Hwi) as [u Hu].
    apply (proj1 (tron_fetch_in_order tron' _ net Hmt Hut) i _ u r d);
      assumption.
  - rewrite <- Htrnx in Hwi. destruct (nth_error_fst _ _ _ Hwi) as [u Hu].
    apply (proj1 (tron_fetch_in_order tron' _ net Hmt Hut) i _ u r d);
      assumption.
  - destruct (bsc_fetch_in_order
                (fst (BscScanWalletReader.wallets_setter bsc (PList wallets)))
                (BscScanWalletReader.balance_params bsc) wallets net (fun _ => eq_refl) Hmb Hub)
      as [slots [E [Ha _]]].
    exists slots. split; [exact E|]. apply (Ha i _ r d); assumption.
  - destruct (bsc_fetch_in_order
                (fst (BscScanWalletReader.wallets_setter bsc (PList wallets)))
                (BscScanWalletReader.trnx_params bsc) wallets net (fun _ => eq_refl) Hmb Hub)
      as [slots [E [Ha _]]].
    exists slots. split; [exact E|]. apply (Ha i _ r d); assumption.
Qed.

(** The second of two wallets, while the request of the first fails. *)
Lemma in_order_slot_holds_the_wallets_own_payload_witness :
  let net i :=
    match i with
    | O => GetRaises ClientError
    | _ => Responded (ok_response (PDict (tron_account "5")))
    end in
  let tron :=
    fst (TronWalletReader.wallets_setter blank_tron
           (PList [PStr "TA"; PStr "TB"])) in
  nth_error
    (snd (TronWalletReader.fetch_urls tron (TronWalletReader.urls tron)
            net [])) 1
  = Some (SVal (PDict (dict_set "wallet_address" (PStr "TB")
                         (tron_account "5")))).
Proof.
  intros net tron.
  assert (Hnd : NoDup ["TA"; "TB"]).
  { constructor; [simpl; intros [H|[]]; discriminate H|].
    constructor; [intros []|constructor]. }
  destruct (in_order_slot_holds_the_wallets_own_payload ["TA"; "TB"]
              blank_tron blank_bsc net 1 "TB"
              (ok_response (PDict (tron_account "5"))) (tron_account "5")
              Hnd eq_refl eq_refl eq_refl eq_refl eq_refl eq_refl eq_refl
              eq_refl)
    as [H _].
  exact H.
Defined.

(** X7. A failure is not kept apart: when the requests of a wallet
    batch complete one after the other and the response of wallet
    number [i] is not decoded (the sleep, the request or the decoding
    raised), its slot repeats the slot of the wallet before it; the slot
    of the first wallet is [None]. *)
Theorem in_order_failed_request_repeats_the_previous_slot
  (ws : list string) (tron : TronWalletReader.t)
  (bsc : BscScanWalletReader.t) (net : nat -> outcome) (i : nat) :
  NoDup ws ->
  __mode (TronWalletReader.base tron) = JSON ->
  __mode (BscScanWalletReader.base bsc) = JSON ->
  truthy (__url (TronWalletReader.base tron)) = true ->
  truthy (__url (BscScanWalletReader.base bsc)) = true ->
  (i < List.length ws)%nat ->
  undecoded JSON (net i) ->
  let wallets := map PStr ws in
  let tron := fst (TronWalletReader.wallets_setter tron (PList wallets)) in
  let bsc := fst (BscScanWalletReader.wallets_setter bsc (PList wallets)) in
  let repeats (slots : list slot) :=
    nth_error slots i
    = match i with
      | O => Some (SVal PNone)
      | S j => nth_error slots j
      end in
  repeats (snd (TronWalletReader.fetch_urls tron (TronWalletReader.urls tron)
                  net [])) /\
  repeats (snd (TronWalletReader.fetch_urls tron
                  (TronWalletReader.trnx_urls tron) net [])) /\
  (exists slots,
      snd (BscScanWalletReader.fetch_urls bsc
             (BscScanWalletReader.balance_params_list bsc) net [])
      = Ok slots /\ repeats slots) /\
  (exists slots,
      snd (BscScanWalletReader.fetch_urls bsc
             (BscScanWalletReader.trnx_params_list bsc) net [])
      = Ok slots /\ repeats slots).
Proof.
  intros Hnd Hmt Hmb Hut Hub Hi Hun wallets.
  destruct (tron_setter_strs tron ws Hnd)
    as [tron' [Hset [Hbase [Hws [Hurls Htrnx]]]]].
  fold wallets in Hset, Hws, Hurls, Htrnx. rewrite Hset. simpl fst.
  rewrite <- Hbase in Hmt, Hut.
  assert (Hlen : List.length wallets = List.length ws)
    by (unfold wallets; apply length_map).
  intro repeats. unfold repeats.
  split; [|split; [|split]].
  - apply (proj2 (tron_fetch_in_order tron' _ net Hmt Hut) i);
      [|exact Hun].
    rewrite <- (length_map fst), Hurls, Hlen. exact Hi.
  - apply (proj2 (tron_fetch_in_order tron' _ net Hmt Hut) i);
      [|exact Hun].
    rewrite <- (length_map fst), Htrnx, Hlen. exact Hi.
  - destruct (bsc_fetch_in_order
                (fst (BscScanWalletReader.wallets_setter bsc (PList wallets)))
                (BscScanWalletReader.balance_params bsc) wallets net (fun _ => eq_refl) Hmb Hub)
      as [slots [E [_ Hb]]].
    exists slots. split; [exact E|]. apply Hb; [lia|exact Hun].
  - destruct (bsc_fetch_in_order
                (fst (BscScanWalletReader.wallets_setter bsc (PList wallets)))
                (BscScanWalletReader.trnx_params bsc) wallets net (fun _ => eq_refl) Hmb Hub)
      as [slots [E [_ Hb]]].
    exists slots. split; [exact E|]. apply Hb; [lia|exact Hun].
Qed.

(** Two wallets, the request of the second failing: both slots hold the
    payload of the first. *)
Lemma in_order_failed_request_repeats_the_previous_slot_witness :
  let net i :=
    match i with
    | O => Responded (ok_response (PDict (tron_account "5")))
    | _ => GetRaises ClientError
    end in
  let tron :=
    fst (TronWalletReader.wallets_setter blank_tron
           (PList [PStr "TA"; PStr "TB"])) in
  let slots :=
    snd (TronWalletReader.fetch_urls tron (TronWalletReader.urls tron)
           net []) in
  nth_error slots 1 = nth_error slots 0.
Proof.
  intros net tron.
  assert (Hnd : NoDup ["TA"; "TB"]).
  { constructor; [simpl; intros [H|[]]; discriminate H|].
    constructor; [intros []|constructor]. }
  assert (Hi : (1 < List.length ["TA"; "TB"])%nat) by (simpl; lia).
  destruct (in_order_failed_request_repeats_the_previous_slot ["TA"; "TB"]
              blank_tron blank_bsc net 1
              Hnd eq_refl eq_refl eq_refl eq_refl Hi I)
    as [H _].
  exact H.
Defined.

(** X8. Pages, position for position: when the requests of
    [HTMLReader.get_pages] complete one after the other and every URL is
    a non-empty string, the slot of a URL holds the text of its own
    response; and when that text was not read (the sleep, the request or
    the reading raised), the slot repeats the page before it; the first
    slot is then [None]. *)
Theorem in_order_page_is_the_text_of_its_own_response
  (self : HTMLReader.t) (net : nat -> outcome) (i : nat) (url : pyval) :
  __mode (HTMLReader.base self) = HTML ->
  (forall u, In u (HTMLReader.__urls self) -> truthy u = true) ->
  nth_error (HTMLReader.__urls self) i = Some url ->
  let pages := snd (HTMLReader.get_pages self net []) in
  let previous :=
    match i with
    | O => Some (SVal PNone)
    | S j => nth_error pages j
    end in
  nth_error pages i
  = match net i with
    | Responded r =>
        match resp_text r with
        | Ok body => Some (SVal (PStr body))
        | Raise _ => previous
        end
    | _ => previous
    end.
Proof.
  intros Hm Hurls Hi. unfold HTMLReader.get_pages.
  assert (Hhas : forall tk,
             In tk (HTMLReader.tasks_of self (HTMLReader.__urls self) 0 net) ->
             has_url (HTMLReader.base self) tk = true).
  { intros tk Hin. destruct (html_tasks_in _ _ _ _ _ Hin) as [Hu _].
    unfold has_url, py_or. rewrite (Hurls _ Hu). apply Hurls. exact Hu. }
  pose proof (gather_in_order _ (HTMLReader.base self) Hhas) as H.
  pose proof (html_tasks_at self (HTMLReader.__urls self) 0 net i url Hi)
    as Htk.
  destruct (gather _ [] (HTMLReader.base self)) as [b pages].
  cbn [fst snd] in *. rewrite Hm in H. destruct H as [Ha Hb].
  destruct (net i) as [e|e|r] eqn:Enet.
  - apply (Hb i _ Htk). cbn [t_outcome]. simpl. rewrite Enet. exact I.
  - apply (Hb i _ Htk). cbn [t_outcome]. simpl. rewrite Enet. exact I.
  - destruct (resp_text r) as [body|e] eqn:Et.
    + destruct (Ha i _ r (PStr body) Htk) as [v [Hv Hleft]].
      * exact Enet.
      * unfold decode. simpl. rewrite Et. reflexivity.
      * rewrite Hv. cbn [t_key t_name t_outcome] in Hleft.
        destruct (left_by_page _ _ _ Hleft) as [r' [body' [Hr [Ht' ->]]]].
        simpl in Hr. rewrite Enet in Hr. injection Hr as <-.
        rewrite Et in Ht'. injection Ht' as <-. reflexivity.
    + apply (Hb i _ Htk). cbn [t_outcome]. simpl. rewrite Enet.
      exists e. unfold decode. simpl. rewrite Et. reflexivity.
Qed.

(** Two pages, the second one not answered. *)
Lemma in_order_page_is_the_text_of_its_own_response_witness :
  let net i :=
    match i with
    | O => Responded (page_response "<html>one</html>")
    | _ => GetRaises ClientError
    end in
  let self :=
    {| HTMLReader.base := init PNone PNone PNone HTML;
       HTMLReader.__urls := [PStr "https://czcb.com.cn/";
                             PStr "https://www.vl.ru/dengi/"] |} in
  let pages := snd (HTMLReader.get_pages self net []) in
  nth_error pages 0 = Some (SVal (PStr "<html>one</html>")) /\
  nth_error pages 1 = nth_error pages 0.
Proof.
  intros net self.
  assert (Hurls : forall u, In u (HTMLReader.__urls self) -> truthy u = true).
  { intros u [<-|[<-|[]]]; reflexivity. }
  split.
  - apply (in_order_page_is_the_text_of_its_own_response self net 0
             (PStr "https://czcb.com.cn/") eq_refl Hurls eq_refl).
  - apply (in_order_page_is_the_text_of_its_own_response self net 1
             (PStr "https://www.vl.ru/dengi/") eq_refl Hurls eq_refl).
Defined.

(** ** Batches, whatever the order of completion *)

(** X9. In what [HTMLReader.get_pages] returns, for any order of
    completion, the slot of a URL is an exception object exactly when
    the URL is falsy (the reader itself has no URL): it is then the
    [ValueError] raised before any request. *)
Theorem page_slot_is_an_exception_exactly_without_url
  (self : HTMLReader.t) (net : nat -> outcome) (schedule : list nat)
  (i : nat) (url : pyval) :
  truthy (__url (HTMLReader.base self)) = false ->
  nth_error (HTMLReader.__urls self) i = Some url ->
  exists s,
    nth_error (snd (HTMLReader.get_pages self net schedule)) i = Some s /\
    match s with
    | SExc e => e = ValueError /\ truthy url = false
    | SVal _ => truthy url = true
    end.
Proof.
  intros Hbase Hi. unfold HTMLReader.get_pages.
  pose proof (html_tasks_at self (HTMLReader.__urls self) 0 net i url Hi)
    as Htk.
  pose proof (gather_length
                (HTMLReader.tasks_of self (HTMLReader.__urls self) 0 net)
                schedule (HTMLReader.base self)) as Hlen.
  pose proof (fun s =>
                gather_exceptions
                  (HTMLReader.tasks_of self (HTMLReader.__urls self) 0 net)
                  schedule (HTMLReader.base self) i _ s Htk) as Hex.
  destruct (gather _ schedule (HTMLReader.base self)) as [b pages].
  cbn [fst snd] in *.
  destruct (slot_at _ pages i _ Hlen Htk) as [s Hs].
  exists s. split; [exact Hs|].
  specialize (Hex s Hs).
  assert (Hhas : has_url (HTMLReader.base self)
                   {| t_url := url;
                      t_params := __params (HTMLReader.base self);
                      t_headers := __headers (HTMLReader.base self);
                      t_key := None; t_name := PNone;
                      t_outcome := net (0 + i)%nat |}
                 = truthy url).
  { unfold has_url, py_or. cbn [t_url].
    destruct (truthy url) eqn:E; [exact E|exact Hbase]. }
  rewrite Hhas in Hex. exact Hex.
Qed.

(** An empty URL between two others. *)
Lemma page_slot_is_an_exception_exactly_without_url_witness :
  exists self,
    HTMLReader.init (PStr "https://czcb.com.cn/,,https://www.vl.ru/dengi/")
      PNone PNone = Ok self /\
    exists s,
      nth_error
        (snd (HTMLReader.get_pages self (fun _ => GetRaises ClientError)
                [2; 0; 1]%nat)) 1 = Some s /\
      match s with
      | SExc e => e = ValueError /\ truthy (PStr "") = false
      | SVal _ => truthy (PStr "") = true
      end.
Proof.
  eexists. split; [reflexivity|].
  apply (page_slot_is_an_exception_exactly_without_url _
           (fun _ => GetRaises ClientError) [2; 0; 1]%nat 1 (PStr ""));
    reflexivity.
Defined.

(** X10. [HTMLReader.get_pages] returns one slot per URL, for any order
    of completion, and every value in a slot is [None] or the text of
    the response to one of the URLs: nothing else is ever returned as a
    page. *)
Theorem every_page_is_the_text_of_some_response
  (self : HTMLReader.t) (net : nat -> outcome) (schedule : list nat) :
  __mode (HTMLReader.base self) = HTML ->
  let pages := snd (HTMLReader.get_pages self net schedule) in
  List.length pages = List.length (HTMLReader.__urls self) /\
  forall v,
    In (SVal v) pages ->
    v = PNone \/
    exists j url r body,
      nth_error (HTMLReader.__urls self) j = Some url /\
      net j = Responded r /\ resp_text r = Ok body /\ v = PStr body.
Proof.
  intro Hm. unfold HTMLReader.get_pages.
  pose proof (gather_length
                (HTMLReader.tasks_of self (HTMLReader.__urls self) 0 net)
                schedule (HTMLReader.base self)) as Hlen.
  pose proof (gather_sound
                (HTMLReader.tasks_of self (HTMLReader.__urls self) 0 net)
                HTML schedule (HTMLReader.base self)) as Hsound.
  destruct (gather _ schedule (HTMLReader.base self)) as [b pages].
  cbn [fst snd] in *. split.
  - rewrite Hlen. apply html_tasks_length.
  - intros v Hin. specialize (Hsound (SVal v) Hm Hin). simpl in Hsound.
    destruct Hsound as [Hv|[j [tk [Hnth Hleft]]]]; [left; exact Hv|].
    right.
    destruct (html_tasks_nth _ _ _ _ _ _ Hnth) as [url [Hu [_ [Hk Ho]]]].
    rewrite Hk in Hleft.
    destruct (left_by_page _ _ _ Hleft) as [r [body [Hr [Ht Hv]]]].
    exists j, url, r, body. simpl in Ho. rewrite <- Ho. auto.
Qed.

Lemma every_page_is_the_text_of_some_response_witness :
  let self :=
    {| HTMLReader.base := init PNone PNone PNone HTML;
       HTMLReader.__urls := [PStr "https://czcb.com.cn/";
                             PStr "https://www.vl.ru/dengi/"] |} in
  let net (_ : nat) := Responded (page_response "<html>one</html>") in
  List.length (snd (HTMLReader.get_pages self net [1; 0; 0; 1]%nat)) = 2%nat.
Proof.
  intros self net.
  apply (every_page_is_the_text_of_some_response self net [1; 0; 0; 1]%nat
           eq_refl).
Defined.

(** X11. A wallet batch never yields an exception object, for any order
    of completion: the reader has a URL, so no call raises, and a
    failure shows only as a value ([None] or a payload that is not the
    wallet's own). *)
Theorem wallet_batch_slots_are_never_exceptions
  (tron : TronWalletReader.t) (bsc : BscScanWalletReader.t)
  (urls : pydict string) (params : list pyval)
  (net : nat -> outcome) (schedule : list nat) (e : exn) :
  truthy (__url (TronWalletReader.base tron)) = true ->
  truthy (__url (BscScanWalletReader.base bsc)) = true ->
  ~ In (SExc e) (snd (TronWalletReader.fetch_urls tron urls net schedule)) /\
  (forall slots,
      snd (BscScanWalletReader.fetch_urls bsc params net schedule) = Ok slots ->
      ~ In (SExc e) slots).
Proof.
  intros Hut Hub.
  assert (Hgen : forall tasks self,
             truthy (__url self) = true ->
             ~ In (SExc e) (snd (gather tasks schedule self))).
  { intros tasks self Hu Hin.
    destruct (In_nth_error _ _ Hin) as [i Hi].
    pose proof (gather_length tasks schedule self) as Hlen.
    destruct (slot_at _ tasks i _ (eq_sym Hlen) Hi) as [tk Htk].
    pose proof (gather_exceptions tasks schedule self i tk _ Htk Hi) as H.
    simpl in H. destruct H as [_ H].
    rewrite (has_url_base self tk Hu) in H. discriminate H. }
  split.
  - unfold TronWalletReader.fetch_urls.
    specialize (Hgen (TronWalletReader.tasks_of tron urls 0 net)
                  (TronWalletReader.base tron) Hut).
    destruct (gather _ schedule (TronWalletReader.base tron)). exact Hgen.
  - intros slots. unfold BscScanWalletReader.fetch_urls.
    destruct (BscScanWalletReader.tasks_of bsc params 0 net) as [tasks|x];
      [|discriminate].
    specialize (Hgen tasks (BscScanWalletReader.base bsc) Hub).
    destruct (gather tasks schedule (BscScanWalletReader.base bsc)).
    simpl. intro H. injection H as <-. exact Hgen.
Qed.

Lemma wallet_batch_slots_are_never_exceptions_witness :
  let tron :=
    fst (TronWalletReader.wallets_setter blank_tron
           (PList [PStr "TA"; PStr "TB"])) in
  ~ In (SExc ValueError)
       (snd (TronWalletReader.fetch_urls tron (TronWalletReader.urls tron)
               (fun _ => GetRaises ClientError) [1; 0]%nat)).
Proof.
  intro tron.
  exact (proj1 (wallet_batch_slots_are_never_exceptions tron blank_bsc
                  (TronWalletReader.urls tron) []
                  (fun _ => GetRaises ClientError) [1; 0]%nat ValueError
                  eq_refl eq_refl)).
Defined.

(** ** The rate readers *)

(** X12. When the response is not decoded (the sleep, the request or the
    decoding raised), [GarantexReader.get_dom] returns [None], while
    [YahooReader.get_rates] and [MOEXReader.get_rates] raise [TypeError]:
    their comprehensions subscript [json_data] before the [if json_data]
    filter is reached. *)
Theorem rate_readers_when_nothing_was_fetched
  (decimal datetime : Type)
  (Decimal_of_str Decimal_of Decimal : pyval -> result decimal)
  (now : nat -> datetime)
  (fromisoformat fromtimestamp : pyval -> result datetime)
  (symbols market : pyval) (yahoo garantex : t) (moex : MOEXReader.t)
  (o : outcome) :
  YahooReader.init symbols = Ok yahoo ->
  MOEXReader.init symbols = Ok moex ->
  GarantexReader.init market = Ok garantex ->
  undecoded JSON o ->
  snd (YahooReader.get_rates decimal datetime Decimal_of_str now yahoo o)
  = Raise TypeError /\
  snd (MOEXReader.get_rates decimal datetime Decimal_of fromisoformat moex o)
  = Raise TypeError /\
  snd (GarantexReader.get_dom decimal datetime Decimal fromtimestamp
         garantex o)
  = Ok None.
Proof.
  intros Hy Hm Hg Hun.
  assert (Gy : truthy (__url yahoo) = true /\ __mode yahoo = JSON).
  { unfold YahooReader.init in Hy.
    destruct symbols; try discriminate Hy;
      match type of Hy with
      | bind ?c _ = _ => destruct c; [|discriminate Hy]
      end; simpl in Hy; injection Hy as <-; split; reflexivity. }
  assert (Gm : truthy (__url (MOEXReader.base moex)) = true /\
               __mode (MOEXReader.base moex) = JSON).
  { unfold MOEXReader.init in Hm.
    match type of Hm with
    | bind ?c _ = _ => destruct c; [|discriminate Hm]
    end; simpl in Hm; injection Hm as <-; split; reflexivity. }
  assert (Gg : truthy (__url garantex) = true /\ __mode garantex = JSON).
  { unfold GarantexReader.init in Hg.
    destruct (negb (is_str market)); [discriminate Hg|].
    injection Hg as <-. split; reflexivity. }
  destruct Gy as [Uy My], Gm as [Um Mm], Gg as [Ug Mg].
  split; [|split].
  - unfold YahooReader.get_rates.
    pose proof (undecoded_value yahoo (__url yahoo) (__params yahoo)
                  (__headers yahoo) PNone o (or_intror Uy)) as H.
    rewrite My in H. specialize (H Hun).
    destruct (_get_raw_data yahoo _ _ _ None PNone o) as [s out].
    simpl in H. subst out. reflexivity.
  - unfold MOEXReader.get_rates.
    pose proof (undecoded_value (MOEXReader.base moex)
                  (__url (MOEXReader.base moex))
                  (__params (MOEXReader.base moex))
                  (__headers (MOEXReader.base moex)) PNone o
                  (or_intror Um)) as H.
    rewrite Mm in H. specialize (H Hun).
    destruct (_get_raw_data (MOEXReader.base moex) _ _ _ None PNone o)
      as [s out].
    simpl in H. subst out. reflexivity.
  - unfold GarantexReader.get_dom.
    pose proof (undecoded_value garantex PNone PNone PNone PNone o
                  (or_intror Ug)) as H.
    rewrite Mg in H. specialize (H Hun).
    destruct (_get_raw_data garantex PNone PNone PNone None PNone o)
      as [s out].
    simpl in H. subst out. reflexivity.
Qed.

(** A connection that fails. *)
Lemma rate_readers_when_nothing_was_fetched_witness :
  exists yahoo moex garantex,
    YahooReader.init (PStr "USDRUB=X") = Ok yahoo /\
    MOEXReader.init (PStr "USDRUB=X") = Ok moex /\
    GarantexReader.init (PStr "usdtrub") = Ok garantex /\
    snd (YahooReader.get_rates Z Z py_int (fun n => Z.of_nat n) yahoo
           (GetRaises ClientError))
    = Raise TypeError /\
    snd (MOEXReader.get_rates Z Z py_int py_int moex (GetRaises ClientError))
    = Raise TypeError /\
    snd (GarantexReader.get_dom Z Z py_int py_int garantex
           (GetRaises ClientError))
    = Ok None.
Proof.
  do 3 eexists. split; [reflexivity|]. split; [reflexivity|].
  split; [reflexivity|].
  apply (rate_readers_when_nothing_was_fetched Z Z py_int py_int py_int
           (fun n => Z.of_nat n) py_int py_int (PStr "USDRUB=X")
           (PStr "usdtrub") _ _ _ (GetRaises ClientError)
           eq_refl eq_refl eq_refl I).
Defined.

(** X13. What the rate readers ask for. A reader fresh from its
    constructor, unless its sleep raises, hands exactly one request to
    the session: [YahooReader] its endpoint with the symbols joined by
    commas, [MOEXReader] its endpoint with the fixed ISS parameters
    whatever symbols were configured, [GarantexReader] the depth
    endpoint with the market; each with the user agent and the JSON
    content type. *)
Theorem rate_readers_send_what_was_configured
  (decimal datetime : Type)
  (Decimal_of_str Decimal_of Decimal : pyval -> result decimal)
  (now : nat -> datetime)
  (fromisoformat fromtimestamp : pyval -> result datetime)
  (strs : list string) (market : string) (o : outcome) :
  (forall e, o <> SleepRaises e) ->
  let headers :=
    PDict [("User-Agent", PStr DEFAULTS.USER_AGENT);
           ("Content-Type", PStr "application/json")] in
  (exists yahoo,
      YahooReader.init (PList (map PStr strs)) = Ok yahoo /\
      sent_only
        (Session_get (PStr DEFAULTS.YAHOO_API_URL)
           (PDict [("symbols", PStr (join "," strs))]) headers)
        (events
           (fst (YahooReader.get_rates decimal datetime Decimal_of_str now
                   yahoo o)))) /\
  (exists moex,
      MOEXReader.init (PList (map PStr strs)) = Ok moex /\
      sent_only
        (Session_get (PStr DEFAULTS.MOEX_API_URL) DEFAULTS.MOEX_API_PARAMS
           headers)
        (events
           (MOEXReader.base
              (fst (MOEXReader.get_rates decimal datetime Decimal_of
                      fromisoformat moex o))))) /\
  (exists garantex,
      GarantexReader.init (PStr market) = Ok garantex /\
      sent_only
        (Session_get (PStr DEFAULTS.GARANTEX_API_URL)
           (PDict [("market", PStr market)]) headers)
        (events
           (fst (GarantexReader.get_dom decimal datetime Decimal
                   fromtimestamp garantex o)))).
Proof.
  intros Ho headers. split; [|split].
  - unfold YahooReader.init. rewrite all_str_strs. cbn [bind].
    eexists. split; [reflexivity|].
    unfold YahooReader.get_rates.
    match goal with
    | |- context [_get_raw_data ?s ?u ?p ?h None PNone o] =>
        pose proof (fresh_reader_request s u p h None PNone o eq_refl eq_refl
                      (or_intror eq_refl) (or_intror eq_refl)
                      (or_intror eq_refl) Ho) as H;
        destruct (_get_raw_data s u p h None PNone o) as [s' [v|e]]
    end; exact H.
  - unfold MOEXReader.init. rewrite all_str_strs. cbn [bind].
    eexists. split; [reflexivity|].
    unfold MOEXReader.get_rates. cbn [MOEXReader.base].
    match goal with
    | |- context [_get_raw_data ?s ?u ?p ?h None PNone o] =>
        pose proof (fresh_reader_request s u p h None PNone o eq_refl eq_refl
                      (or_intror eq_refl) (or_intror eq_refl)
                      (or_intror eq_refl) Ho) as H;
        destruct (_get_raw_data s u p h None PNone o) as [s' [v|e]]
    end; [|exact H].
    unfold MOEXReader.rates_of.
    match goal with
    | |- context [match ?c with Ok _ => _ | Raise _ => _ end] => destruct c
    end; exact H.
  - unfold GarantexReader.init. cbn [is_str negb].
    eexists. split; [reflexivity|].
    unfold GarantexReader.get_dom.
    match goal with
    | |- context [_get_raw_data ?s ?u ?p ?h None PNone o] =>
        pose proof (fresh_reader_request s u p h None PNone o eq_refl eq_refl
                      (or_introl eq_refl) (or_introl eq_refl)
                      (or_introl eq_refl) Ho) as H;
        destruct (_get_raw_data s u p h None PNone o) as [s' [v|e]]
    end; exact H.
Qed.

Lemma rate_readers_send_what_was_configured_witness :
  exists garantex,
    GarantexReader.init (PStr "usdtrub") = Ok garantex /\
    sent_only
      (Session_get (PStr DEFAULTS.GARANTEX_API_URL)
         (PDict [("market", PStr "usdtrub")])
         (PDict [("User-Agent", PStr DEFAULTS.USER_AGENT);
                 ("Content-Type", PStr "application/json")]))
      (events
         (fst (GarantexReader.get_dom Z Z py_int py_int garantex
                 (Responded bad_gateway)))).
Proof.
  assert (Ho : forall e, Responded bad_gateway <> SleepRaises e)
    by (intros e H; discriminate H).
  exact (proj2 (proj2 (rate_readers_send_what_was_configured Z Z py_int
                         py_int py_int (fun n => Z.of_nat n) py_int py_int
                         ["USDRUB=X"; "EURRUB=X"] "usdtrub"
                         (Responded bad_gateway) Ho))).
Defined.

(** X14. The depth of market is the first row of each side: when the
    body decodes to an object whose ['asks'] and ['bids'] are lists that
    start with the rows [ask] and [bid], [GarantexReader.get_dom]
    returns the price and factor of these two rows and the time of
    ['timestamp'], under the fixed market label, whatever rows
    follow. *)
Theorem depth_of_market_is_the_first_row_of_each_side
  (decimal datetime : Type) (Decimal : pyval -> result decimal)
  (fromtimestamp : pyval -> result datetime)
  (garantex : t) (r : response) (json ask bid stamp : pyval)
  (asks bids : list pyval) (ap af bp bf : pyval)
  (ask_price ask_factor bid_price bid_factor : decimal)
  (updated_at : datetime) :
  truthy (__url garantex) = true ->
  __mode garantex = JSON ->
  resp_json r = Ok json ->
  getitem json "asks" = Ok (PList (ask :: asks)) ->
  getitem json "bids" = Ok (PList (bid :: bids)) ->
  getitem json "timestamp" = Ok stamp ->
  getitem ask "price" = Ok ap -> Decimal ap = Ok ask_price ->
  getitem ask "factor" = Ok af -> Decimal af = Ok ask_factor ->
  getitem bid "price" = Ok bp -> Decimal bp = Ok bid_price ->
  getitem bid "factor" = Ok bf -> Decimal bf = Ok bid_factor ->
  fromtimestamp stamp = Ok updated_at ->
  snd (GarantexReader.get_dom decimal datetime Decimal fromtimestamp
         garantex (Responded r))
  = Ok (Some {| GarantexReader.market := "USDT/РУБ";
                GarantexReader.ask_price := ask_price;
                GarantexReader.ask_factor := ask_factor;
                GarantexReader.bid_price := bid_price;
                GarantexReader.bid_factor := bid_factor;
                GarantexReader.updated_at := updated_at |}).
Proof.
  intros Hu Hm Hj Hasks Hbids Hstamp Hap Dap Haf Daf Hbp Dbp Hbf Dbf Hts.
  unfold GarantexReader.get_dom.
  pose proof (untagged_value garantex PNone PNone PNone PNone (Responded r)
                (or_intror Hu)) as H.
  rewrite Hm in H. unfold decode in H. simpl in H. rewrite Hj in H.
  destruct (_get_raw_data garantex PNone PNone PNone None PNone
              (Responded r)) as [s out].
  simpl in H. subst out. cbn [snd].
  assert (Ht : truthy json = true).
  { destruct json; try discriminate Hasks.
    destruct d; [discriminate Hasks|reflexivity]. }
  unfold GarantexReader.dom_of, GarantexReader.first_row.
  rewrite Ht, Hasks, Hbids, Hstamp. cbn [bind index nth_error].
  rewrite Hap, Haf, Hbp, Hbf. cbn [bind].
  rewrite Dap, Daf, Dbp, Dbf. cbn [bind]. rewrite Hts. reflexivity.
Qed.

(** A book of two asks and one bid. *)
Lemma depth_of_market_is_the_first_row_of_each_side_witness :
  let row price factor :=
    PDict [("price", PStr price); ("volume", PStr "1");
           ("factor", PStr factor)] in
  let json :=
    PDict [("timestamp", PInt 1700000000);
           ("asks", PList [row "95" "1"; row "96" "2"]);
           ("bids", PList [row "94" "3"])] in
  exists garantex,
    GarantexReader.init (PStr "usdtrub") = Ok garantex /\
    snd (GarantexReader.get_dom Z Z py_int py_int garantex
           (Responded (ok_response json)))
    = Ok (Some {| GarantexReader.market := "USDT/РУБ";
                  GarantexReader.ask_price := 95;
                  GarantexReader.ask_factor := 1;
                  GarantexReader.bid_price := 94;
                  GarantexReader.bid_factor := 3;
                  GarantexReader.updated_at := 1700000000 |}).
Proof.
  intros row json. eexists. split; [reflexivity|].
  apply (depth_of_market_is_the_first_row_of_each_side Z Z py_int py_int _
           (ok_response json) json (row "95" "1") (row "94" "3")
           (PInt 1700000000) [row "96" "2"] []
           (PStr "95") (PStr "1") (PStr "94") (PStr "3"));
    reflexivity.
Defined.

(** X15. Whatever [YahooReader.get_rates] returns was read off the
    quotes of the response: the body decoded to an object with a list
    under ['quoteResponse']['result'], there are at most as many entries
    as quotes, and every entry has the symbol, the short name and the
    price of one quote, under a key equal to that symbol. *)
Theorem yahoo_rates_are_read_off_the_quotes
  (decimal datetime : Type) (Decimal_of_str : pyval -> result decimal)
  (now : nat -> datetime) (yahoo : t) (o : outcome)
  (rates : pydict (YahooReader.CurrencyRate decimal datetime)) :
  __mode yahoo = JSON ->
  snd (YahooReader.get_rates decimal datetime Decimal_of_str now yahoo o)
  = Ok rates ->
  exists r json quote held rows,
    o = Responded r /\ resp_json r = Ok json /\
    getitem json "quoteResponse" = Ok quote /\
    getitem quote "result" = Ok held /\ iter held = Ok rows /\
    (List.length rates <= List.length rows)%nat /\
    forall key rate,
      In (key, rate) rates -> Provenance.quoted Decimal_of_str rows key rate.
Proof.
  intros Hm H. unfold YahooReader.get_rates in H.
  pose proof (fetched_payload yahoo o) as Hf.
  destruct (_get_raw_data yahoo _ _ _ None PNone o) as [s [json|e]];
    [|discriminate H].
  cbn [snd] in *. specialize (Hf json Hm eq_refl).
  unfold YahooReader.rates_of in H.
  destruct (getitem json "quoteResponse") as [quote|e] eqn:Eq;
    [|discriminate H].
  cbn [bind] in H.
  destruct (getitem quote "result") as [held|e] eqn:Eh; [|discriminate H].
  cbn [bind] in H.
  destruct (iter held) as [rows|e] eqn:Ei; [|discriminate H].
  cbn [bind] in H.
  destruct Hf as [->|[r [Ho Hj]]]; [discriminate Eq|].
  exists r, json, quote, held, rows.
  destruct (yahoo_rates_loop_quoted decimal datetime Decimal_of_str now json
              rows rows 0%nat [] rates (fun _ Hin => Hin) H)
    as [H1 H2]; [intros key rate []|].
  repeat split; try assumption.
Qed.

(** Two quotes. *)
Lemma yahoo_rates_are_read_off_the_quotes_witness :
  let quote symbol name price :=
    PDict [("symbol", PStr symbol); ("shortName", PStr name);
           ("regularMarketPrice", PInt price)] in
  let json :=
    PDict [("quoteResponse",
            PDict [("result", PList [quote "USDRUB=X" "USD/RUB" 95;
                                     quote "EURRUB=X" "EUR/RUB" 103]);
                   ("error", PNone)])] in
  exists yahoo rates,
    YahooReader.init (PStr DEFAULTS.YAHOO_SYMBOLS) = Ok yahoo /\
    snd (YahooReader.get_rates Z nat py_int (fun n => n) yahoo
           (Responded (ok_response json))) = Ok rates /\
    List.length rates = 2%nat /\
    exists r json' quote' held rows,
      Responded (ok_response json) = Responded r /\
      resp_json r = Ok json' /\
      getitem json' "quoteResponse" = Ok quote' /\
      getitem quote' "result" = Ok held /\ iter held = Ok rows /\
      (List.length rates <= List.length rows)%nat /\
      forall key rate,
        In (key, rate) rates -> Provenance.quoted py_int rows key rate.
Proof.
  intros quote json.
  pose (yahoo :=
          set_headers
            (set_params (init (PStr DEFAULTS.YAHOO_API_URL) PNone PNone JSON)
               (PDict [("symbols", PStr DEFAULTS.YAHOO_SYMBOLS)]))
            (PDict [("User-Agent", PStr DEFAULTS.USER_AGENT);
                    ("Content-Type", PStr "application/json")])).
  exists yahoo. eexists. split; [reflexivity|].
  split; [reflexivity|]. split; [reflexivity|].
  apply (yahoo_rates_are_read_off_the_quotes Z nat py_int (fun n => n) yahoo
           (Responded (ok_response json)) _ eq_refl eq_refl).
Defined.

(** X16. What [MOEXReader.get_rates] returns is the market data joined
    with the securities list. When it returns, the body decoded to an
    object with rows under ['securities']['data'] and
    ['marketdata']['data']; every entry returned has a security id as
    its key and joins a market row of that id, with a truthy price and
    the id found in the configured symbols string, with a securities row
    of the same id, whose names it carries; and no such market row is
    left out. *)
Theorem moex_rates_join_market_rows_with_securities
  (decimal datetime : Type) (Decimal_of : pyval -> result decimal)
  (fromisoformat : pyval -> result datetime)
  (moex : MOEXReader.t) (o : outcome)
  (rates : pydict (MOEXReader.CurrencyRate decimal datetime)) :
  __mode (MOEXReader.base moex) = JSON ->
  snd (MOEXReader.get_rates decimal datetime Decimal_of fromisoformat moex o)
  = Ok rates ->
  exists r json listing securities board marketdata srows mrows,
    o = Responded r /\ resp_json r = Ok json /\
    getitem json "securities" = Ok listing /\
    getitem listing "data" = Ok securities /\ iter securities = Ok srows /\
    getitem json "marketdata" = Ok board /\
    getitem board "data" = Ok marketdata /\ iter marketdata = Ok mrows /\
    (forall key rate,
        In (key, rate) rates ->
        Provenance.joined Decimal_of fromisoformat (MOEXReader.symbols moex)
          srows mrows key rate) /\
    (forall data secid price,
        In data mrows ->
        index data 2 = Ok (PStr secid) ->
        index data 0 = Ok price -> truthy price = true ->
        contains_str secid (MOEXReader.symbols moex) = true ->
        pd_lookup (PStr secid) rates <> None).
Proof.
  intros Hm H. unfold MOEXReader.get_rates in H.
  pose proof (fetched_payload (MOEXReader.base moex) o) as Hf.
  destruct (_get_raw_data (MOEXReader.base moex) _ _ _ None PNone o)
    as [s [json|e]]; [|discriminate H].
  cbn [snd] in Hf. specialize (Hf json Hm eq_refl).
  unfold MOEXReader.rates_of in H.
  destruct (getitem json "securities") as [listing|e] eqn:E1;
    [|discriminate H].
  cbn [bind] in H.
  destruct (getitem listing "data") as [securities|e] eqn:E2;
    [|discriminate H].
  cbn [bind] in H.
  destruct (iter securities) as [srows|e] eqn:E3; [|discriminate H].
  cbn [bind] in H.
  destruct (MOEXReader.metadata_loop json srows []) as [metadata|e] eqn:E4;
    [|discriminate H].
  cbn [snd MOEXReader.symbols] in H.
  destruct (getitem json "marketdata") as [board|e] eqn:E5;
    [|discriminate H].
  cbn [bind] in H.
  destruct (getitem board "data") as [marketdata|e] eqn:E6;
    [|discriminate H].
  cbn [bind] in H.
  destruct (iter marketdata) as [mrows|e] eqn:E7; [|discriminate H].
  cbn [bind] in H.
  destruct Hf as [->|[r [Ho Hj]]]; [discriminate E1|].
  exists r, json, listing, securities, board, marketdata, srows, mrows.
  assert (Hmeta : forall key meta,
             In (key, meta) metadata -> Provenance.listed srows key meta).
  { apply (moex_metadata_listed json srows srows [] metadata
             (fun _ Hin => Hin) E4).
    intros key meta []. }
  assert (Ht : truthy json = true).
  { destruct json; try discriminate E1.
    destruct d; [discriminate E1|reflexivity]. }
  repeat split; try assumption.
  - intros key rate Hin.
    apply (moex_rates_loop_joined decimal datetime Decimal_of fromisoformat
             _ metadata json srows mrows Hmeta mrows [] rates
             (fun _ Hin => Hin) H); [intros k x []|exact Hin].
  - intros data secid price Hin H2 H0 Hp Hc.
    apply (proj2 (moex_rates_loop_complete decimal datetime Decimal_of
                    fromisoformat _ metadata json mrows [] rates H)
             Ht data secid price); assumption.
Qed.

(** The scenario of three securities and market data for two symbols. *)
Lemma moex_rates_join_market_rows_with_securities_witness :
  let row price secid :=
    PList [price; PStr "10:00:00"; PStr secid;
           PStr "2023-01-10 10:00:00"] in
  let payload :=
    PDict [("securities",
            PDict [("data",
                    PList [PList [PStr "USD000UTSTOM"; PStr "USDRUB_TOM";
                                  PStr "USD/RUB TOM"];
                           PList [PStr "CNYRUB_TOM"; PStr "CNYRUB_TOM";
                                  PStr "CNY/RUB TOM"]])]);
           ("marketdata",
            PDict [("data",
                    PList [row (PInt 70) "USD000UTSTOM";
                           row PNone "CNYRUB_TOM"])])] in
  exists moex rates,
    MOEXReader.init (PStr DEFAULTS.MOEX_SYMBOLS) = Ok moex /\
    snd (MOEXReader.get_rates pyval pyval (fun v => Ok v) (fun v => Ok v)
           moex (Responded (ok_response payload))) = Ok rates /\
    pd_lookup (PStr "USD000UTSTOM") rates <> None.
Proof.
  intros row payload.
  pose (moex :=
          {| MOEXReader.base :=
               set_headers
                 (set_params
                    (init (PStr DEFAULTS.MOEX_API_URL) PNone PNone JSON)
                    DEFAULTS.MOEX_API_PARAMS)
                 (PDict [("User-Agent", PStr DEFAULTS.USER_AGENT);
                         ("Content-Type", PStr "application/json")]);
             MOEXReader.symbols := DEFAULTS.MOEX_SYMBOLS;
             MOEXReader.__moex_metadata := [] |}).
  exists moex. eexists. split; [reflexivity|].
  split; [reflexivity|].
  destruct (moex_rates_join_market_rows_with_securities pyval pyval
              (fun v => Ok v) (fun v => Ok v) moex
              (Responded (ok_response payload)) _ eq_refl eq_refl)
    as [r [json [listing [securities [board [marketdata [srows [mrows
         [Ho [Hj [H1 [H2 [H3 [H4 [H5 [H6 [_ Hall]]]]]]]]]]]]]]]]].
  injection Ho as <-. injection Hj as <-.
  injection H4 as <-. injection H5 as <-. injection H6 as <-.
  apply (Hall (row (PInt 70) "USD000UTSTOM") "USD000UTSTOM" (PInt 70));
    [left; reflexivity|reflexivity|reflexivity|reflexivity|reflexivity].
Defined.

(** X17. [XeReader] accepts a list of symbols exactly when every symbol
    is one of the supported pairs (the ordered pairs of distinct
    currencies of [DEFAULTS.XE_SYMBOLS]): it then holds one page address
    per symbol, in order, duplicates included, and reads in HTML mode;
    otherwise the constructor raises [ValueError]. *)
Theorem xe_reader_accepts_exactly_the_supported_pairs
  (pairs : list string) :
  (Forall (fun pair => In pair XeReader.supported_pairs) pairs ->
   exists xe,
     XeReader.init (PList (map PStr pairs)) = Ok xe /\
     HTMLReader.__urls xe
     = map (fun pair => XeReader.page_url (PStr pair)) pairs /\
     __mode (HTMLReader.base xe) = HTML) /\
  (~ Forall (fun pair => In pair XeReader.supported_pairs) pairs ->
   XeReader.init (PList (map PStr pairs)) = Raise ValueError).
Proof.
  unfold XeReader.init. cbn [HTMLReader.init bind].
  rewrite issubset_strs. cbn [bind].
  destruct (forallb (fun p => existsb (String.eqb p) XeReader.supported_pairs)
              pairs) eqn:E.
  - split.
    + intros _. eexists. split; [reflexivity|].
      cbn [negb HTMLReader.urls_setter fst HTMLReader.__urls
           HTMLReader.base].
      split; [apply map_map|reflexivity].
    + intro H. exfalso. apply H. apply covered_iff. exact E.
  - split.
    + intro H. apply covered_iff in H. congruence.
    + intros _. reflexivity.
Qed.

Lemma xe_reader_accepts_exactly_the_supported_pairs_witness :
  (exists xe,
      XeReader.init (PList [PStr "USD/RUB"; PStr "XBT/USD"]) = Ok xe /\
      HTMLReader.__urls xe
      = [XeReader.page_url (PStr "USD/RUB");
         XeReader.page_url (PStr "XBT/USD")] /\
      __mode (HTMLReader.base xe) = HTML) /\
  XeReader.init (PList [PStr "USD/RUB"; PStr "USD/EUR"]) = Raise ValueError.
Proof.
  split.
  - apply (proj1 (xe_reader_accepts_exactly_the_supported_pairs
                    ["USD/RUB"; "XBT/USD"])).
    repeat constructor; vm_compute; tauto.
  - apply (proj2 (xe_reader_accepts_exactly_the_supported_pairs
                    ["USD/RUB"; "USD/EUR"])).
    intro H. inversion H as [|? ? _ H']. inversion H' as [|? ? Hin _].
    vm_compute in Hin.
    repeat (destruct Hin as [Hin|Hin]; [discriminate Hin|]). exact Hin.
Defined.

(** X18. The page address of a pair asks the converter for the pair
    reversed: for the symbol [BASE/QUOTE], with a three-letter [BASE],
    the query is [From=QUOTE] and [To=BASE]. *)
Theorem xe_page_asks_for_the_pair_reversed (base quote : string) :
  String.length base = 3%nat ->
  XeReader.page_url (PStr (base ++ "/" ++ quote))
  = PStr (DEFAULTS.XE_URL ++ "?Amount=1&From=" ++ quote ++ "&To=" ++ base).
Proof.
  intro H.
  destruct base as [|a [|b [|c [|d base]]]]; try discriminate H.
  unfold XeReader.page_url.
  change (String a (String b (String c "")) ++ "/" ++ quote)
    with (String a (String b (String c (String "/" quote)))).
  cbn [String.length Nat.sub substring].
  rewrite Nat.sub_0_r, substring_all. reflexivity.
Qed.

Lemma xe_page_asks_for_the_pair_reversed_witness :
  XeReader.page_url (PStr "USD/RUB")
  = PStr "https://www.xe.com/currencyconverter/convert/?Amount=1&From=RUB&To=USD".
Proof.
  apply (xe_page_asks_for_the_pair_reversed "USD" "RUB"). reflexivity.
Defined.

(** X19. Whatever [XeReader.get_rates] returns was scraped from the
    gathered pages: there are at most as many entries as page addresses,
    and every entry comes from the first text node the query finds on
    one page, whose second and last token make the key (and the symbol
    and the name) and whose last token but one, commas removed, is the
    rate. The symbols the reader was built with play no part. *)
Theorem xe_rates_are_scraped_from_the_pages
  (decimal datetime : Type) (Decimal : string -> result decimal)
  (now : datetime) (xpath_text : slot -> result (list string))
  (xe : HTMLReader.t) (net : nat -> outcome) (schedule : list nat)
  (rates : list (string * XeReader.CurrencyRate decimal datetime)) :
  snd (XeReader.get_rates decimal datetime Decimal now xpath_text xe net
         schedule) = Ok rates ->
  (List.length rates <= List.length (HTMLReader.__urls xe))%nat /\
  forall key rate,
    In (key, rate) rates ->
    Provenance.scraped Decimal now xpath_text
      (snd (HTMLReader.get_pages xe net schedule)) key rate.
Proof.
  unfold XeReader.get_rates, HTMLReader.get_pages.
  pose proof (gather_length
                (HTMLReader.tasks_of xe (HTMLReader.__urls xe) 0 net)
                schedule (HTMLReader.base xe)) as Hlen.
  rewrite html_tasks_length in Hlen.
  destruct (gather _ schedule (HTMLReader.base xe)) as [b pages].
  cbn [fst snd] in *. intro H.
  destruct (xe_rates_loop_scraped decimal datetime Decimal now xpath_text
              pages pages [] rates (fun _ Hin => Hin) H) as [H1 H2];
    [intros key rate []|].
  split; [simpl in H2; lia|exact H1].
Qed.

(** One page that reads [1 USD = 1,095 RUB]. *)
Lemma xe_rates_are_scraped_from_the_pages_witness :
  let xpath_text (page : slot) := Ok ["1 USD = 1,095 RUB"] in
  let net (_ : nat) := Responded (page_response "<html>...</html>") in
  exists xe rates,
    XeReader.init (PStr "RUB/USD") = Ok xe /\
    snd (XeReader.get_rates Z Z int_of_str 0 xpath_text xe net []) = Ok rates /\
    map fst rates = ["USD/RUB"] /\
    (List.length rates <= List.length (HTMLReader.__urls xe))%nat.
Proof.
  intros xpath_text net.
  pose (xe :=
          {| HTMLReader.base :=
               set_headers (init PNone PNone PNone HTML)
                 (PDict [("User-Agent", PStr DEFAULTS.USER_AGENT)]);
             HTMLReader.__urls := [XeReader.page_url (PStr "RUB/USD")] |}).
  exists xe. eexists. split; [reflexivity|].
  assert (E : snd (XeReader.get_rates Z Z int_of_str 0 xpath_text xe net [])
              = Ok [("USD/RUB",
                     {| XeReader.symbol := "USD/RUB";
                        XeReader.name := "USD/RUB";
                        XeReader.rate := 1095;
                        XeReader.updated_at := 0 |})]).
  { vm_compute. reflexivity. }
  split; [exact E|]. split; [reflexivity|].
  apply (xe_rates_are_scraped_from_the_pages Z Z int_of_str 0 xpath_text xe
           net [] _ E).
Defined.

(** ** The wallets of a result *)

(** X20. When no response body comes with a ['wallet_address'] of its
    own (every body that decodes is an object without that key), the
    mapping [get_balances] returns, whenever it returns one and whatever
    the order of completion, has exactly the requested wallets as its
    keys, in the order they were given. *)
Theorem balances_name_exactly_the_requested_wallets
  (ws : list string) (tron : TronWalletReader.t)
  (bsc : BscScanWalletReader.t) (net : nat -> outcome)
  (schedule : list nat) :
  NoDup ws ->
  __mode (TronWalletReader.base tron) = JSON ->
  __mode (BscScanWalletReader.base bsc) = JSON ->
  (forall i r v0,
      net i = Responded r -> resp_json r = Ok v0 ->
      exists d, v0 = PDict d /\ lookup "wallet_address" d = None) ->
  let wallets := map PStr ws in
  let tron := fst (TronWalletReader.wallets_setter tron (PList wallets)) in
  let bsc := fst (BscScanWalletReader.wallets_setter bsc (PList wallets)) in
  (forall balances,
      snd (TronWalletReader.get_balances tron net schedule) = Ok balances ->
      map fst balances = wallets) /\
  (forall balances,
      snd (BscScanWalletReader.get_balances bsc net schedule) = Ok balances ->
      map fst balances = wallets).
Proof.
  intros Hnd Hmt Hmb Hnet wallets.
  destruct (tron_setter_strs tron ws Hnd)
    as [tron' [Hset [Hbase [Hws [Hurls Htrnx]]]]].
  fold wallets in Hset, Hws, Hurls, Htrnx. rewrite Hset. simpl fst.
  destruct (fresh_dict 0 ws Hnd) as [zero [Ez Hz]]. fold wallets in Ez, Hz.
  assert (Hin : forall address, In address wallets ->
                                pd_lookup address zero <> None).
  { intros address Ha.
    apply (pd_comprehension_keys _ _ _ _ address Ez). left. exact Ha. }
  split; intros balances Hget.
  - unfold TronWalletReader.get_balances in Hget.
    rewrite Hws, Ez in Hget.
    pose proof (tron_fetch_urls_ok tron' (TronWalletReader.urls tron') net
                  schedule) as Hok.
    rewrite Hbase, Hurls in Hok. specialize (Hok Hmt).
    destruct (TronWalletReader.fetch_urls tron' (TronWalletReader.urls tron')
                net schedule) as [tron'' raw_data].
    cbn [fst snd] in *. destruct Hok as [_ Hatt].
    rewrite (tron_balances_keys _ _ _ _ Hget); [exact Hz|].
    intros s address Hs Hget'. apply Hin.
    destruct s as [v|e]; [|discriminate Hget'].
    apply (attributed_address wallets net v address Hnet (Hatt v Hs) Hget').
  - unfold BscScanWalletReader.get_balances in Hget.
    cbn [BscScanWalletReader.__wallets
         BscScanWalletReader.balance_params_list] in Hget.
    rewrite Ez in Hget.
    destruct (bsc_fetch_urls_ok
                (fst (BscScanWalletReader.wallets_setter bsc (PList wallets)))
                (BscScanWalletReader.balance_params bsc) wallets net schedule
                (fun _ => eq_refl) Hmb) as [slots [E [_ Hatt]]].
    cbn [BscScanWalletReader.wallets_setter fst] in E.
    destruct (BscScanWalletReader.fetch_urls _ _ net schedule)
      as [bsc'' [raw_data|e]]; [|discriminate Hget].
    cbn [fst snd] in *. injection E as ->.
    rewrite (bsc_balances_keys _ _ _ Hget); [exact Hz|].
    intros s address Hs Hget'. apply Hin.
    destruct s as [v|e]; [|discriminate Hget'].
    apply (attributed_address wallets net v address Hnet (Hatt v Hs) Hget').
Qed.

(** Two wallets, the second answered first. *)
Lemma balances_name_exactly_the_requested_wallets_witness :
  let net (_ : nat) := Responded (ok_response (PDict (tron_account "5"))) in
  let tron :=
    fst (TronWalletReader.wallets_setter blank_tron
           (PList [PStr "TA"; PStr "TB"])) in
  snd (TronWalletReader.get_balances tron net [1; 1; 0; 0]%nat)
  = Ok [(PStr "TA", 5); (PStr "TB", 5)] /\
  map fst [(PStr "TA", 5); (PStr "TB", 5)] = [PStr "TA"; PStr "TB"].
Proof.
  intros net tron.
  assert (Hnd : NoDup ["TA"; "TB"]).
  { constructor; [simpl; intros [H|[]]; discriminate H|].
    constructor; [intros []|constructor]. }
  assert (Hnet : forall i r v0,
             net i = Responded r -> resp_json r = Ok v0 ->
             exists d, v0 = PDict d /\ lookup "wallet_address" d = None).
  { intros i r v0 Hr Hj. injection Hr as <-. injection Hj as <-.
    eexists. split; reflexivity. }
  assert (E : snd (TronWalletReader.get_balances tron net [1; 1; 0; 0]%nat)
              = Ok [(PStr "TA", 5); (PStr "TB", 5)])
    by (vm_compute; reflexivity).
  split; [exact E|].
  exact (proj1 (balances_name_exactly_the_requested_wallets ["TA"; "TB"]
                  blank_tron blank_bsc net [1; 1; 0; 0]%nat
                  Hnd eq_refl eq_refl Hnet) _ E).
Defined.

(** X21. [get_transactions] never adds a wallet: whenever it returns a
    mapping, whatever the responses hold and whatever the order of
    completion, the keys are exactly the requested wallets, in the order
    they were given. (A record is appended to a list that is first
    looked up, so a wallet that was not requested raises instead.) *)
Theorem transactions_name_exactly_the_requested_wallets
  (datetime : Type) (fromtimestamp_ms : pyval -> result datetime)
  (fromtimestamp : Z -> result datetime)
  (ws : list string) (tron : TronWalletReader.t)
  (bsc : BscScanWalletReader.t) (net : nat -> outcome)
  (schedule : list nat) :
  NoDup ws ->
  let wallets := map PStr ws in
  let tron := fst (TronWalletReader.wallets_setter tron (PList wallets)) in
  let bsc := fst (BscScanWalletReader.wallets_setter bsc (PList wallets)) in
  (forall found,
      snd (TronWalletReader.get_transactions datetime fromtimestamp_ms tron
             net schedule) = Ok found ->
      map fst found = wallets) /\
  (forall found,
      snd (BscScanWalletReader.get_transactions datetime fromtimestamp bsc
             net schedule) = Ok found ->
      map fst found = wallets).
Proof.
  intros Hnd wallets.
  destruct (tron_setter_strs tron ws Hnd)
    as [tron' [Hset [Hbase [Hws [Hurls Htrnx]]]]].
  fold wallets in Hset, Hws, Hurls, Htrnx. rewrite Hset. simpl fst.
  destruct (fresh_dict (@nil (TronWalletReader.transaction datetime)) ws Hnd)
    as [none [En Hn]].
  destruct (fresh_dict (@nil (BscScanWalletReader.transaction datetime)) ws
              Hnd) as [none' [En' Hn']].
  fold wallets in En, Hn, En', Hn'.
  split; intros found Hget.
  - unfold TronWalletReader.get_transactions in Hget.
    rewrite Hws, En in Hget.
    destruct (TronWalletReader.fetch_urls tron'
                (TronWalletReader.trnx_urls tron') net schedule)
      as [tron'' raw_data].
    cbn [snd] in Hget.
    rewrite (tron_transactions_keys _ _ _ _ _ Hget). exact Hn.
  - unfold BscScanWalletReader.get_transactions in Hget.
    cbn [BscScanWalletReader.__wallets BscScanWalletReader.wallets_setter
         fst] in Hget.
    rewrite En' in Hget.
    destruct (BscScanWalletReader.fetch_urls _ _ net schedule)
      as [bsc'' [raw_data|e]]; [|discriminate Hget].
    cbn [snd] in Hget.
    rewrite (bsc_transactions_keys _ _ _ _ _ Hget). exact Hn'.
Qed.

(** One transfer, received by the only wallet. *)
Lemma transactions_name_exactly_the_requested_wallets_witness :
  let net (_ : nat) :=
    Responded (ok_response
      (PDict [("data", PList [trc20_transfer "TA" "TB" "USDT"]);
              ("success", PBool true)])) in
  let tron :=
    fst (TronWalletReader.wallets_setter blank_tron (PList [PStr "TB"])) in
  snd (TronWalletReader.get_transactions Z py_int tron net [])
  = Ok [(PStr "TB",
         [{| TronWalletReader.wallet := PStr "TA";
             TronWalletReader.timestamp := 1700000000000;
             TronWalletReader.value := 100 |}])] /\
  map fst [(PStr "TB",
            [{| TronWalletReader.wallet := PStr "TA";
                TronWalletReader.timestamp := 1700000000000;
                TronWalletReader.value := 100 |}])]
  = [PStr "TB"].
Proof.
  intros net tron.
  assert (Hnd : NoDup ["TB"]) by (constructor; [intros []|constructor]).
  assert (E : snd (TronWalletReader.get_transactions Z py_int tron net [])
              = Ok [(PStr "TB",
                     [{| TronWalletReader.wallet := PStr "TA";
                         TronWalletReader.timestamp := 1700000000000;
                         TronWalletReader.value := 100 |}])])
    by (vm_compute; reflexivity).
  split; [exact E|].
  exact (proj1 (transactions_name_exactly_the_requested_wallets Z py_int
                  (fun n => Ok n) ["TB"] blank_tron blank_bsc net [] Hnd)
           _ E).
Defined.

(** X22. BscScan balances when the requests complete one after the
    other. A wallet whose response decodes to an object that reports
    (no ['wallet_address'] of its own, a ['message']) gets the amount
    under ['result'] when the message is [OK], and [-1] otherwise. A
    wallet whose response is not decoded is not marked: its slot repeats
    the one before it, which is processed a second time, and the wallet
    keeps the [0] it started with. (When it is the first wallet, the
    slot is [None] and [get_balances] raises.) *)
Theorem bsc_balances_completed_in_order
  (ws : list string) (bsc : BscScanWalletReader.t) (net : nat -> outcome)
  (amounts : list Z) :
  NoDup ws ->
  __mode (BscScanWalletReader.base bsc) = JSON ->
  truthy (__url (BscScanWalletReader.base bsc)) = true ->
  List.length amounts = List.length ws ->
  (forall i z,
      nth_error amounts i = Some z ->
      (exists r d,
          net i = Responded r /\ resp_json r = Ok (PDict d) /\
          bsc_reported d z) \/
      (z = 0 /\ i <> O /\ undecoded JSON (net i))) ->
  let bsc :=
    fst (BscScanWalletReader.wallets_setter bsc (PList (map PStr ws))) in
  snd (BscScanWalletReader.get_balances bsc net [])
  = Ok (combine (map PStr ws) amounts).
Proof.
  intros Hnd Hm Hu Hlen Hnet.
  cbn [BscScanWalletReader.wallets_setter fst].
  unfold BscScanWalletReader.get_balances.
  cbn [BscScanWalletReader.__wallets BscScanWalletReader.balance_params_list].
  rewrite (pd_comprehension_strs (fun _ => 0) ws [] Hnd)
    by (intros; reflexivity).
  cbn [app].
  match goal with
  | |- context [BscScanWalletReader.fetch_urls ?b _ net []] =>
      destruct (bsc_fetch_in_order b (BscScanWalletReader.balance_params bsc)
                  (map PStr ws) net (fun _ => eq_refl) Hm Hu)
        as [slots [E [Ha Hb]]];
      destruct (bsc_fetch_urls_ok b (BscScanWalletReader.balance_params bsc)
                  (map PStr ws) net [] (fun _ => eq_refl) Hm)
        as [slots' [E' [Hsl _]]]
  end.
  rewrite E in E'. injection E' as <-. rewrite length_map in Hsl.
  destruct (BscScanWalletReader.fetch_urls _ _ net [])
    as [bsc' [raw_data|e]]; [|discriminate E].
  cbn [snd] in *. injection E as ->.
  apply (balances_in_order BscScanWalletReader.balances_loop bsc_reported
           (fun _ => eq_refl) bsc_reported_body ws amounts slots Hnd Hlen Hsl).
  intros i w z Hw Hz.
  assert (Hwi : nth_error (map PStr ws) i = Some (PStr w))
    by (rewrite nth_error_map, Hw; reflexivity).
  destruct (Hnet i z Hz) as [[r [d [Hr [Hj Hrep]]]]|[-> [Hi Hun]]].
  - left. exists d. split; [|exact Hrep].
    apply (Ha i (PStr w) r d Hwi Hr Hj). apply Hrep.
  - right. split; [reflexivity|].
    destruct i as [|j]; [congruence|]. exists j. split; [reflexivity|].
    apply (Hb (S j)); [|exact Hun].
    rewrite length_map. apply nth_error_Some. congruence.
Qed.

(** Three wallets: a balance of 7, a failed request, a provider error. *)
Lemma bsc_balances_completed_in_order_witness :
  let net i :=
    match i with
    | O => Responded (ok_response
             (PDict [("status", PStr "1"); ("message", PStr "OK");
                     ("result", PStr "7")]))
    | S O => GetRaises ClientError
    | _ => Responded (ok_response
             (PDict [("status", PStr "0"); ("message", PStr "NOTOK");
                     ("result", PStr "Invalid API Key")]))
    end in
  let bsc :=
    fst (BscScanWalletReader.wallets_setter blank_bsc
           (PList [PStr "0xaa"; PStr "0xbb"; PStr "0xcc"])) in
  snd (BscScanWalletReader.get_balances bsc net [])
  = Ok [(PStr "0xaa", 7); (PStr "0xbb", 0); (PStr "0xcc", -1)].
Proof.
  intros net bsc.
  assert (Hnd : NoDup ["0xaa"; "0xbb"; "0xcc"]).
  { constructor; [simpl; intros [H|[H|[]]]; discriminate H|].
    constructor; [simpl; intros [H|[]]; discriminate H|].
    constructor; [intros []|constructor]. }
  apply (bsc_balances_completed_in_order ["0xaa"; "0xbb"; "0xcc"] blank_bsc
           net [7; 0; -1] Hnd eq_refl eq_refl eq_refl).
  intros [|[|[|i]]] z Hz; simpl in Hz;
    try (destruct i; discriminate Hz); injection Hz as <-.
  - left. do 2 eexists. split; [reflexivity|]. split; [reflexivity|].
    split; [reflexivity|]. exists "OK". split; [reflexivity|].
    left. split; [reflexivity|]. exists (PStr "7"). split; reflexivity.
  - right. split; [reflexivity|]. split; [discriminate|exact I].
  - left. do 2 eexists. split; [reflexivity|]. split; [reflexivity|].
    split; [reflexivity|]. exists "NOTOK". split; [reflexivity|].
    right. split; [discriminate|reflexivity].
Defined.

(** X23. Tron balances when the requests complete one after the other.
    A wallet whose response decodes to an object that reports (no
    ['wallet_address'] of its own, a ['success']) gets [-1] when
    ['success'] is falsy, and otherwise the amount of the reader's
    contract in the token list of the first account of ['data'] that has
    tokens: the first truthy holding there, as an [int], or [0] when no
    account has tokens or none of the entries holds the contract. A
    wallet (not the first) whose response is not decoded keeps the [0]
    it started with. *)
Theorem tron_balances_completed_in_order
  (ws : list string) (tron : TronWalletReader.t) (net : nat -> outcome)
  (amounts : list Z) :
  NoDup ws ->
  __mode (TronWalletReader.base tron) = JSON ->
  truthy (__url (TronWalletReader.base tron)) = true ->
  List.length amounts = List.length ws ->
  (forall i z,
      nth_error amounts i = Some z ->
      (exists r d,
          net i = Responded r /\ resp_json r = Ok (PDict d) /\
          tron_reported (TronWalletReader.usdt_contract tron) d z) \/
      (z = 0 /\ i <> O /\ undecoded JSON (net i))) ->
  let tron :=
    fst (TronWalletReader.wallets_setter tron (PList (map PStr ws))) in
  snd (TronWalletReader.get_balances tron net [])
  = Ok (combine (map PStr ws) amounts).
Proof.
  intros Hnd Hm Hu Hlen Hnet.
  destruct (tron_setter_strs tron ws Hnd)
    as [tron' [Hset [Hbase [Hws [Hurls Htrnx]]]]].
  rewrite Hset. cbn [fst].
  assert (Hc : TronWalletReader.usdt_contract tron'
               = TronWalletReader.usdt_contract tron).
  { unfold TronWalletReader.wallets_setter in Hset.
    rewrite !(pd_comprehension_strs _ ws [] Hnd) in Hset
      by (intros; reflexivity).
    injection Hset as <-. reflexivity. }
  unfold TronWalletReader.get_balances. rewrite Hws.
  rewrite (pd_comprehension_strs (fun _ => 0) ws [] Hnd)
    by (intros; reflexivity).
  cbn [app]. rewrite <- Hbase in Hm, Hu.
  pose proof (tron_fetch_in_order tron' (TronWalletReader.urls tron') net
                Hm Hu) as Hord.
  pose proof (tron_fetch_urls_ok tron' (TronWalletReader.urls tron') net []
                Hm) as [Hsl _].
  rewrite Hurls, length_map in Hsl.
  destruct (TronWalletReader.fetch_urls tron' (TronWalletReader.urls tron')
              net []) as [tron'' slots] eqn:Ef.
  cbn [fst snd] in *.
  assert (Hc' : TronWalletReader.usdt_contract tron''
                = TronWalletReader.usdt_contract tron).
  { unfold TronWalletReader.fetch_urls in Ef.
    destruct (gather _ [] (TronWalletReader.base tron')) as [b responses].
    injection Ef as <- _. exact Hc. }
  rewrite Hc'. destruct Hord as [Ha Hb].
  apply (balances_in_order
           (TronWalletReader.balances_loop
              (TronWalletReader.usdt_contract tron))
           (tron_reported (TronWalletReader.usdt_contract tron))
           (fun _ => eq_refl)
           (tron_reported_body (TronWalletReader.usdt_contract tron))
           ws amounts slots Hnd Hlen Hsl).
  intros i w z Hw Hz.
  assert (Hwi : nth_error (map fst (TronWalletReader.urls tron')) i
                = Some (PStr w))
    by (rewrite Hurls, nth_error_map, Hw; reflexivity).
  destruct (nth_error_fst _ _ _ Hwi) as [u Hui].
  destruct (Hnet i z Hz) as [[r [d [Hr [Hj Hrep]]]]|[-> [Hi Hun]]].
  - left. exists d. split; [|exact Hrep].
    apply (Ha i (PStr w) u r d Hui Hr Hj). apply Hrep.
  - right. split; [reflexivity|].
    destruct i as [|j]; [congruence|]. exists j. split; [reflexivity|].
    apply (Hb (S j)); [|exact Hun].
    rewrite <- (length_map fst), Hurls, length_map.
    apply nth_error_Some. congruence.
Qed.

(** Four wallets: a holding of 5, a failed request, a provider error, an
    account without tokens. *)
Lemma tron_balances_completed_in_order_witness :
  let net i :=
    match i with
    | O => Responded (ok_response (PDict (tron_account "5")))
    | S O => GetRaises ClientError
    | S (S O) => Responded (ok_response
                   (PDict [("success", PBool false);
                           ("error", PStr "account not found")]))
    | _ => Responded (ok_response
             (PDict [("data", PList [PDict [("trc20", PList [])]]);
                     ("success", PBool true)]))
    end in
  let tron :=
    fst (TronWalletReader.wallets_setter blank_tron
           (PList [PStr "TA"; PStr "TB"; PStr "TC"; PStr "TD"])) in
  snd (TronWalletReader.get_balances tron net [])
  = Ok [(PStr "TA", 5); (PStr "TB", 0); (PStr "TC", -1); (PStr "TD", 0)].
Proof.
  intros net tron.
  assert (Hnd : NoDup ["TA"; "TB"; "TC"; "TD"]).
  { constructor; [simpl; intros [H|[H|[H|[]]]]; discriminate H|].
    constructor; [simpl; intros [H|[H|[]]]; discriminate H|].
    constructor; [simpl; intros [H|[]]; discriminate H|].
    constructor; [intros []|constructor]. }
  apply (tron_balances_completed_in_order ["TA"; "TB"; "TC"; "TD"]
           blank_tron net [5; 0; -1; 0] Hnd eq_refl eq_refl eq_refl).
  intros [|[|[|[|i]]]] z Hz; simpl in Hz;
    try (destruct i; discriminate Hz); injection Hz as <-.
  - left. do 2 eexists. split; [reflexivity|]. split; [reflexivity|].
    split; [reflexivity|]. exists (PBool true). split; [reflexivity|].
    right. split; [reflexivity|]. do 2 eexists.
    split; [reflexivity|]. split; [reflexivity|].
    right. exists [].
    exists (PDict [("trc20",
                    PList [PDict [(DEFAULTS.TRON_USDT_CONTRACT,
                                   PStr "5")]])]).
    exists []. do 2 eexists.
    split; [reflexivity|]. split; [constructor|].
    split; [reflexivity|]. split; [reflexivity|]. split; [reflexivity|].
    right. exists [].
    exists (PDict [(DEFAULTS.TRON_USDT_CONTRACT, PStr "5")]).
    exists [], (PStr "5").
    split; [reflexivity|]. split; [constructor|].
    split; [reflexivity|]. split; reflexivity.
  - right. split; [reflexivity|]. split; [discriminate|exact I].
  - left. do 2 eexists. split; [reflexivity|]. split; [reflexivity|].
    split; [reflexivity|]. exists (PBool false). split; [reflexivity|].
    left. split; [reflexivity|]. split; [|reflexivity].
    eexists. reflexivity.
  - left. do 2 eexists. split; [reflexivity|]. split; [reflexivity|].
    split; [reflexivity|]. exists (PBool true). split; [reflexivity|].
    right. split; [reflexivity|]. do 2 eexists.
    split; [reflexivity|]. split; [reflexivity|].
    left. split; [|reflexivity].
    constructor; [|constructor]. eexists. split; reflexivity.
Defined.

(** ** Setting the wallets *)

(** X24. [TronWalletReader] addresses every wallet once. After the
    wallets are set to a list of strings, with or without repetitions,
    [wallets] is that list as given, while [urls] and [trnx_urls] have
    each distinct wallet as a key exactly once, the same keys in the
    same order; the address of a wallet is the reader's URL followed by
    the wallet, and by [/transactions/trc20] for its transactions. *)
Theorem tron_wallets_are_addressed_once
  (self : TronWalletReader.t) (strs : list string) :
  let url := py_str (__url (TronWalletReader.base self)) in
  exists self',
    TronWalletReader.wallets_setter self (PList (map PStr strs))
    = (self', None) /\
    TronWalletReader.__wallets self' = map PStr strs /\
    NoDup (map fst (TronWalletReader.urls self')) /\
    (forall k, In k (map fst (TronWalletReader.urls self'))
               <-> In k (map PStr strs)) /\
    map fst (TronWalletReader.trnx_urls self')
    = map fst (TronWalletReader.urls self') /\
    forall w,
      In w strs ->
      pd_lookup (PStr w) (TronWalletReader.urls self') = Some (url ++ w) /\
      pd_lookup (PStr w) (TronWalletReader.trnx_urls self')
      = Some (url ++ w ++ "/transactions/trc20").
Proof.
  intro url. unfold TronWalletReader.wallets_setter. fold url.
  destruct (pd_comprehension_str_keys (fun wallet => url ++ py_str wallet)
              strs [] (NoDup_nil _)) as [us [Eu [Hnd Hk]]].
  destruct (pd_comprehension_str_keys
              (fun wallet => url ++ py_str wallet ++ "/transactions/trc20")
              strs [] (NoDup_nil _)) as [ts [Et _]].
  rewrite Eu, Et. eexists. split; [reflexivity|].
  cbn [TronWalletReader.__wallets TronWalletReader.urls
       TronWalletReader.trnx_urls].
  split; [reflexivity|]. split; [exact Hnd|]. split.
  - intro k. rewrite Hk. simpl. tauto.
  - split.
    + apply (pd_comprehension_same_keys _ _ (map PStr strs) [] [] ts us
               eq_refl Et Eu).
    + intros w Hin.
      assert (Hex : existsb (String.eqb w) strs = true).
      { apply existsb_exists. exists w. split; [exact Hin|].
        apply String.eqb_refl. }
      rewrite (pd_comprehension_str_lookup _ strs [] us w Eu).
      rewrite (pd_comprehension_str_lookup _ strs [] ts w Et).
      rewrite Hex. split; reflexivity.
Qed.

(** X25. A wallet that cannot be a dict key (a list or a dict among the
    wallets). The setter of [TronWalletReader] raises [TypeError] after
    it has replaced [wallets] and before it touches [urls] and
    [trnx_urls], which keep the addresses of the wallets set before, and
    the constructor raises too. The setter of [BscScanWalletReader]
    accepts the list; [get_balances] and [get_transactions] then raise
    [TypeError] before any request, leaving the reader as it was. *)
Theorem wallet_that_cannot_be_hashed
  (datetime : Type) (fromtimestamp : Z -> result datetime)
  (tron : TronWalletReader.t) (bsc : BscScanWalletReader.t)
  (l : list pyval) (contract : string) (api_key : pyval)
  (net : nat -> outcome) (schedule : list nat) :
  existsb (fun wallet => negb (hashable wallet)) l = true ->
  TronWalletReader.wallets_setter tron (PList l)
  = ({| TronWalletReader.base := TronWalletReader.base tron;
        TronWalletReader.usdt_contract :=
          TronWalletReader.usdt_contract tron;
        TronWalletReader.__wallets := l;
        TronWalletReader.urls := TronWalletReader.urls tron;
        TronWalletReader.trnx_urls := TronWalletReader.trnx_urls tron |},
     Some TypeError) /\
  TronWalletReader.init (PList l) contract api_key = Raise TypeError /\
  let bsc' := fst (BscScanWalletReader.wallets_setter bsc (PList l)) in
  snd (BscScanWalletReader.wallets_setter bsc (PList l)) = None /\
  BscScanWalletReader.__wallets bsc' = l /\
  BscScanWalletReader.get_balances bsc' net schedule
  = (bsc', Raise TypeError) /\
  BscScanWalletReader.get_transactions datetime fromtimestamp bsc' net
    schedule
  = (bsc', Raise TypeError).
Proof.
  intro H. split; [|split].
  - unfold TronWalletReader.wallets_setter.
    rewrite (pd_comprehension_unhashable _ l H). reflexivity.
  - unfold TronWalletReader.init, TronWalletReader.wallets_setter.
    cbn [TronWalletReader.__wallets TronWalletReader.base].
    rewrite (pd_comprehension_unhashable _ l H). reflexivity.
  - cbn [BscScanWalletReader.wallets_setter fst snd].
    split; [reflexivity|]. split; [reflexivity|].
    unfold BscScanWalletReader.get_balances,
      BscScanWalletReader.get_transactions.
    cbn [BscScanWalletReader.__wallets].
    rewrite !(pd_comprehension_unhashable _ l H). split; reflexivity.
Qed.

(** A wallet given as a list of its own. *)
Lemma wallet_that_cannot_be_hashed_witness :
  TronWalletReader.init (PList [PStr "TA"; PList [PStr "TB"]])
    DEFAULTS.TRON_USDT_CONTRACT (PStr DEFAULTS.TRON_API_KEY)
  = Raise TypeError /\
  let bsc' :=
    fst (BscScanWalletReader.wallets_setter blank_bsc
           (PList [PStr "TA"; PList [PStr "TB"]])) in
  BscScanWalletReader.get_balances bsc' (fun _ => GetRaises ClientError) []
  = (bsc', Raise TypeError).
Proof.
  pose proof (wallet_that_cannot_be_hashed Z (fun n => Ok n) blank_tron
                blank_bsc [PStr "TA"; PList [PStr "TB"]]
                DEFAULTS.TRON_USDT_CONTRACT (PStr DEFAULTS.TRON_API_KEY)
                (fun _ => GetRaises ClientError) [] eq_refl) as H.
  split; [apply H|apply H].
Defined.

(** ** What a call leaves behind *)

(** X26. A body that cannot be decoded is logged with its text. In JSON
    mode, when decoding the body raises an exception [e], the text of
    the response can be read and leaving the response raises nothing,
    the call returns [None]; its trace is the request followed by one
    error line that carries [e] and the text; and the status and the
    final URL of the response are those the reader shows afterwards. *)
Theorem body_that_does_not_decode_is_logged
  (self : t) (url params headers : pyval) (task_key : option string)
  (task_name : pyval) (r : response) (e : exn) (body : string) :
  truthy url = true \/ truthy (__url self) = true ->
  __mode self = JSON ->
  resp_json r = Raise e ->
  is_Exception e = true ->
  resp_text r = Ok body ->
  resp_exit r = None ->
  exists self',
    _get_raw_data self url params headers task_key task_name (Responded r)
    = (self', Ok PNone) /\
    events self'
    = (events self
       ++ [Session_get (py_or url (__url self))
             (py_or params (__params self))
             (py_or headers (__headers self));
           Log_fetch_error e body])%list /\
    __response_status self' = resp_status r /\
    __response_url self' = resp_url r.
Proof.
  intros Hurl Hm Hj He Ht Hx. unfold _get_raw_data, prologue.
  rewrite (url_available self url Hurl).
  unfold try_suite, with_suite, decode.
  cbn [__mode emit set_result set_response rq_url rq_params rq_headers].
  rewrite Hm. cbn [is_JSON]. rewrite Hj, Hx. unfold except_suite.
  rewrite He, orb_true_r, Ht. eexists. split; [reflexivity|].
  simpl. rewrite <- app_assoc. repeat split; reflexivity.
Qed.

(** A gateway error page where JSON was expected. *)
Lemma body_that_does_not_decode_is_logged_witness :
  exists self',
    _get_raw_data (init (PStr DEFAULTS.BSCSCAN_API_URL) PNone PNone JSON)
      PNone PNone PNone (Some "wallet_address") (PStr "0xaa")
      (Responded bad_gateway)
    = (self', Ok PNone) /\
    events self'
    = [Session_get (PStr DEFAULTS.BSCSCAN_API_URL) PNone PNone;
       Log_fetch_error ClientError "Bad Gateway"] /\
    __response_status self' = 502 /\
    __response_url self' = PStr "https://api.bscscan.com/api/".
Proof.
  apply (body_that_does_not_decode_is_logged
           (init (PStr DEFAULTS.BSCSCAN_API_URL) PNone PNone JSON)
           PNone PNone PNone (Some "wallet_address") (PStr "0xaa")
           bad_gateway ClientError "Bad Gateway");
    try reflexivity.
  right. reflexivity.
Defined.

(** X27. The status and the final URL the reader shows are those of the
    last response: a call that gets a response records both, even when
    the body is not decoded or the task key collides; a call whose
    sleep or request raises leaves them as they were. *)
Theorem status_and_url_are_those_of_the_last_response
  (self : t) (url params headers : pyval) (task_key : option string)
  (task_name : pyval) (o : outcome) :
  truthy url = true \/ truthy (__url self) = true ->
  let self' :=
    fst (_get_raw_data self url params headers task_key task_name o) in
  match o with
  | Responded r =>
      __response_status self' = resp_status r /\
      __response_url self' = resp_url r
  | _ =>
      __response_status self' = __response_status self /\
      __response_url self' = __response_url self
  end.
Proof.
  intro Hurl. unfold _get_raw_data, prologue.
  rewrite (url_available self url Hurl). unfold try_suite.
  destruct o as [e|e|r].
  - simpl. destruct (is_ClientError e || is_Exception e);
      split; reflexivity.
  - simpl. destruct (is_ClientError e || is_Exception e);
      split; reflexivity.
  - match goal with
    | |- context [with_suite ?s task_key task_name r] =>
        pose proof (with_suite_response s task_key task_name r) as H1;
        destruct (with_suite s task_key task_name r) as [s1 inflight]
    end.
    match goal with
    | |- context [except_suite s1 ?i ?resp] =>
        pose proof (except_suite_response s1 i resp) as H2;
        destruct (except_suite s1 i resp) as [s2 inflight2]
    end.
    cbn [fst] in *. destruct H1 as [A1 B1], H2 as [A2 B2].
    split; congruence.
Qed.

Lemma status_and_url_are_those_of_the_last_response_witness :
  __response_status
    (fst (_get_raw_data
            (init (PStr DEFAULTS.BSCSCAN_API_URL) PNone PNone JSON)
            PNone PNone PNone None PNone (Responded bad_gateway))) = 502.
Proof.
  apply (status_and_url_are_those_of_the_last_response
           (init (PStr DEFAULTS.BSCSCAN_API_URL) PNone PNone JSON)
           PNone PNone PNone None PNone (Responded bad_gateway)).
  right. reflexivity.
Defined.

(** ** One request at a time *)

(** X28. With one wallet, or one page, the order of completion plays no
    part: whatever the schedule, the batch operations of a reader that
    has a single target return what they return when the request simply
    runs to its end. *)
Theorem batch_of_one_does_not_depend_on_the_order
  (datetime : Type) (fromtimestamp_ms : pyval -> result datetime)
  (fromtimestamp : Z -> result datetime)
  (wallet : string) (url : pyval) (tron : TronWalletReader.t)
  (bsc : BscScanWalletReader.t) (html : t)
  (net : nat -> outcome) (schedule : list nat) :
  let tron :=
    fst (TronWalletReader.wallets_setter tron (PList [PStr wallet])) in
  let bsc :=
    fst (BscScanWalletReader.wallets_setter bsc (PList [PStr wallet])) in
  let html := {| HTMLReader.base := html; HTMLReader.__urls := [url] |} in
  TronWalletReader.get_balances tron net schedule
  = TronWalletReader.get_balances tron net [] /\
  TronWalletReader.get_transactions datetime fromtimestamp_ms tron net
    schedule
  = TronWalletReader.get_transactions datetime fromtimestamp_ms tron net
      [] /\
  BscScanWalletReader.get_balances bsc net schedule
  = BscScanWalletReader.get_balances bsc net [] /\
  BscScanWalletReader.get_transactions datetime fromtimestamp bsc net
    schedule
  = BscScanWalletReader.get_transactions datetime fromtimestamp bsc net
      [] /\
  HTMLReader.get_pages html net schedule = HTMLReader.get_pages html net [].
Proof.
  cbn zeta.
  unfold TronWalletReader.get_balances, TronWalletReader.get_transactions,
    BscScanWalletReader.get_balances, BscScanWalletReader.get_transactions,
    HTMLReader.get_pages, TronWalletReader.fetch_urls,
    BscScanWalletReader.fetch_urls.
  cbn [TronWalletReader.wallets_setter BscScanWalletReader.wallets_setter
       fst snd map pd_comprehension pd_set hashable bind pd_insert
       TronWalletReader.__wallets TronWalletReader.urls
       TronWalletReader.trnx_urls TronWalletReader.base
       BscScanWalletReader.__wallets BscScanWalletReader.base
       BscScanWalletReader.balance_params_list
       BscScanWalletReader.trnx_params_list
       HTMLReader.__urls HTMLReader.base
       TronWalletReader.tasks_of BscScanWalletReader.tasks_of
       HTMLReader.tasks_of].
  repeat split;
    repeat match goal with
           | |- context [gather ?tasks schedule ?self] =>
               rewrite (gather_single tasks schedule self)
                 by (simpl; lia)
           end;
    try reflexivity.
  - unfold BscScanWalletReader.balance_params.
    cbn [getitem lookup String.eqb Ascii.eqb Bool.eqb bind].
    rewrite (gather_single _ schedule) by (simpl; lia). reflexivity.
  - unfold BscScanWalletReader.trnx_params.
    cbn [getitem lookup String.eqb Ascii.eqb Bool.eqb bind].
    rewrite (gather_single _ schedule) by (simpl; lia). reflexivity.
Qed.

(** X29. Calls made one after the other do not leak into each other:
    when a URL is available, what a call returns and leaves behind does
    not depend on the result an earlier call left in the reader (it is
    reset before the request). A slot of a batch can repeat the one
    before it only because the calls of a batch overlap. *)
Theorem call_forgets_the_result_before_it
  (self : t) (url params headers : pyval) (task_key : option string)
  (task_name : pyval) (o : outcome) (stale : pyval) :
  truthy url = true \/ truthy (__url self) = true ->
  _get_raw_data (set_result self stale) url params headers task_key
    task_name o
  = _get_raw_data self url params headers task_key task_name o.
Proof.
  intro Hurl. unfold _get_raw_data, prologue.
  change (__url (set_result self stale)) with (__url self).
  rewrite (url_available self url Hurl). reflexivity.
Qed.

Lemma call_forgets_the_result_before_it_witness :
  _get_raw_data
    (set_result (init (PStr DEFAULTS.GARANTEX_API_URL) PNone PNone JSON)
       (PDict [("timestamp", PInt 1)]))
    PNone PNone PNone None PNone (GetRaises ClientError)
  = _get_raw_data (init (PStr DEFAULTS.GARANTEX_API_URL) PNone PNone JSON)
      PNone PNone PNone None PNone (GetRaises ClientError).
Proof.
  apply (call_forgets_the_result_before_it
           (init (PStr DEFAULTS.GARANTEX_API_URL) PNone PNone JSON)).
  right. reflexivity.
Defined.

(** ** Constructors *)


